(** * gophrame, core/websocket: the Client of a websocket connection

    A shallow embedding of [core/websocket/client.go]: the [Client] struct, the
    connection establishment [OnOpen], the read loop [ReadPump], the send
    primitive [SendMessage] and the heartbeat loop [Heartbeat], together with
    the properties of the connection subsystem that are stated about them.

    The transport ([*websocket.Conn]), the upgrader, the clock, the ticker and
    the caller's callbacks are external collaborators.  What the client asks
    of them is recorded, in order, in a trace of events; what they answer is
    an explicit input of each operation.

    Three more parts of the repository follow the client, embedded in the
    same way: the service of WeChat official accounts (package [wxmp]:
    [createApp], [getAppSetting], [GetApp]), the generated conversion table
    of [core/mapper/converter/genOp.go] ([init], the [cvt] functions,
    [NewValuePtr]), and [OrganizationUserService.GetUserOrganizationIds]. *)

From Stdlib Require Import ZArith Lia List Bool.
From Stdlib.Strings Require Import String Ascii Byte.
From stdpp Require Import base tactics list gmap strings.
Import ListNotations.
Local Open Scope Z_scope.

(** ** Machine integers, durations and instants *)

(** Go's [int], [int64] and [time.Duration] are 64-bit two's complement. *)
Definition wrap64 (z : Z) : Z := (z + 2 ^ 63) mod 2 ^ 64 - 2 ^ 63.

Definition MaxInt64 : Z := 2 ^ 63 - 1.
Definition MinInt64 : Z := - 2 ^ 63.

(** [time.Nanosecond] and [time.Second], in nanoseconds. *)
Definition Nanosecond : Z := 1.
Definition Second : Z := 1000000000.

(** [d1 * d2] on [time.Duration]. *)
Definition Duration_mul (a b : Z) : Z := wrap64 (a * b).

(** A [time.Time]: the zero value [time.Time{}] (which a connection reads as
    "no deadline") or an instant, counted in nanoseconds. *)
Inductive Time :=
| ZeroTime
| Instant (ns : Z).

(** [time.Now().Add(d)], the clock reading [now]. *)
Definition Now_Add (now d : Z) : Time := Instant (now + d).

(** ** Errors, panics and the events of a run *)

(** The message constants of the package.  They are declared in a file that
    is not among the sources; only their names matter here. *)
Inductive ErrorsConst :=
| ErrorsWebsocketOnOpenFail
| ErrorsWebsocketUpgradeFail
| ErrorsWebsocketReadMessageFail
| ErrorsWebsocketBeatHeartFail
| ErrorsWebsocketBeatHeartsMoreThanMaxTimes
| ErrorsWebsocketSetWriteDeadlineFail
| ErrorsWebsocketWriteMgsFail
| ErrorsWebsocketStateInvalid.

Inductive RuntimeFault :=
| NilDereference        (* invalid memory address or nil pointer dereference *)
| MakeChanSize.         (* makechan: size out of range *)

(** Values of Go's [error] interface. *)
Inductive error :=
| errors_New (text : ErrorsConst)     (* errors.New(text) *)
| ExternalError (code : nat)          (* an error returned by the transport or the upgrader *)
| RuntimeError (f : RuntimeFault).    (* a runtime.Error *)

(** What a [panic] carries: an [error], or a value of another type. *)
Inductive PanicVal :=
| PanicErr (e : error)
| PanicOther (code : nat).

Definition NonPositiveTickerInterval : PanicVal := PanicOther 0.
Definition UnlockOfUnlockedMutex : PanicVal := PanicOther 1.

(** gorilla/websocket's message types. *)
Definition TextMessage : Z := 1.
Definition PingMessage : Z := 9.

(** Pointers: the address of a connection, the address of a client. *)
Abbreviation ConnRef := nat (only parsing).
Abbreviation ClientRef := nat (only parsing).

(** What [Conn.ReadMessage] returns: [(messageType, p, err)]. *)
Record ReadResult := mkRead {
  rdType : Z;
  rdData : list byte;
  rdErr : option error
}.

(** A call on the connection, with the answer it got where the code looks at
    it. *)
Inductive ConnCall :=
| SetWriteDeadline (t : Time) (r : option error)
| WriteMessage (messageType : Z) (data : list byte) (r : option error)
| SetReadDeadline (t : Time)
| SetReadLimit (limit : Z)
| SetPongHandler
| ReadMessage (r : ReadResult).

Inductive Event :=
| Upgrade (readBufferSize writeBufferSize : Z) (r : ConnRef + error)
| ConnEv (conn : ConnRef) (call : ConnCall)
| OnMessage (messageType : Z) (receivedData : list byte)   (* callbackOnMessage(mt, data) *)
| OnError (err : error)                                    (* callbackOnError(err) *)
| OnClose                                                  (* callbackOnClose() *)
| LogError (what : ErrorsConst) (err : error)              (* logger.Error(what, err.Error()) *)
| TickerStop.

(** ** The Client *)

(** [c.Hub]: nil, or a pointer to the process-wide hub
    ([global.WebsocketHub]).  The [Hub] type is declared in a file that is not
    among the sources; the client only sends itself on its [Register]
    channel. *)
Inductive HubPtr :=
| HubNil
| HubGlobal.

(** A [chan []byte]: its identity, its capacity and what is queued. *)
Record Chan := mkChan {
  chanId : nat;
  chanCap : Z;
  chanBuf : list (list byte)
}.

Record ClientMoreParams := mkParams {
  UserParams1 : string;
  UserParams2 : string
}.

Record Client := mkClient {
  Hub : HubPtr;
  Conn : ConnRef;
  Send : Chan;
  PingPeriod : Z;
  ReadDeadline : Z;
  WriteDeadline : Z;
  HeartbeatFailTimes : Z;
  State : Z;                    (* uint8: 1 = ok, 0 = failed or offline *)
  RWMutex : bool;               (* the embedded sync.RWMutex: true while write-locked *)
  MoreParams : ClientMoreParams
}.

Definition set_Hub (h : HubPtr) (c : Client) : Client :=
  mkClient h (Conn c) (Send c) (PingPeriod c) (ReadDeadline c) (WriteDeadline c)
           (HeartbeatFailTimes c) (State c) (RWMutex c) (MoreParams c).
Definition set_Conn (k : ConnRef) (c : Client) : Client :=
  mkClient (Hub c) k (Send c) (PingPeriod c) (ReadDeadline c) (WriteDeadline c)
           (HeartbeatFailTimes c) (State c) (RWMutex c) (MoreParams c).
Definition set_Send (ch : Chan) (c : Client) : Client :=
  mkClient (Hub c) (Conn c) ch (PingPeriod c) (ReadDeadline c) (WriteDeadline c)
           (HeartbeatFailTimes c) (State c) (RWMutex c) (MoreParams c).
Definition set_PingPeriod (d : Z) (c : Client) : Client :=
  mkClient (Hub c) (Conn c) (Send c) d (ReadDeadline c) (WriteDeadline c)
           (HeartbeatFailTimes c) (State c) (RWMutex c) (MoreParams c).
Definition set_ReadDeadline (d : Z) (c : Client) : Client :=
  mkClient (Hub c) (Conn c) (Send c) (PingPeriod c) d (WriteDeadline c)
           (HeartbeatFailTimes c) (State c) (RWMutex c) (MoreParams c).
Definition set_WriteDeadline (d : Z) (c : Client) : Client :=
  mkClient (Hub c) (Conn c) (Send c) (PingPeriod c) (ReadDeadline c) d
           (HeartbeatFailTimes c) (State c) (RWMutex c) (MoreParams c).
Definition set_HeartbeatFailTimes (n : Z) (c : Client) : Client :=
  mkClient (Hub c) (Conn c) (Send c) (PingPeriod c) (ReadDeadline c) (WriteDeadline c)
           n (State c) (RWMutex c) (MoreParams c).
Definition set_State (s : Z) (c : Client) : Client :=
  mkClient (Hub c) (Conn c) (Send c) (PingPeriod c) (ReadDeadline c) (WriteDeadline c)
           (HeartbeatFailTimes c) s (RWMutex c) (MoreParams c).
Definition set_RWMutex (b : bool) (c : Client) : Client :=
  mkClient (Hub c) (Conn c) (Send c) (PingPeriod c) (ReadDeadline c) (WriteDeadline c)
           (HeartbeatFailTimes c) (State c) b (MoreParams c).

(** ** The world a Client runs in *)

(** A client, the [Register] channel of the hub (the clients sent on it and
    not yet received, oldest first), the allocator of channels and the events
    so far. *)
Record World := mkWorld {
  self : ClientRef;             (* the address of the client, [c] *)
  client : Client;              (* the struct at that address, [*c] *)
  registerQueue : list ClientRef;   (* what was sent on [c.Hub.Register] of the global hub *)
  nextChan : nat;               (* the next channel [make] hands out *)
  trace : list Event            (* the events so far, oldest first *)
}.

Definition with_client (f : Client -> Client) (w : World) : World :=
  mkWorld (self w) (f (client w)) (registerQueue w) (nextChan w) (trace w).
Definition with_trace (f : list Event -> list Event) (w : World) : World :=
  mkWorld (self w) (client w) (registerQueue w) (nextChan w) (f (trace w)).

(** ** Computations: state, panics, and calls that do not return *)

Inductive Res (A : Type) :=
| Ret (a : A)                   (* returned [a] *)
| Panic (v : PanicVal)          (* panicking with [v] *)
| Pending.                      (* has not returned: waiting for a lock, a tick or a frame *)
Arguments Ret {A} a.
Arguments Panic {A} v.
Arguments Pending {A}.

Definition M (A : Type) : Type := World -> Res A * World.

Definition ret {A} (a : A) : M A := fun w => (Ret a, w).

Definition bind {A B} (m : M A) (k : A -> M B) : M B :=
  fun w =>
    match m w with
    | (Ret a, w1) => k a w1
    | (Panic v, w1) => (Panic v, w1)
    | (Pending, w1) => (Pending, w1)
    end.

Declare Scope go_scope.
Delimit Scope go_scope with go.
Notation "x <- m ;; k" := (bind m (fun x => k))
  (at level 100, m at next level, right associativity) : go_scope.
Notation "m ;; k" := (bind m (fun _ => k))
  (at level 100, right associativity) : go_scope.
Local Open Scope go_scope.

Definition panic {A} (v : PanicVal) : M A := fun w => (Panic v, w).
Definition pending {A} : M A := fun w => (Pending, w).
Definition getClient : M Client := fun w => (Ret (client w), w).
Definition getSelf : M ClientRef := fun w => (Ret (self w), w).
Definition modify (f : Client -> Client) : M unit := fun w => (Ret tt, with_client f w).
Definition emit (e : Event) : M unit := fun w => (Ret tt, with_trace (fun t => t ++ [e]) w).

(** [defer func() { cleanup }()] around [body], without [recover]: the cleanup
    runs when the body returns or panics, and a panic of the body goes on
    after it. *)
Definition defer {A} (body : M A) (cleanup : M unit) : M A :=
  fun w =>
    match body w with
    | (Ret a, w1) => (_ <- cleanup ;; ret a) w1
    | (Panic v, w1) => (_ <- cleanup ;; panic v) w1
    | (Pending, w1) => (Pending, w1)
    end.

(** [defer func() { err := recover(); handler }()] around [body]: the handler
    sees the panic value of the body ([None] when it returned), and the
    function then returns normally, with [None] for its results when the body
    panicked.  A panic of the handler itself is not recovered. *)
Definition defer_recover {A} (body : M A) (handler : option PanicVal -> M unit)
  : M (option A) :=
  fun w =>
    match body w with
    | (Ret a, w1) => (_ <- handler None ;; ret (Some a)) w1
    | (Panic v, w1) => (_ <- handler (Some v) ;; ret None) w1
    | (Pending, w1) => (Pending, w1)
    end.

(** [if val, ok := err.(error); ok { logger.Error(what, val.Error()) }] on a
    recovered value. *)
Definition logRecovered (what : ErrorsConst) (p : option PanicVal) : M unit :=
  match p with
  | Some (PanicErr val) => emit (LogError what val)
  | _ => ret tt
  end.

(** ** The connection and the mutex *)

Definition Conn_call (call : ConnCall) : M unit :=
  c <- getClient ;; emit (ConnEv (Conn c) call).

(** [c.Lock()]: a lock that is held makes the caller wait. *)
Definition Lock : M unit :=
  c <- getClient ;;
  if RWMutex c then pending else modify (set_RWMutex true).

(** [c.Unlock()]. *)
Definition Unlock : M unit :=
  c <- getClient ;;
  if RWMutex c then modify (set_RWMutex false) else panic UnlockOfUnlockedMutex.

(** ** Constants of the package *)

Definition dquote : string := String (ascii_of_nat 34) EmptyString.

(** The JSON object with code 2000, the message "ws连接成功" and empty data. *)
Definition WebsocketHandshakeSuccess : string :=
  ("{" ++ dquote ++ "code" ++ dquote ++ ":2000," ++ dquote ++ "msg" ++ dquote ++ ":"
   ++ dquote ++ "ws连接成功" ++ dquote ++ "," ++ dquote ++ "data" ++ dquote ++ ":"
   ++ dquote ++ dquote ++ "}")%string.

Definition WebsocketServerPingMsg : string := "Server->Ping->Client".

(** ** SendMessage *)

(** What the outside answers during one [SendMessage]: the clock reading, the
    result of [SetWriteDeadline] and the result of [WriteMessage] (looked at
    only when the write is reached). *)
Record SendEnv := mkSendEnv {
  now : Z;
  deadlineErr : option error;
  writeErr : option error
}.

Definition SendMessage (env : SendEnv) (messageType : Z) (message : string)
  : M (option error) :=
  Lock ;;
  defer
    (c <- getClient ;;
     Conn_call (SetWriteDeadline (Now_Add (now env) (WriteDeadline c)) (deadlineErr env)) ;;
     match deadlineErr env with
     | Some err =>
         emit (LogError ErrorsWebsocketSetWriteDeadlineFail err) ;;
         ret (Some err)
     | None =>
         Conn_call (WriteMessage messageType (list_byte_of_string message) (writeErr env)) ;;
         match writeErr env with
         | Some err => ret (Some err)
         | None => ret None
         end
     end)
    Unlock.

(** ** Configuration *)

(** [config.Setting] of [core/websocket/config].  The package is not among
    the sources, so the setting is a parameter of the functions below, with
    the fields [client.go] reads: [BufferSize] and [HeartbeatFailMaxTimes]
    are used as [int], [MaxMessageSize] as [int64], and the three periods are
    converted with [time.Duration(...)]. *)
Module config.
Record WebsocketSetting := mkSetting {
  BufferSize : Z;
  PingPeriod : Z;
  ReadDeadline : Z;
  WriteDeadline : Z;
  MaxMessageSize : Z;
  HeartbeatFailMaxTimes : Z
}.
End config.

(** [time.Second * time.Duration(n)] *)
Definition seconds (n : Z) : Z := Duration_mul Second (wrap64 n).

(** ** Callbacks *)

(** The three functions the caller of [ReadPump] supplies.  Each may change
    the client it closes over, may panic, and may fail to return. *)
Record Callbacks := mkCallbacks {
  callbackOnMessage : Z -> list byte -> Client -> Res unit * Client;
  callbackOnError : error -> Client -> Res unit * Client;
  callbackOnClose : Client -> Res unit * Client
}.

(** Calling a callback: the call is recorded, then the callback runs. *)
Definition call (e : Event) (f : Client -> Res unit * Client) : M unit :=
  emit e ;;
  fun w => let (r, c') := f (client w) in (r, with_client (fun _ => c') w).

(** How one turn of a [for] loop ends. *)
Inductive Loop :=
| Continue
| Return.

(** ** OnOpen *)

(** [make(chan []byte, size)] *)
Definition make_chan (size : Z) : M Chan :=
  fun w =>
    if size <? 0 then (Panic (PanicErr (RuntimeError MakeChanSize)), w)
    else (Ret (mkChan (nextChan w) size []),
          mkWorld (self w) (client w) (registerQueue w) (S (nextChan w)) (trace w)).

(** [c.Hub.Register <- c].  The hub's processing loop is taken to receive
    from the channel, so the send does not wait. *)
Definition Hub_Register_send : M unit :=
  fun w =>
    match Hub (client w) with
    | HubNil => (Panic (PanicErr (RuntimeError NilDereference)), w)
    | HubGlobal =>
        (Ret tt,
         mkWorld (self w) (client w) (registerQueue w ++ [self w]) (nextChan w) (trace w))
    end.

(** What the outside answers during [OnOpen]: the result of
    [upGrader.Upgrade], the result of the type assertion
    of [global.WebsocketHub] to a pointer to a hub ([None] when it does not hold), and the
    answers to the handshake's [SendMessage]. *)
Record OpenEnv := mkOpenEnv {
  upgrade : ConnRef + error;
  globalHub : option HubPtr;
  handshake : SendEnv
}.

Section WithSetting.

Variable Setting : config.WebsocketSetting.

Definition OnOpen (env : OpenEnv) : M (option ClientRef * bool) :=
  r <- defer_recover
    (emit (Upgrade (config.BufferSize Setting) (config.BufferSize Setting) (upgrade env)) ;;
     match upgrade env with
     | inr err =>
         emit (LogError ErrorsWebsocketUpgradeFail err) ;;
         ret (None, false)
     | inl wsConn =>
         match globalHub env with
         | Some wsHub => modify (set_Hub wsHub)
         | None => ret tt
         end ;;
         modify (set_Conn wsConn) ;;
         ch <- make_chan (config.BufferSize Setting) ;;
         modify (set_Send ch) ;;
         modify (set_PingPeriod (seconds (config.PingPeriod Setting))) ;;
         modify (set_ReadDeadline (seconds (config.ReadDeadline Setting))) ;;
         modify (set_WriteDeadline (seconds (config.WriteDeadline Setting))) ;;
         r <- SendMessage (handshake env) TextMessage WebsocketHandshakeSuccess ;;
         match r with
         | Some err => emit (LogError ErrorsWebsocketWriteMgsFail err)
         | None => ret tt
         end ;;
         Conn_call (SetReadLimit (config.MaxMessageSize Setting)) ;;
         Hub_Register_send ;;
         modify (set_State 1) ;;
         c <- getSelf ;;
         ret (Some c, true)
     end)
    (logRecovered ErrorsWebsocketOnOpenFail) ;;
  match r with
  | Some result => ret result
  | None => ret (None, false)
  end.

(** ** ReadPump *)

(** One turn of the [for] loop; [next] is what [c.Conn.ReadMessage()] will
    return, [None] when no frame and no error ever arrives. *)
Definition readIteration (cb : Callbacks) (next : option ReadResult) : M Loop :=
  c <- getClient ;;
  if State c =? 1 then
    match next with
    | None => pending
    | Some r =>
        Conn_call (ReadMessage r) ;;
        match rdErr r with
        | None =>
            call (OnMessage (rdType r) (rdData r))
                 (callbackOnMessage cb (rdType r) (rdData r)) ;;
            ret Continue
        | Some err =>
            call (OnError err) (callbackOnError cb err) ;;
            ret Return
        end
    end
  else
    call (OnError (errors_New ErrorsWebsocketStateInvalid))
         (callbackOnError cb (errors_New ErrorsWebsocketStateInvalid)) ;;
    ret Return.

Fixpoint readLoop (cb : Callbacks) (incoming : list ReadResult) : M unit :=
  match incoming with
  | [] => _ <- readIteration cb None ;; ret tt
  | r :: rest =>
      l <- readIteration cb (Some r) ;;
      match l with
      | Continue => readLoop cb rest
      | Return => ret tt
      end
  end.

Definition ReadPump (cb : Callbacks) (incoming : list ReadResult) : M unit :=
  _ <- defer_recover
    (readLoop cb incoming)
    (fun p =>
       logRecovered ErrorsWebsocketReadMessageFail p ;;
       call OnClose (callbackOnClose cb)) ;;
  ret tt.

(** ** Heartbeat *)

(** The function given to [c.Conn.SetPongHandler]; the connection calls it
    for each pong frame it receives, at clock reading [now]. *)
Definition pongHandler (now : Z) (receivedPong : string) : M (option error) :=
  c <- getClient ;;
  (if ReadDeadline c >? Nanosecond
   then Conn_call (SetReadDeadline (Now_Add now (ReadDeadline c)))
   else Conn_call (SetReadDeadline ZeroTime)) ;;
  ret None.

(** One [case <-ticker.C:] of the loop. *)
Definition heartbeatTick (env : SendEnv) : M Loop :=
  c <- getClient ;;
  if State c =? 1 then
    r <- SendMessage env PingMessage WebsocketServerPingMsg ;;
    match r with
    | Some err =>
        modify (fun c => set_HeartbeatFailTimes (wrap64 (HeartbeatFailTimes c + 1)) c) ;;
        c <- getClient ;;
        if HeartbeatFailTimes c >? config.HeartbeatFailMaxTimes Setting then
          modify (set_State 0) ;;
          emit (LogError ErrorsWebsocketBeatHeartsMoreThanMaxTimes err) ;;
          ret Return
        else ret Continue
    | None =>
        c <- getClient ;;
        (if HeartbeatFailTimes c >? 0
         then modify (fun c => set_HeartbeatFailTimes (wrap64 (HeartbeatFailTimes c - 1)) c)
         else ret tt) ;;
        ret Continue
    end
  else ret Return.

(** The [for { select { case <-ticker.C: ... } }] loop over the ticks that
    arrive; with no tick left the loop waits. *)
Fixpoint heartbeatLoop (ticks : list SendEnv) : M unit :=
  match ticks with
  | [] => pending
  | env :: rest =>
      l <- heartbeatTick env ;;
      match l with
      | Continue => heartbeatLoop rest
      | Return => ret tt
      end
  end.

(** [now0] is the clock reading when the first read deadline is set. *)
Definition Heartbeat (now0 : Z) (ticks : list SendEnv) : M unit :=
  c <- getClient ;;
  (if PingPeriod c <=? 0 then panic NonPositiveTickerInterval else ret tt) ;;
  _ <- defer_recover
    (c <- getClient ;;
     (if ReadDeadline c =? 0
      then Conn_call (SetReadDeadline ZeroTime)
      else Conn_call (SetReadDeadline (Now_Add now0 (ReadDeadline c)))) ;;
     Conn_call SetPongHandler ;;
     heartbeatLoop ticks)
    (fun p =>
       logRecovered ErrorsWebsocketBeatHeartFail p ;;
       emit TickerStop) ;;
  ret tt.

End WithSetting.

(** ** The steps of a Client's loops *)

(** What can happen to a client once it is created: a tick of the heartbeat
    loop, a turn of the read loop, the read loop's deferred function (which
    calls [callbackOnClose]), a call of the send primitive, and a pong frame
    handed to the pong handler. *)
Inductive LoopAction :=
| Tick (env : SendEnv)
| ReadTurn (next : option ReadResult)
| ReadExit (p : option PanicVal)
| SendCall (env : SendEnv) (messageType : Z) (message : string)
| Pong (now : Z) (receivedPong : string).

Definition loopStep (Setting : config.WebsocketSetting) (cb : Callbacks)
  (a : LoopAction) (w : World) : World :=
  match a with
  | Tick env => snd (heartbeatTick Setting env w)
  | ReadTurn next => snd (readIteration cb next w)
  | ReadExit p =>
      snd ((logRecovered ErrorsWebsocketReadMessageFail p ;;
            call OnClose (callbackOnClose cb)) w)
  | SendCall env mt msg => snd (SendMessage env mt msg w)
  | Pong t msg => snd (pongHandler t msg w)
  end.

(** The values of [c.State] along a run, the first one first. *)
Fixpoint states (Setting : config.WebsocketSetting) (cb : Callbacks)
  (acts : list LoopAction) (w : World) : list Z :=
  State (client w) ::
  match acts with
  | [] => []
  | a :: rest => states Setting cb rest (loopStep Setting cb a w)
  end.

Definition isActive (s : Z) : bool := s =? 1.
Definition isClosed (s : Z) : bool := negb (s =? 1).

(** How many times a sequence of states goes from a [from] state to a [to]
    state in one step. *)
Fixpoint transitions (from to : Z -> bool) (l : list Z) : nat :=
  match l with
  | a :: (b :: _) as t => ((if from a && to b then 1 else 0) + transitions from to t)%nat
  | _ => 0%nat
  end.

(** ** The Hub *)

(** Modelled from the spec: the Hub's registry, whose source (the [Hub] type
    and its processing loop) is not part of the sources.  The spec gives it a
    set [clients], a [registerQueue] and an [unregisterQueue]; [Register] is
    an idempotent add, [Unregister] an idempotent remove, and a single actor
    serves the queued requests one at a time. *)
Inductive HubRequest :=
| Registered (c : ClientRef)
| Unregistered (c : ClientRef).

(** Modelled from the spec: [Register(client)], an idempotent add to the set
    of clients (the hub's own code is not among the sources). *)
Definition Hub_Register (c : ClientRef) (clients : gset nat) : gset nat := {[ c ]} ∪ clients.

(** Modelled from the spec: [Unregister(client)], an idempotent remove;
    removing an absent client changes nothing. *)
Definition Hub_Unregister (c : ClientRef) (clients : gset nat) : gset nat := clients ∖ {[ c ]}.

(** Modelled from the spec: a client beside the hub.  The client's world
    (with the hub's register queue), the hub's unregister queue, its set of
    clients, and the requests it has served so far, oldest first. *)
Record System := mkSystem {
  world : World;
  unregisterQueue : list ClientRef;
  clients : gset nat;
  served : list HubRequest
}.

Inductive SysAction :=
| Open (env : OpenEnv)            (* the client runs OnOpen *)
| Beat (env : SendEnv)            (* a tick of its heartbeat loop *)
| OtherRegister (c : ClientRef)   (* another client is sent on Register *)
| AskUnregister (c : ClientRef)   (* a client is sent on UnRegister *)
| ServeRegister                   (* the hub serves the head of Register *)
| ServeUnregister.                (* the hub serves the head of UnRegister *)

(** Modelled from the spec: the steps of the hub, which serves one queued
    request at a time.  The steps of the client ([Open], [Beat]) are the
    source's [OnOpen] and one tick of its [Heartbeat]. *)
Definition sysStep (Setting : config.WebsocketSetting) (a : SysAction) (s : System)
  : System :=
  match a with
  | Open env =>
      mkSystem (snd (OnOpen Setting env (world s))) (unregisterQueue s) (clients s) (served s)
  | Beat env =>
      mkSystem (snd (heartbeatTick Setting env (world s)))
               (unregisterQueue s) (clients s) (served s)
  | OtherRegister c =>
      let w := world s in
      mkSystem (mkWorld (self w) (client w) (registerQueue w ++ [c]) (nextChan w) (trace w))
               (unregisterQueue s) (clients s) (served s)
  | AskUnregister c =>
      mkSystem (world s) (unregisterQueue s ++ [c]) (clients s) (served s)
  | ServeRegister =>
      let w := world s in
      match registerQueue w with
      | [] => s
      | c :: rest =>
          mkSystem (mkWorld (self w) (client w) rest (nextChan w) (trace w))
                   (unregisterQueue s) (Hub_Register c (clients s))
                   (served s ++ [Registered c])
      end
  | ServeUnregister =>
      match unregisterQueue s with
      | [] => s
      | c :: rest =>
          mkSystem (world s) rest (Hub_Unregister c (clients s))
                   (served s ++ [Unregistered c])
      end
  end.

(** A run: the steps in order. *)
Definition sysRun (Setting : config.WebsocketSetting) (acts : list SysAction) (s : System)
  : System :=
  fold_left (fun s a => sysStep Setting a s) acts s.

(** The hub has served a registration of [c] and no unregistration of [c]
    after it. *)
Definition registrationStands (c : ClientRef) (served : list HubRequest) : bool :=
  fold_left
    (fun standing r =>
       match r with
       | Registered c' => if Nat.eqb c c' then true else standing
       | Unregistered c' => if Nat.eqb c c' then false else standing
       end)
    served false.

(** A client that has not been opened, beside a hub that has served nothing. *)
Definition newClient : Client :=
  mkClient HubNil 0%nat (mkChan 0 0 []) 0 0 0 0 0 false (mkParams "" "").

Definition newSystem (addr : ClientRef) : System :=
  mkSystem (mkWorld addr newClient [] 0%nat []) [] ∅ [].

(** * core/social/wxmp: the service of WeChat official accounts *)

(** The [WxmpService] of package [wxmp]; its settings are those of
    [core/social/wxmp/config/config.go]. *)
Module wxmp.

(** [config.AppSetting] *)
Module AppSetting.
Record t := mk {
  AppId : string;
  AppSecret : string;
  MessageToken : string;
  MessageAESKey : string
}.
End AppSetting.

(** [config.WxmpSetting], the type of [config.Setting]. *)
Module WxmpSetting.
Record t := mk {
  Enabled : bool;
  AppId : string;
  AppSecret : string;
  MessageToken : string;
  MessageAESKey : string;
  Apps : list AppSetting.t
}.
End WxmpSetting.

(** [officialAccount.UserConfig], as [createApp] fills it. *)
Record UserConfig := mkUserConfig {
  AppID : string;
  Secret : string;
  Token : string;
  AESKey : string;
  ResponseType : string;
  HttpDebug : bool;
  Debug : bool
}.

(** A pointer to an [officialAccount.OfficialAccount]. *)
Abbreviation Account := nat (only parsing).

(** What the service asks of the outside, with the answer it got. *)
Inductive Event :=
| NewOfficialAccount (cfg : UserConfig) (r : Account + error)
| LogCreateFailed (appId : string) (err : error).

(** The service: its [apps] (a [sync.Map] from app ids to accounts) and the
    events so far, oldest first. *)
Record WxmpService := mkService {
  apps : gmap string nat;
  events : list Event
}.

Section WithSetting.

(** [config.Setting] *)
Variable Setting : WxmpSetting.t.

(** [answer] is what [officialAccount.NewOfficialAccount] returns. *)
Definition createApp (answer : Account + error) (appSetting : AppSetting.t)
  (s : WxmpService) : option Account * WxmpService :=
  let cfg := mkUserConfig (AppSetting.AppId appSetting) (AppSetting.AppSecret appSetting)
               (AppSetting.MessageToken appSetting) (AppSetting.MessageAESKey appSetting)
               "authorization_code" true false in
  match answer with
  | inl app =>
      (Some app,
       mkService (<[AppSetting.AppId appSetting := app]> (apps s))
                 (events s ++ [NewOfficialAccount cfg answer]))
  | inr err =>
      (None,
       mkService (apps s)
                 (events s ++ [NewOfficialAccount cfg answer;
                               LogCreateFailed (AppSetting.AppId appSetting) err]))
  end.

(** The [for i, app := range config.Setting.Apps] loop of [getAppSetting]. *)
Fixpoint findApp (appId : string) (l : list AppSetting.t) : option AppSetting.t :=
  match l with
  | [] => None
  | app :: rest =>
      if String.eqb (AppSetting.AppId app) appId then Some app else findApp appId rest
  end.

Definition getAppSetting (appId : string) : option AppSetting.t :=
  if String.eqb appId (WxmpSetting.AppId Setting) then
    Some (AppSetting.mk (WxmpSetting.AppId Setting) (WxmpSetting.AppSecret Setting)
            (WxmpSetting.MessageToken Setting) (WxmpSetting.MessageAESKey Setting))
  else if (0 <? Z.of_nat (length (WxmpSetting.Apps Setting))) then
    findApp appId (WxmpSetting.Apps Setting)
  else None.

Definition GetApp (answer : Account + error) (appId : string) (s : WxmpService)
  : option Account * WxmpService :=
  let appId := if String.eqb appId "" then WxmpSetting.AppId Setting else appId in
  match apps s !! appId with
  | Some mp => (Some mp, s)
  | None =>
      match getAppSetting appId with
      | Some appSetting => createApp answer appSetting s
      | None => (None, s)
      end
  end.

End WithSetting.

End wxmp.

(** * core/mapper/converter: the generated conversion table (genOp.go) *)

(** reflect.Kind, Go's enumeration of the kinds of types, in the order of
    its constants. *)
Module reflect.

Inductive Kind :=
  | Invalid
  | Bool
  | Int
  | Int8
  | Int16
  | Int32
  | Int64
  | Uint
  | Uint8
  | Uint16
  | Uint32
  | Uint64
  | Uintptr
  | Float32
  | Float64
  | Complex64
  | Complex128
  | Array
  | Chan
  | Func
  | Interface
  | Map
  | Pointer
  | Slice
  | String
  | Struct
  | UnsafePointer.

Definition Kind_to_nat (k : Kind) : nat :=
  match k with
  | Invalid => 0%nat
  | Bool => 1%nat
  | Int => 2%nat
  | Int8 => 3%nat
  | Int16 => 4%nat
  | Int32 => 5%nat
  | Int64 => 6%nat
  | Uint => 7%nat
  | Uint8 => 8%nat
  | Uint16 => 9%nat
  | Uint32 => 10%nat
  | Uint64 => 11%nat
  | Uintptr => 12%nat
  | Float32 => 13%nat
  | Float64 => 14%nat
  | Complex64 => 15%nat
  | Complex128 => 16%nat
  | Array => 17%nat
  | Chan => 18%nat
  | Func => 19%nat
  | Interface => 20%nat
  | Map => 21%nat
  | Pointer => 22%nat
  | Slice => 23%nat
  | String => 24%nat
  | Struct => 25%nat
  | UnsafePointer => 26%nat
  end.

Definition Kind_of_nat (n : nat) : Kind :=
  match n with
  | 1%nat => Bool
  | 2%nat => Int
  | 3%nat => Int8
  | 4%nat => Int16
  | 5%nat => Int32
  | 6%nat => Int64
  | 7%nat => Uint
  | 8%nat => Uint8
  | 9%nat => Uint16
  | 10%nat => Uint32
  | 11%nat => Uint64
  | 12%nat => Uintptr
  | 13%nat => Float32
  | 14%nat => Float64
  | 15%nat => Complex64
  | 16%nat => Complex128
  | 17%nat => Array
  | 18%nat => Chan
  | 19%nat => Func
  | 20%nat => Interface
  | 21%nat => Map
  | 22%nat => Pointer
  | 23%nat => Slice
  | 24%nat => String
  | 25%nat => Struct
  | 26%nat => UnsafePointer
  | _ => Invalid
  end.

End reflect.

#[global] Instance Kind_eq_dec : EqDecision reflect.Kind.
Proof. solve_decision. Defined.

#[global] Instance Kind_countable : Countable reflect.Kind.
Proof.
  refine (inj_countable' reflect.Kind_to_nat reflect.Kind_of_nat _).
  intros []; reflexivity.
Defined.

Module converter.

(** The Go types the generated functions read and write through their
    pointers. *)
Inductive type :=
  | Tbool
  | Tint
  | Tuint
  | Tint8
  | Tuint8
  | Tint16
  | Tuint16
  | Tint32
  | Tuint32
  | Tint64
  | Tuint64
  | Tfloat32
  | Tfloat64
  | Tcomplex64
  | Tcomplex128
  | Tuintptr
  | Tstring.

(** The body of a generated function.  It reads a value of the type src
    through sPtr and stores through dPtr either its Go conversion to the
    type dst, or,
    as a string, what fmt.Sprintf gives for it with the verb %v. *)
Inductive Op :=
  | Convert (src dst : type)
  | Format (src : type).

(** The key of the table: a source kind and a destination kind.  The struct
    is declared in another file of the package; genOp.go builds it from the
    two kinds and uses it as a map key. *)
Definition convertKind : Type := reflect.Kind * reflect.Kind.

(** The generated functions, each with the body it has in genOp.go. *)
Definition cvtBoolBool : Op := Convert Tbool Tbool.
Definition cvtBoolString : Op := Format Tbool.
Definition cvtIntInt : Op := Convert Tint Tint.
Definition cvtIntUint : Op := Convert Tint Tuint.
Definition cvtIntInt8 : Op := Convert Tint Tint8.
Definition cvtIntUint8 : Op := Convert Tint Tuint8.
Definition cvtIntInt16 : Op := Convert Tint Tint16.
Definition cvtIntUint16 : Op := Convert Tint Tuint16.
Definition cvtIntInt32 : Op := Convert Tint Tint32.
Definition cvtIntUint32 : Op := Convert Tint Tuint32.
Definition cvtIntInt64 : Op := Convert Tint Tint64.
Definition cvtIntUint64 : Op := Convert Tint Tuint64.
Definition cvtIntFloat32 : Op := Convert Tint Tfloat32.
Definition cvtIntFloat64 : Op := Convert Tint Tfloat64.
Definition cvtIntUintptr : Op := Convert Tint Tuintptr.
Definition cvtIntString : Op := Format Tint.
Definition cvtUintInt : Op := Convert Tuint Tint.
Definition cvtUintUint : Op := Convert Tuint Tuint.
Definition cvtUintInt8 : Op := Convert Tuint Tint8.
Definition cvtUintUint8 : Op := Convert Tuint Tuint8.
Definition cvtUintInt16 : Op := Convert Tuint Tint16.
Definition cvtUintUint16 : Op := Convert Tuint Tuint16.
Definition cvtUintInt32 : Op := Convert Tuint Tint32.
Definition cvtUintUint32 : Op := Convert Tuint Tuint32.
Definition cvtUintInt64 : Op := Convert Tuint Tint64.
Definition cvtUintUint64 : Op := Convert Tuint Tuint64.
Definition cvtUintFloat32 : Op := Convert Tuint Tfloat32.
Definition cvtUintFloat64 : Op := Convert Tuint Tfloat64.
Definition cvtUintUintptr : Op := Convert Tuint Tuintptr.
Definition cvtUintString : Op := Format Tuint.
Definition cvtInt8Int : Op := Convert Tint8 Tint.
Definition cvtInt8Uint : Op := Convert Tint8 Tuint.
Definition cvtInt8Int8 : Op := Convert Tint8 Tint8.
Definition cvtInt8Uint8 : Op := Convert Tint8 Tuint8.
Definition cvtInt8Int16 : Op := Convert Tint8 Tint16.
Definition cvtInt8Uint16 : Op := Convert Tint8 Tuint16.
Definition cvtInt8Int32 : Op := Convert Tint8 Tint32.
Definition cvtInt8Uint32 : Op := Convert Tint8 Tuint32.
Definition cvtInt8Int64 : Op := Convert Tint8 Tint64.
Definition cvtInt8Uint64 : Op := Convert Tint8 Tuint64.
Definition cvtInt8Float32 : Op := Convert Tint8 Tfloat32.
Definition cvtInt8Float64 : Op := Convert Tint8 Tfloat64.
Definition cvtInt8Uintptr : Op := Convert Tint8 Tuintptr.
Definition cvtInt8String : Op := Format Tint8.
Definition cvtUint8Int : Op := Convert Tuint8 Tint.
Definition cvtUint8Uint : Op := Convert Tuint8 Tuint.
Definition cvtUint8Int8 : Op := Convert Tuint8 Tint8.
Definition cvtUint8Uint8 : Op := Convert Tuint8 Tuint8.
Definition cvtUint8Int16 : Op := Convert Tuint8 Tint16.
Definition cvtUint8Uint16 : Op := Convert Tuint8 Tuint16.
Definition cvtUint8Int32 : Op := Convert Tuint8 Tint32.
Definition cvtUint8Uint32 : Op := Convert Tuint8 Tuint32.
Definition cvtUint8Int64 : Op := Convert Tuint8 Tint64.
Definition cvtUint8Uint64 : Op := Convert Tuint8 Tuint64.
Definition cvtUint8Float32 : Op := Convert Tuint8 Tfloat32.
Definition cvtUint8Float64 : Op := Convert Tuint8 Tfloat64.
Definition cvtUint8Uintptr : Op := Convert Tuint8 Tuintptr.
Definition cvtUint8String : Op := Format Tuint8.
Definition cvtInt16Int : Op := Convert Tint16 Tint.
Definition cvtInt16Uint : Op := Convert Tint16 Tuint.
Definition cvtInt16Int8 : Op := Convert Tint16 Tint8.
Definition cvtInt16Uint8 : Op := Convert Tint16 Tuint8.
Definition cvtInt16Int16 : Op := Convert Tint16 Tint16.
Definition cvtInt16Uint16 : Op := Convert Tint16 Tuint16.
Definition cvtInt16Int32 : Op := Convert Tint16 Tint32.
Definition cvtInt16Uint32 : Op := Convert Tint16 Tuint32.
Definition cvtInt16Int64 : Op := Convert Tint16 Tint64.
Definition cvtInt16Uint64 : Op := Convert Tint16 Tuint64.
Definition cvtInt16Float32 : Op := Convert Tint16 Tfloat32.
Definition cvtInt16Float64 : Op := Convert Tint16 Tfloat64.
Definition cvtInt16Uintptr : Op := Convert Tint16 Tuintptr.
Definition cvtInt16String : Op := Format Tint16.
Definition cvtUint16Int : Op := Convert Tuint16 Tint.
Definition cvtUint16Uint : Op := Convert Tuint16 Tuint.
Definition cvtUint16Int8 : Op := Convert Tuint16 Tint8.
Definition cvtUint16Uint8 : Op := Convert Tuint16 Tuint8.
Definition cvtUint16Int16 : Op := Convert Tuint16 Tint16.
Definition cvtUint16Uint16 : Op := Convert Tuint16 Tuint16.
Definition cvtUint16Int32 : Op := Convert Tuint16 Tint32.
Definition cvtUint16Uint32 : Op := Convert Tuint16 Tuint32.
Definition cvtUint16Int64 : Op := Convert Tuint16 Tint64.
Definition cvtUint16Uint64 : Op := Convert Tuint16 Tuint64.
Definition cvtUint16Float32 : Op := Convert Tuint16 Tfloat32.
Definition cvtUint16Float64 : Op := Convert Tuint16 Tfloat64.
Definition cvtUint16Uintptr : Op := Convert Tuint16 Tuintptr.
Definition cvtUint16String : Op := Format Tuint16.
Definition cvtInt32Int : Op := Convert Tint32 Tint.
Definition cvtInt32Uint : Op := Convert Tint32 Tuint.
Definition cvtInt32Int8 : Op := Convert Tint32 Tint8.
Definition cvtInt32Uint8 : Op := Convert Tint32 Tuint8.
Definition cvtInt32Int16 : Op := Convert Tint32 Tint16.
Definition cvtInt32Uint16 : Op := Convert Tint32 Tuint16.
Definition cvtInt32Int32 : Op := Convert Tint32 Tint32.
Definition cvtInt32Uint32 : Op := Convert Tint32 Tuint32.
Definition cvtInt32Int64 : Op := Convert Tint32 Tint64.
Definition cvtInt32Uint64 : Op := Convert Tint32 Tuint64.
Definition cvtInt32Float32 : Op := Convert Tint32 Tfloat32.
Definition cvtInt32Float64 : Op := Convert Tint32 Tfloat64.
Definition cvtInt32Uintptr : Op := Convert Tint32 Tuintptr.
Definition cvtInt32String : Op := Format Tint32.
Definition cvtUint32Int : Op := Convert Tuint32 Tint.
Definition cvtUint32Uint : Op := Convert Tuint32 Tuint.
Definition cvtUint32Int8 : Op := Convert Tuint32 Tint8.
Definition cvtUint32Uint8 : Op := Convert Tuint32 Tuint8.
Definition cvtUint32Int16 : Op := Convert Tuint32 Tint16.
Definition cvtUint32Uint16 : Op := Convert Tuint32 Tuint16.
Definition cvtUint32Int32 : Op := Convert Tuint32 Tint32.
Definition cvtUint32Uint32 : Op := Convert Tuint32 Tuint32.
Definition cvtUint32Int64 : Op := Convert Tuint32 Tint64.
Definition cvtUint32Uint64 : Op := Convert Tuint32 Tuint64.
Definition cvtUint32Float32 : Op := Convert Tuint32 Tfloat32.
Definition cvtUint32Float64 : Op := Convert Tuint32 Tfloat64.
Definition cvtUint32Uintptr : Op := Convert Tuint32 Tuintptr.
Definition cvtUint32String : Op := Format Tuint32.
Definition cvtInt64Int : Op := Convert Tint64 Tint.
Definition cvtInt64Uint : Op := Convert Tint64 Tuint.
Definition cvtInt64Int8 : Op := Convert Tint64 Tint8.
Definition cvtInt64Uint8 : Op := Convert Tint64 Tuint8.
Definition cvtInt64Int16 : Op := Convert Tint64 Tint16.
Definition cvtInt64Uint16 : Op := Convert Tint64 Tuint16.
Definition cvtInt64Int32 : Op := Convert Tint64 Tint32.
Definition cvtInt64Uint32 : Op := Convert Tint64 Tuint32.
Definition cvtInt64Int64 : Op := Convert Tint64 Tint64.
Definition cvtInt64Uint64 : Op := Convert Tint64 Tuint64.
Definition cvtInt64Float32 : Op := Convert Tint64 Tfloat32.
Definition cvtInt64Float64 : Op := Convert Tint64 Tfloat64.
Definition cvtInt64Uintptr : Op := Convert Tint64 Tuintptr.
Definition cvtInt64String : Op := Format Tint64.
Definition cvtUint64Int : Op := Convert Tuint64 Tint.
Definition cvtUint64Uint : Op := Convert Tuint64 Tuint.
Definition cvtUint64Int8 : Op := Convert Tuint64 Tint8.
Definition cvtUint64Uint8 : Op := Convert Tuint64 Tuint8.
Definition cvtUint64Int16 : Op := Convert Tuint64 Tint16.
Definition cvtUint64Uint16 : Op := Convert Tuint64 Tuint16.
Definition cvtUint64Int32 : Op := Convert Tuint64 Tint32.
Definition cvtUint64Uint32 : Op := Convert Tuint64 Tuint32.
Definition cvtUint64Int64 : Op := Convert Tuint64 Tint64.
Definition cvtUint64Uint64 : Op := Convert Tuint64 Tuint64.
Definition cvtUint64Float32 : Op := Convert Tuint64 Tfloat32.
Definition cvtUint64Float64 : Op := Convert Tuint64 Tfloat64.
Definition cvtUint64Uintptr : Op := Convert Tuint64 Tuintptr.
Definition cvtUint64String : Op := Format Tuint64.
Definition cvtFloat32Int : Op := Convert Tfloat32 Tint.
Definition cvtFloat32Uint : Op := Convert Tfloat32 Tuint.
Definition cvtFloat32Int8 : Op := Convert Tfloat32 Tint8.
Definition cvtFloat32Uint8 : Op := Convert Tfloat32 Tuint8.
Definition cvtFloat32Int16 : Op := Convert Tfloat32 Tint16.
Definition cvtFloat32Uint16 : Op := Convert Tfloat32 Tuint16.
Definition cvtFloat32Int32 : Op := Convert Tfloat32 Tint32.
Definition cvtFloat32Uint32 : Op := Convert Tfloat32 Tuint32.
Definition cvtFloat32Int64 : Op := Convert Tfloat32 Tint64.
Definition cvtFloat32Uint64 : Op := Convert Tfloat32 Tuint64.
Definition cvtFloat32Float32 : Op := Convert Tfloat32 Tfloat32.
Definition cvtFloat32Float64 : Op := Convert Tfloat32 Tfloat64.
Definition cvtFloat32Uintptr : Op := Convert Tfloat32 Tuintptr.
Definition cvtFloat32String : Op := Format Tfloat32.
Definition cvtFloat64Int : Op := Convert Tfloat64 Tint.
Definition cvtFloat64Uint : Op := Convert Tfloat64 Tuint.
Definition cvtFloat64Int8 : Op := Convert Tfloat64 Tint8.
Definition cvtFloat64Uint8 : Op := Convert Tfloat64 Tuint8.
Definition cvtFloat64Int16 : Op := Convert Tfloat64 Tint16.
Definition cvtFloat64Uint16 : Op := Convert Tfloat64 Tuint16.
Definition cvtFloat64Int32 : Op := Convert Tfloat64 Tint32.
Definition cvtFloat64Uint32 : Op := Convert Tfloat64 Tuint32.
Definition cvtFloat64Int64 : Op := Convert Tfloat64 Tint64.
Definition cvtFloat64Uint64 : Op := Convert Tfloat64 Tuint64.
Definition cvtFloat64Float32 : Op := Convert Tfloat64 Tfloat32.
Definition cvtFloat64Float64 : Op := Convert Tfloat64 Tfloat64.
Definition cvtFloat64Uintptr : Op := Convert Tfloat64 Tuintptr.
Definition cvtFloat64String : Op := Format Tfloat64.
Definition cvtComplex64Complex64 : Op := Convert Tcomplex64 Tcomplex64.
Definition cvtComplex64Complex128 : Op := Convert Tcomplex64 Tcomplex128.
Definition cvtComplex64String : Op := Format Tcomplex64.
Definition cvtComplex128Complex64 : Op := Convert Tcomplex128 Tcomplex64.
Definition cvtComplex128Complex128 : Op := Convert Tcomplex128 Tcomplex128.
Definition cvtComplex128String : Op := Format Tcomplex128.
Definition cvtUintptrInt : Op := Convert Tuintptr Tint.
Definition cvtUintptrUint : Op := Convert Tuintptr Tuint.
Definition cvtUintptrInt8 : Op := Convert Tuintptr Tint8.
Definition cvtUintptrUint8 : Op := Convert Tuintptr Tuint8.
Definition cvtUintptrInt16 : Op := Convert Tuintptr Tint16.
Definition cvtUintptrUint16 : Op := Convert Tuintptr Tuint16.
Definition cvtUintptrInt32 : Op := Convert Tuintptr Tint32.
Definition cvtUintptrUint32 : Op := Convert Tuintptr Tuint32.
Definition cvtUintptrInt64 : Op := Convert Tuintptr Tint64.
Definition cvtUintptrUint64 : Op := Convert Tuintptr Tuint64.
Definition cvtUintptrFloat32 : Op := Convert Tuintptr Tfloat32.
Definition cvtUintptrFloat64 : Op := Convert Tuintptr Tfloat64.
Definition cvtUintptrUintptr : Op := Convert Tuintptr Tuintptr.
Definition cvtUintptrString : Op := Format Tuintptr.
Definition cvtStringString : Op := Format Tstring.

(** The assignments of [init], in their order. *)
Definition initAssignments : list (convertKind * Op) :=
  [ ((reflect.Bool, reflect.Bool), cvtBoolBool);
    ((reflect.Bool, reflect.String), cvtBoolString);
    ((reflect.Int, reflect.Int), cvtIntInt);
    ((reflect.Int, reflect.Uint), cvtIntUint);
    ((reflect.Int, reflect.Int8), cvtIntInt8);
    ((reflect.Int, reflect.Uint8), cvtIntUint8);
    ((reflect.Int, reflect.Int16), cvtIntInt16);
    ((reflect.Int, reflect.Uint16), cvtIntUint16);
    ((reflect.Int, reflect.Int32), cvtIntInt32);
    ((reflect.Int, reflect.Uint32), cvtIntUint32);
    ((reflect.Int, reflect.Int64), cvtIntInt64);
    ((reflect.Int, reflect.Uint64), cvtIntUint64);
    ((reflect.Int, reflect.Float32), cvtIntFloat32);
    ((reflect.Int, reflect.Float64), cvtIntFloat64);
    ((reflect.Int, reflect.Uintptr), cvtIntUintptr);
    ((reflect.Int, reflect.String), cvtIntString);
    ((reflect.Uint, reflect.Int), cvtUintInt);
    ((reflect.Uint, reflect.Uint), cvtUintUint);
    ((reflect.Uint, reflect.Int8), cvtUintInt8);
    ((reflect.Uint, reflect.Uint8), cvtUintUint8);
    ((reflect.Uint, reflect.Int16), cvtUintInt16);
    ((reflect.Uint, reflect.Uint16), cvtUintUint16);
    ((reflect.Uint, reflect.Int32), cvtUintInt32);
    ((reflect.Uint, reflect.Uint32), cvtUintUint32);
    ((reflect.Uint, reflect.Int64), cvtUintInt64);
    ((reflect.Uint, reflect.Uint64), cvtUintUint64);
    ((reflect.Uint, reflect.Float32), cvtUintFloat32);
    ((reflect.Uint, reflect.Float64), cvtUintFloat64);
    ((reflect.Uint, reflect.Uintptr), cvtUintUintptr);
    ((reflect.Uint, reflect.String), cvtUintString);
    ((reflect.Int8, reflect.Int), cvtInt8Int);
    ((reflect.Int8, reflect.Uint), cvtInt8Uint);
    ((reflect.Int8, reflect.Int8), cvtInt8Int8);
    ((reflect.Int8, reflect.Uint8), cvtInt8Uint8);
    ((reflect.Int8, reflect.Int16), cvtInt8Int16);
    ((reflect.Int8, reflect.Uint16), cvtInt8Uint16);
    ((reflect.Int8, reflect.Int32), cvtInt8Int32);
    ((reflect.Int8, reflect.Uint32), cvtInt8Uint32);
    ((reflect.Int8, reflect.Int64), cvtInt8Int64);
    ((reflect.Int8, reflect.Uint64), cvtInt8Uint64);
    ((reflect.Int8, reflect.Float32), cvtInt8Float32);
    ((reflect.Int8, reflect.Float64), cvtInt8Float64);
    ((reflect.Int8, reflect.Uintptr), cvtInt8Uintptr);
    ((reflect.Int8, reflect.String), cvtInt8String);
    ((reflect.Uint8, reflect.Int), cvtUint8Int);
    ((reflect.Uint8, reflect.Uint), cvtUint8Uint);
    ((reflect.Uint8, reflect.Int8), cvtUint8Int8);
    ((reflect.Uint8, reflect.Uint8), cvtUint8Uint8);
    ((reflect.Uint8, reflect.Int16), cvtUint8Int16);
    ((reflect.Uint8, reflect.Uint16), cvtUint8Uint16);
    ((reflect.Uint8, reflect.Int32), cvtUint8Int32);
    ((reflect.Uint8, reflect.Uint32), cvtUint8Uint32);
    ((reflect.Uint8, reflect.Int64), cvtUint8Int64);
    ((reflect.Uint8, reflect.Uint64), cvtUint8Uint64);
    ((reflect.Uint8, reflect.Float32), cvtUint8Float32);
    ((reflect.Uint8, reflect.Float64), cvtUint8Float64);
    ((reflect.Uint8, reflect.Uintptr), cvtUint8Uintptr);
    ((reflect.Uint8, reflect.String), cvtUint8String);
    ((reflect.Int16, reflect.Int), cvtInt16Int);
    ((reflect.Int16, reflect.Uint), cvtInt16Uint);
    ((reflect.Int16, reflect.Int8), cvtInt16Int8);
    ((reflect.Int16, reflect.Uint8), cvtInt16Uint8);
    ((reflect.Int16, reflect.Int16), cvtInt16Int16);
    ((reflect.Int16, reflect.Uint16), cvtInt16Uint16);
    ((reflect.Int16, reflect.Int32), cvtInt16Int32);
    ((reflect.Int16, reflect.Uint32), cvtInt16Uint32);
    ((reflect.Int16, reflect.Int64), cvtInt16Int64);
    ((reflect.Int16, reflect.Uint64), cvtInt16Uint64);
    ((reflect.Int16, reflect.Float32), cvtInt16Float32);
    ((reflect.Int16, reflect.Float64), cvtInt16Float64);
    ((reflect.Int16, reflect.Uintptr), cvtInt16Uintptr);
    ((reflect.Int16, reflect.String), cvtInt16String);
    ((reflect.Uint16, reflect.Int), cvtUint16Int);
    ((reflect.Uint16, reflect.Uint), cvtUint16Uint);
    ((reflect.Uint16, reflect.Int8), cvtUint16Int8);
    ((reflect.Uint16, reflect.Uint8), cvtUint16Uint8);
    ((reflect.Uint16, reflect.Int16), cvtUint16Int16);
    ((reflect.Uint16, reflect.Uint16), cvtUint16Uint16);
    ((reflect.Uint16, reflect.Int32), cvtUint16Int32);
    ((reflect.Uint16, reflect.Uint32), cvtUint16Uint32);
    ((reflect.Uint16, reflect.Int64), cvtUint16Int64);
    ((reflect.Uint16, reflect.Uint64), cvtUint16Uint64);
    ((reflect.Uint16, reflect.Float32), cvtUint16Float32);
    ((reflect.Uint16, reflect.Float64), cvtUint16Float64);
    ((reflect.Uint16, reflect.Uintptr), cvtUint16Uintptr);
    ((reflect.Uint16, reflect.String), cvtUint16String);
    ((reflect.Int32, reflect.Int), cvtInt32Int);
    ((reflect.Int32, reflect.Uint), cvtInt32Uint);
    ((reflect.Int32, reflect.Int8), cvtInt32Int8);
    ((reflect.Int32, reflect.Uint8), cvtInt32Uint8);
    ((reflect.Int32, reflect.Int16), cvtInt32Int16);
    ((reflect.Int32, reflect.Uint16), cvtInt32Uint16);
    ((reflect.Int32, reflect.Int32), cvtInt32Int32);
    ((reflect.Int32, reflect.Uint32), cvtInt32Uint32);
    ((reflect.Int32, reflect.Int64), cvtInt32Int64);
    ((reflect.Int32, reflect.Uint64), cvtInt32Uint64);
    ((reflect.Int32, reflect.Float32), cvtInt32Float32);
    ((reflect.Int32, reflect.Float64), cvtInt32Float64);
    ((reflect.Int32, reflect.Uintptr), cvtInt32Uintptr);
    ((reflect.Int32, reflect.String), cvtInt32String);
    ((reflect.Uint32, reflect.Int), cvtUint32Int);
    ((reflect.Uint32, reflect.Uint), cvtUint32Uint);
    ((reflect.Uint32, reflect.Int8), cvtUint32Int8);
    ((reflect.Uint32, reflect.Uint8), cvtUint32Uint8);
    ((reflect.Uint32, reflect.Int16), cvtUint32Int16);
    ((reflect.Uint32, reflect.Uint16), cvtUint32Uint16);
    ((reflect.Uint32, reflect.Int32), cvtUint32Int32);
    ((reflect.Uint32, reflect.Uint32), cvtUint32Uint32);
    ((reflect.Uint32, reflect.Int64), cvtUint32Int64);
    ((reflect.Uint32, reflect.Uint64), cvtUint32Uint64);
    ((reflect.Uint32, reflect.Float32), cvtUint32Float32);
    ((reflect.Uint32, reflect.Float64), cvtUint32Float64);
    ((reflect.Uint32, reflect.Uintptr), cvtUint32Uintptr);
    ((reflect.Uint32, reflect.String), cvtUint32String);
    ((reflect.Int64, reflect.Int), cvtInt64Int);
    ((reflect.Int64, reflect.Uint), cvtInt64Uint);
    ((reflect.Int64, reflect.Int8), cvtInt64Int8);
    ((reflect.Int64, reflect.Uint8), cvtInt64Uint8);
    ((reflect.Int64, reflect.Int16), cvtInt64Int16);
    ((reflect.Int64, reflect.Uint16), cvtInt64Uint16);
    ((reflect.Int64, reflect.Int32), cvtInt64Int32);
    ((reflect.Int64, reflect.Uint32), cvtInt64Uint32);
    ((reflect.Int64, reflect.Int64), cvtInt64Int64);
    ((reflect.Int64, reflect.Uint64), cvtInt64Uint64);
    ((reflect.Int64, reflect.Float32), cvtInt64Float32);
    ((reflect.Int64, reflect.Float64), cvtInt64Float64);
    ((reflect.Int64, reflect.Uintptr), cvtInt64Uintptr);
    ((reflect.Int64, reflect.String), cvtInt64String);
    ((reflect.Uint64, reflect.Int), cvtUint64Int);
    ((reflect.Uint64, reflect.Uint), cvtUint64Uint);
    ((reflect.Uint64, reflect.Int8), cvtUint64Int8);
    ((reflect.Uint64, reflect.Uint8), cvtUint64Uint8);
    ((reflect.Uint64, reflect.Int16), cvtUint64Int16);
    ((reflect.Uint64, reflect.Uint16), cvtUint64Uint16);
    ((reflect.Uint64, reflect.Int32), cvtUint64Int32);
    ((reflect.Uint64, reflect.Uint32), cvtUint64Uint32);
    ((reflect.Uint64, reflect.Int64), cvtUint64Int64);
    ((reflect.Uint64, reflect.Uint64), cvtUint64Uint64);
    ((reflect.Uint64, reflect.Float32), cvtUint64Float32);
    ((reflect.Uint64, reflect.Float64), cvtUint64Float64);
    ((reflect.Uint64, reflect.Uintptr), cvtUint64Uintptr);
    ((reflect.Uint64, reflect.String), cvtUint64String);
    ((reflect.Float32, reflect.Int), cvtFloat32Int);
    ((reflect.Float32, reflect.Uint), cvtFloat32Uint);
    ((reflect.Float32, reflect.Int8), cvtFloat32Int8);
    ((reflect.Float32, reflect.Uint8), cvtFloat32Uint8);
    ((reflect.Float32, reflect.Int16), cvtFloat32Int16);
    ((reflect.Float32, reflect.Uint16), cvtFloat32Uint16);
    ((reflect.Float32, reflect.Int32), cvtFloat32Int32);
    ((reflect.Float32, reflect.Uint32), cvtFloat32Uint32);
    ((reflect.Float32, reflect.Int64), cvtFloat32Int64);
    ((reflect.Float32, reflect.Uint64), cvtFloat32Uint64);
    ((reflect.Float32, reflect.Float32), cvtFloat32Float32);
    ((reflect.Float32, reflect.Float64), cvtFloat32Float64);
    ((reflect.Float32, reflect.Uintptr), cvtFloat32Uintptr);
    ((reflect.Float32, reflect.String), cvtFloat32String);
    ((reflect.Float64, reflect.Int), cvtFloat64Int);
    ((reflect.Float64, reflect.Uint), cvtFloat64Uint);
    ((reflect.Float64, reflect.Int8), cvtFloat64Int8);
    ((reflect.Float64, reflect.Uint8), cvtFloat64Uint8);
    ((reflect.Float64, reflect.Int16), cvtFloat64Int16);
    ((reflect.Float64, reflect.Uint16), cvtFloat64Uint16);
    ((reflect.Float64, reflect.Int32), cvtFloat64Int32);
    ((reflect.Float64, reflect.Uint32), cvtFloat64Uint32);
    ((reflect.Float64, reflect.Int64), cvtFloat64Int64);
    ((reflect.Float64, reflect.Uint64), cvtFloat64Uint64);
    ((reflect.Float64, reflect.Float32), cvtFloat64Float32);
    ((reflect.Float64, reflect.Float64), cvtFloat64Float64);
    ((reflect.Float64, reflect.Uintptr), cvtFloat64Uintptr);
    ((reflect.Float64, reflect.String), cvtFloat64String);
    ((reflect.Complex64, reflect.Complex64), cvtComplex64Complex64);
    ((reflect.Complex64, reflect.Complex128), cvtComplex64Complex128);
    ((reflect.Complex64, reflect.String), cvtComplex64String);
    ((reflect.Complex128, reflect.Complex64), cvtComplex128Complex64);
    ((reflect.Complex128, reflect.Complex128), cvtComplex128Complex128);
    ((reflect.Complex128, reflect.String), cvtComplex128String);
    ((reflect.Uintptr, reflect.Int), cvtUintptrInt);
    ((reflect.Uintptr, reflect.Uint), cvtUintptrUint);
    ((reflect.Uintptr, reflect.Int8), cvtUintptrInt8);
    ((reflect.Uintptr, reflect.Uint8), cvtUintptrUint8);
    ((reflect.Uintptr, reflect.Int16), cvtUintptrInt16);
    ((reflect.Uintptr, reflect.Uint16), cvtUintptrUint16);
    ((reflect.Uintptr, reflect.Int32), cvtUintptrInt32);
    ((reflect.Uintptr, reflect.Uint32), cvtUintptrUint32);
    ((reflect.Uintptr, reflect.Int64), cvtUintptrInt64);
    ((reflect.Uintptr, reflect.Uint64), cvtUintptrUint64);
    ((reflect.Uintptr, reflect.Float32), cvtUintptrFloat32);
    ((reflect.Uintptr, reflect.Float64), cvtUintptrFloat64);
    ((reflect.Uintptr, reflect.Uintptr), cvtUintptrUintptr);
    ((reflect.Uintptr, reflect.String), cvtUintptrString);
    ((reflect.String, reflect.String), cvtStringString) ].

(** [init] stores each function in the table [cvtOps] under its key. *)
Definition init (cvtOps : gmap convertKind Op) : gmap convertKind Op :=
  foldl (fun cvtOps a => <[a.1 := a.2]> cvtOps) cvtOps initAssignments.

(** The functions that allocate a destination.  Each returns a pointer to a
    fresh variable [v] holding a zero value; what is recorded here is the
    type Go gives that variable: bool for [v := false], int for [v := 0],
    string for the empty string literal. *)
Definition newBoolPtr : type := Tbool.
Definition newIntPtr : type := Tint.
Definition newUintPtr : type := Tint.
Definition newInt8Ptr : type := Tint.
Definition newUint8Ptr : type := Tint.
Definition newInt16Ptr : type := Tint.
Definition newUint16Ptr : type := Tint.
Definition newInt32Ptr : type := Tint.
Definition newUint32Ptr : type := Tint.
Definition newInt64Ptr : type := Tint.
Definition newUint64Ptr : type := Tint.
Definition newFloat32Ptr : type := Tint.
Definition newFloat64Ptr : type := Tint.
Definition newComplex64Ptr : type := Tint.
Definition newComplex128Ptr : type := Tint.
Definition newUintptrPtr : type := Tint.
Definition newStringPtr : type := Tstring.

(** [NewValuePtr k]: the destination for a value of kind [k]; [None] is the
    nil pointer of the default case. *)
Definition NewValuePtr (k : reflect.Kind) : option type :=
  match k with
  | reflect.Bool => Some newBoolPtr
  | reflect.Int => Some newIntPtr
  | reflect.Uint => Some newUintPtr
  | reflect.Int8 => Some newInt8Ptr
  | reflect.Uint8 => Some newUint8Ptr
  | reflect.Int16 => Some newInt16Ptr
  | reflect.Uint16 => Some newUint16Ptr
  | reflect.Int32 => Some newInt32Ptr
  | reflect.Uint32 => Some newUint32Ptr
  | reflect.Int64 => Some newInt64Ptr
  | reflect.Uint64 => Some newUint64Ptr
  | reflect.Float32 => Some newFloat32Ptr
  | reflect.Float64 => Some newFloat64Ptr
  | reflect.Complex64 => Some newComplex64Ptr
  | reflect.Complex128 => Some newComplex128Ptr
  | reflect.Uintptr => Some newUintptrPtr
  | reflect.String => Some newStringPtr
  | _ => None
  end.

(** ** Go's integer conversions *)

(** The platform: the width of int, uint and uintptr. *)
Inductive Arch := Arch32 | Arch64.

Definition wordBits (a : Arch) : Z :=
  match a with Arch32 => 32 | Arch64 => 64 end.

Inductive IntClass :=
  | Signed (bits : Z)
  | Unsigned (bits : Z).

Definition intClass (a : Arch) (t : type) : option IntClass :=
  match t with
  | Tint => Some (Signed (wordBits a))
  | Tint8 => Some (Signed 8)
  | Tint16 => Some (Signed 16)
  | Tint32 => Some (Signed 32)
  | Tint64 => Some (Signed 64)
  | Tuint => Some (Unsigned (wordBits a))
  | Tuint8 => Some (Unsigned 8)
  | Tuint16 => Some (Unsigned 16)
  | Tuint32 => Some (Unsigned 32)
  | Tuint64 => Some (Unsigned 64)
  | Tuintptr => Some (Unsigned (wordBits a))
  | _ => None
  end.

Definition classBits (c : IntClass) : Z :=
  match c with Signed n => n | Unsigned n => n end.

Definition minOf (c : IntClass) : Z :=
  match c with Signed n => - 2 ^ (n - 1) | Unsigned _ => 0 end.

Definition maxOf (c : IntClass) : Z :=
  match c with Signed n => 2 ^ (n - 1) - 1 | Unsigned n => 2 ^ n - 1 end.

(** A conversion between integer types keeps the low bits and reads them in
    the destination type. *)
Definition wrapTo (c : IntClass) (z : Z) : Z :=
  match c with
  | Signed n => (z + 2 ^ (n - 1)) mod 2 ^ n - 2 ^ (n - 1)
  | Unsigned n => z mod 2 ^ n
  end.

(** What a generated function writes for the integer [z] it reads, when both
    of its types are integer types; the conversions with floating-point,
    complex, bool and string types are outside this model. *)
Definition convertInt (a : Arch) (op : Op) (z : Z) : option Z :=
  match op with
  | Convert src dst =>
      match intClass a src, intClass a dst with
      | Some _, Some d => Some (wrapTo d z)
      | _, _ => None
      end
  | Format _ => None
  end.

(** The size in bytes of a variable of each type: the sizes the Go
    specification guarantees for the numeric types, and those of the gc
    compiler for bool (one byte) and string (a pointer and a length). *)
Definition sizeof (a : Arch) (t : type) : Z :=
  match t with
  | Tbool | Tint8 | Tuint8 => 1
  | Tint16 | Tuint16 => 2
  | Tint32 | Tuint32 | Tfloat32 => 4
  | Tint64 | Tuint64 | Tfloat64 | Tcomplex64 => 8
  | Tcomplex128 => 16
  | Tint | Tuint | Tuintptr => wordBits a / 8
  | Tstring => 2 * (wordBits a / 8)
  end.

End converter.

(** * default/service: OrganizationUserService.GetUserOrganizationIds *)

Module organization.

(** The fields of the domain records the function reads. *)
Record OrganizationUser := mkOrganizationUser { OrganizationId : Z }.

Record Organization := mkOrganization { PathInfo : string }.

Section WithRepositories.

(** The two repositories, and the two library functions: strings.Split and
    strconv.Atoi with its value and its error. *)
Variable GetByUserId : string -> list OrganizationUser.
Variable GetByIds : list Z -> list Organization.
Variable Split : string -> string -> list string.
Variable Atoi : string -> Z * option error.

Definition GetUserOrganizationIds (userId : string) : list Z :=
  let organizationUsers := GetByUserId userId in
  let memberIds :=
    foldl (fun memberIds v => memberIds ++ [OrganizationId v]) [] organizationUsers in
  let organization := GetByIds memberIds in
  foldl
    (fun organizationIdArr v =>
       let idArr := Split (PathInfo v) "," in
       foldl
         (fun organizationIdArr vv =>
            let '(id, _) := Atoi vv in
            if 0 <? id then organizationIdArr ++ [id] else organizationIdArr)
         organizationIdArr idArr)
    [] organization.

End WithRepositories.

End organization.

(** * What a run shows, and sample inputs *)

(** The error a send returns, from the transport's two answers. *)
Definition sendResult (env : SendEnv) : option error :=
  match deadlineErr env with
  | Some err => Some err
  | None => writeErr env
  end.

(** The send returns an error. *)
Definition sendFails (env : SendEnv) : bool :=
  match sendResult env with Some _ => true | None => false end.

(** The events of a send on the client [c]. *)
Definition sendEvents (c : Client) (env : SendEnv) (messageType : Z) (message : string)
  : list Event :=
  ConnEv (Conn c) (SetWriteDeadline (Now_Add (now env) (WriteDeadline c)) (deadlineErr env)) ::
  match deadlineErr env with
  | Some err => [LogError ErrorsWebsocketSetWriteDeadlineFail err]
  | None => [ConnEv (Conn c) (WriteMessage messageType (list_byte_of_string message) (writeErr env))]
  end.

(** A frame was handed to the connection. *)
Definition isWriteMessage (e : Event) : bool :=
  match e with
  | ConnEv _ (WriteMessage _ _ _) => true
  | _ => false
  end.

(** An effect of a send: a write-side call on the client's connection, or a
    line of the error log. *)
Definition sendEffect (c : Client) (e : Event) : Prop :=
  match e with
  | ConnEv k (SetWriteDeadline _ _) => k = Conn c
  | ConnEv k (WriteMessage _ _ _) => k = Conn c
  | LogError _ _ => True
  | _ => False
  end.

(** How many events of a trace are of the kind [p]. *)
Definition countEv (p : Event -> bool) (t : list Event) : nat :=
  length (List.filter p t).

(** A world in which a send can be tried: an active client, lock free. *)
Definition sampleClient : Client :=
  mkClient HubGlobal 3%nat (mkChan 0 16 []) 5000000000 60000000000 10000000000
           0 1 false (mkParams "" "").

Definition sampleWorld : World := mkWorld 7%nat sampleClient [] 1%nat [].

(** A send that succeeds. *)
Definition sendOk : SendEnv := mkSendEnv 100 None None.

(** A send whose write deadline cannot be set. *)
Definition sendNoDeadline : SendEnv := mkSendEnv 100 (Some (ExternalError 1)) None.

(** A send whose write fails. *)
Definition sendNoWrite : SendEnv := mkSendEnv 100 None (Some (ExternalError 2)).

(** A send was tried: every SendMessage begins with SetWriteDeadline. *)
Definition isSendAttempt (e : Event) : bool :=
  match e with
  | ConnEv _ (SetWriteDeadline _ _) => true
  | _ => false
  end.

(** A setting with [m] as the maximum of heartbeat failures. *)
Definition settingWithMax (m : Z) : config.WebsocketSetting :=
  config.mkSetting 16 5 60 10 65535 m.

(** A call of onClose. *)
Definition isOnClose (e : Event) : bool :=
  match e with
  | OnClose => true
  | _ => false
  end.

(** The result of a call followed by [ret a]. *)
Definition thenRet {A} (a : A) (r : Res unit) : Res A :=
  match r with
  | Ret _ => Ret a
  | Panic v => Panic v
  | Pending => Pending
  end.

(** [errors.New(ErrorsWebsocketStateInvalid)] *)
Definition StateInvalid : error := errors_New ErrorsWebsocketStateInvalid.

(** The world once [ReadMessage] has returned [r]. *)
Definition afterRead (r : ReadResult) (w : World) : World :=
  with_trace (fun t => t ++ [ConnEv (Conn (client w)) (ReadMessage r)]) w.

(** The events of the read loop, as the description of the loop has them: a
    frame that is read is handed to onMessage before anything else happens;
    a read error is handed to onError and ends the loop; a state that is not
    1 is reported to onError as the state-invalid error and ends the loop.
    The events stop early where the loop is still waiting for a frame or for
    a callback, or where a callback panicked. *)
Inductive ReadTrace : list ReadResult -> list Event -> Prop :=
| RT_frame k r rest evs :
    rdErr r = None -> ReadTrace rest evs ->
    ReadTrace (r :: rest)
      (ConnEv k (ReadMessage r) :: OnMessage (rdType r) (rdData r) :: evs)
| RT_error k r rest err :
    rdErr r = Some err ->
    ReadTrace (r :: rest) [ConnEv k (ReadMessage r); OnError err]
| RT_invalid incoming : ReadTrace incoming [OnError StateInvalid]
| RT_stop incoming : ReadTrace incoming [].

(** What the deferred function of ReadPump adds to the log for the value
    [recover()] returned. *)
Definition recoveredLog (what : ErrorsConst) (p : option PanicVal) : list Event :=
  match p with
  | Some (PanicErr val) => [LogError what val]
  | _ => []
  end.

(** The panic value a result carries. *)
Definition panicOf {A} (r : Res A) : option PanicVal :=
  match r with
  | Panic v => Some v
  | _ => None
  end.

(** The call has not returned. *)
Definition isPending {A} (r : Res A) : bool :=
  match r with
  | Pending => true
  | _ => false
  end.

(** An event of the read loop proper: a read, or a call of onMessage or
    onError. *)
Definition isReadLoopEvent (e : Event) : bool :=
  match e with
  | ConnEv _ (ReadMessage _) => true
  | OnMessage _ _ => true
  | OnError _ => true
  | _ => false
  end.

(** The events of a frame that is read and handed to onMessage. *)
Definition frameEvents (k : ConnRef) (r : ReadResult) : list Event :=
  [ConnEv k (ReadMessage r); OnMessage (rdType r) (rdData r)].

(** A callback that returns and leaves [c.State] and [c.Conn] alone. *)
Definition returnsKeeping (f : Client -> Res unit * Client) : Prop :=
  forall c, fst (f c) = Ret tt /\ State (snd (f c)) = State c /\ Conn (snd (f c)) = Conn c.

(** [c.Hub] once OnOpen has looked at the global hub. *)
Definition hubAfter (env : OpenEnv) (c : Client) : HubPtr :=
  match globalHub env with
  | Some wsHub => wsHub
  | None => Hub c
  end.

(** The error-log line of a handshake that could not be sent. *)
Definition handshakeLog (env : OpenEnv) : list Event :=
  match sendResult (handshake env) with
  | Some err => [LogError ErrorsWebsocketWriteMgsFail err]
  | None => []
  end.

(** The client OnOpen leaves behind when it succeeds on the connection [k]. *)
Definition openedClient (Setting : config.WebsocketSetting) (k : ConnRef) (w : World)
  : Client :=
  mkClient HubGlobal k (mkChan (nextChan w) (config.BufferSize Setting) [])
           (seconds (config.PingPeriod Setting))
           (seconds (config.ReadDeadline Setting))
           (seconds (config.WriteDeadline Setting))
           (HeartbeatFailTimes (client w)) 1 false (MoreParams (client w)).

(** A client that has not been opened, at address 7. *)
Definition newWorld : World := mkWorld 7%nat newClient [] 0%nat [].

(** An upgrade that succeeds, with a handshake whose write fails. *)
Definition openNoWrite : OpenEnv := mkOpenEnv (inl 3%nat) (Some HubGlobal) sendNoWrite.

(** An upgrade that succeeds, with a handshake whose deadline cannot be set. *)
Definition openNoDeadline : OpenEnv := mkOpenEnv (inl 3%nat) (Some HubGlobal) sendNoDeadline.

(** Callbacks that return at once and touch nothing. *)
Definition idleCallbacks : Callbacks :=
  mkCallbacks (fun _ _ c => (Ret tt, c)) (fun _ c => (Ret tt, c)) (fun c => (Ret tt, c)).

(** The set of clients holds exactly the clients whose registration stands. *)
Definition registryAgrees (s : System) : Prop :=
  forall c : ClientRef, c ∈ clients s <-> registrationStands c (served s) = true.

(** An upgrade that succeeds, with a handshake that is sent. *)
Definition openOk : OpenEnv := mkOpenEnv (inl 3%nat) (Some HubGlobal) sendOk.

(** The first read deadline Heartbeat sets. *)
Definition firstReadDeadline (now0 : Z) (c : Client) : Time :=
  if ReadDeadline c =? 0 then ZeroTime else Now_Add now0 (ReadDeadline c).

(** What a heartbeat may add to a run: a write deadline or a ping frame with
    the fixed payload, both on the client's connection, or a line of the
    error log. *)
Definition isPingEffect (c : Client) (e : Event) : Prop :=
  match e with
  | ConnEv k (SetWriteDeadline _ _) => k = Conn c
  | ConnEv k (WriteMessage mt data _) =>
      k = Conn c /\ mt = PingMessage /\ data = list_byte_of_string WebsocketServerPingMsg
  | LogError _ _ => True
  | _ => False
  end.

(** The fields of a client a heartbeat does not write: all but [State] and
    [HeartbeatFailTimes]. *)
Definition keepsConnection (c c' : Client) : Prop :=
  Hub c' = Hub c /\ Conn c' = Conn c /\ Send c' = Send c /\
  PingPeriod c' = PingPeriod c /\ ReadDeadline c' = ReadDeadline c /\
  WriteDeadline c' = WriteDeadline c /\ RWMutex c' = RWMutex c /\
  MoreParams c' = MoreParams c.

(** The ticks of a list whose send fails. *)
Definition failingTicks (ticks : list SendEnv) : nat :=
  length (List.filter sendFails ticks).

Definition isRead (e : Event) : bool :=
  match e with
  | ConnEv _ (ReadMessage _) => true
  | _ => false
  end.

Definition isOnMessage (e : Event) : bool :=
  match e with
  | OnMessage _ _ => true
  | _ => false
  end.

Definition isOnError (e : Event) : bool :=
  match e with
  | OnError _ => true
  | _ => false
  end.

(** The results of the reads of a trace, in order. *)
Fixpoint readsOf (t : list Event) : list ReadResult :=
  match t with
  | [] => []
  | ConnEv _ (ReadMessage r) :: rest => r :: readsOf rest
  | _ :: rest => readsOf rest
  end.

(** What ReadPump may add to a run: reads on the connection, calls of the
    three callbacks, and lines of the error log. *)
Definition isReadPumpEvent (e : Event) : bool :=
  match e with
  | ConnEv _ (ReadMessage _) => true
  | OnMessage _ _ => true
  | OnError _ => true
  | OnClose => true
  | LogError _ _ => true
  | _ => false
  end.

(** A setting whose PingPeriod is 0. *)
Definition settingWithoutPeriod : config.WebsocketSetting :=
  config.mkSetting 16 0 60 10 65535 2.

(** The sample client, closed. *)
Definition closedWorld : World := with_client (set_State 0) sampleWorld.

(** The sample client with a read deadline of -1 second. *)
Definition negativeDeadlineWorld : World :=
  with_client (set_ReadDeadline (-1000000000)) sampleWorld.

(** The top-level credentials of the setting, as an app setting. *)
Definition defaultAppSetting (Setting : wxmp.WxmpSetting.t) : wxmp.AppSetting.t :=
  wxmp.AppSetting.mk (wxmp.WxmpSetting.AppId Setting) (wxmp.WxmpSetting.AppSecret Setting)
    (wxmp.WxmpSetting.MessageToken Setting) (wxmp.WxmpSetting.MessageAESKey Setting).

(** The app id GetApp works with: the default one for the empty string. *)
Definition appKey (Setting : wxmp.WxmpSetting.t) (appId : string) : string :=
  if String.eqb appId "" then wxmp.WxmpSetting.AppId Setting else appId.

(** The Go type of the values of a kind, for the kinds of basic types. *)
Definition typeOf (k : reflect.Kind) : option converter.type :=
  match k with
  | reflect.Bool => Some converter.Tbool
  | reflect.Int => Some converter.Tint
  | reflect.Int8 => Some converter.Tint8
  | reflect.Int16 => Some converter.Tint16
  | reflect.Int32 => Some converter.Tint32
  | reflect.Int64 => Some converter.Tint64
  | reflect.Uint => Some converter.Tuint
  | reflect.Uint8 => Some converter.Tuint8
  | reflect.Uint16 => Some converter.Tuint16
  | reflect.Uint32 => Some converter.Tuint32
  | reflect.Uint64 => Some converter.Tuint64
  | reflect.Uintptr => Some converter.Tuintptr
  | reflect.Float32 => Some converter.Tfloat32
  | reflect.Float64 => Some converter.Tfloat64
  | reflect.Complex64 => Some converter.Tcomplex64
  | reflect.Complex128 => Some converter.Tcomplex128
  | reflect.String => Some converter.Tstring
  | _ => None
  end.

Inductive Family := Boolean | Number | ComplexNumber | Text.

Definition family (t : converter.type) : Family :=
  match t with
  | converter.Tbool => Boolean
  | converter.Tcomplex64 | converter.Tcomplex128 => ComplexNumber
  | converter.Tstring => Text
  | _ => Number
  end.

(** The pairs of types the table covers: every type to string, and within
    its family otherwise. *)
Definition convertible (s d : converter.type) : bool :=
  match family s, family d with
  | _, Text => true
  | Boolean, Boolean | Number, Number | ComplexNumber, ComplexNumber => true
  | _, _ => false
  end.

(** The function one expects under a pair of kinds: formatting into a
    string, the Go conversion between the two types otherwise. *)
Definition expectedOp (s d : reflect.Kind) : option converter.Op :=
  match typeOf s, typeOf d with
  | Some S', Some D' =>
      if convertible S' D' then
        Some (match D' with
              | converter.Tstring => converter.Format S'
              | _ => converter.Convert S' D'
              end)
      else None
  | _, _ => None
  end.

(** The function the last assignment to a key stores, if there is one. *)
Fixpoint lastAssigned (k : converter.convertKind)
    (l : list (converter.convertKind * converter.Op)) : option converter.Op :=
  match l with
  | [] => None
  | a :: l =>
      match lastAssigned k l with
      | Some op => Some op
      | None => if decide (a.1 = k) then Some a.2 else None
      end
  end.

(** The integer class of the values of a kind. *)
Definition kindClass (a : converter.Arch) (k : reflect.Kind) : option converter.IntClass :=
  match typeOf k with
  | Some t => converter.intClass a t
  | None => None
  end.

Definition inClass (c : converter.IntClass) (z : Z) : Prop :=
  converter.minOf c <= z <= converter.maxOf c.

(** The kinds whose values are larger than an int variable. *)
Definition largerThanInt (a : converter.Arch) (k : reflect.Kind) : bool :=
  match a, k with
  | _, reflect.Complex128 => true
  | converter.Arch32, (reflect.Int64 | reflect.Uint64 | reflect.Float64 | reflect.Complex64) =>
      true
  | _, _ => false
  end.

(** The ids in the path of an organization: the segments between commas
    that Atoi reads as a positive number. *)
Definition pathIds (Split : string -> string -> list string) (Atoi : string -> Z * option error)
    (v : organization.Organization) : list Z :=
  List.filter (fun id => 0 <? id)
    (map (fun vv => fst (Atoi vv)) (Split (organization.PathInfo v) ",")).

(** A setting with a default account and one more app, and a service that
    has created no account yet. *)
Definition sampleWxmpSetting : wxmp.WxmpSetting.t :=
  wxmp.WxmpSetting.mk true "wx-main" "main-secret" "main-token" "main-key"
    [wxmp.AppSetting.mk "wx-shop" "shop-secret" "shop-token" "shop-key"].

Definition emptyService : wxmp.WxmpService := wxmp.mkService ∅ [].

(** * Properties *)

(** ** What one SendMessage does *)

(** Unfolding the operations of the monad. *)
Ltac unfold_go :=
  cbv [bind ret defer defer_recover panic pending getClient getSelf modify emit
       Conn_call Lock Unlock call logRecovered with_client with_trace].

Lemma set_RWMutex_release (c : Client) :
  RWMutex c = false -> set_RWMutex false (set_RWMutex true c) = c.
Proof. destruct c; simpl; intros ->; reflexivity. Qed.

Lemma SendMessage_locked env mt msg (w : World) :
  RWMutex (client w) = true -> SendMessage env mt msg w = (Pending, w).
Proof.
  intros Hl. cbv [SendMessage]; unfold_go. rewrite Hl. reflexivity.
Qed.

Lemma SendMessage_free env mt msg (w : World) :
  RWMutex (client w) = false ->
  SendMessage env mt msg w =
  (Ret (sendResult env),
   with_trace (fun t => t ++ sendEvents (client w) env mt msg) w).
Proof.
  intros Hf. destruct w as [a c q n t]; simpl in Hf.
  cbv [SendMessage sendResult sendEvents]; unfold_go; simpl.
  rewrite Hf; simpl.
  destruct (deadlineErr env) as [e|]; simpl.
  - rewrite set_RWMutex_release by assumption. rewrite <- app_assoc. reflexivity.
  - destruct (writeErr env); simpl;
      rewrite set_RWMutex_release by assumption; rewrite <- app_assoc; reflexivity.
Qed.

(** ** The send primitive *)

Lemma countEv_app p (t1 t2 : list Event) :
  countEv p (t1 ++ t2) = (countEv p t1 + countEv p t2)%nat.
Proof. unfold countEv. rewrite List.filter_app, length_app. reflexivity. Qed.

(** C5. Every call of SendMessage, once it holds the client's lock, first
    sets the write deadline to now + WriteDeadline.  If setting the deadline
    fails, the call returns that error and no frame is written (no
    WriteMessage follows).  Otherwise it writes the frame, and returns the
    transport's write error as it is when the write fails and nil when it
    succeeds. *)
Theorem SendMessage_deadline_then_write
  (env : SendEnv) (messageType : Z) (message : string) (w : World) :
  RWMutex (client w) = false ->
  exists rest,
    trace (snd (SendMessage env messageType message w)) =
      trace w ++
      ConnEv (Conn (client w))
        (SetWriteDeadline (Now_Add (now env) (WriteDeadline (client w))) (deadlineErr env))
      :: rest /\
    match deadlineErr env with
    | Some err =>
        fst (SendMessage env messageType message w) = Ret (Some err) /\
        countEv isWriteMessage rest = 0%nat
    | None =>
        rest = [ConnEv (Conn (client w))
                  (WriteMessage messageType (list_byte_of_string message) (writeErr env))] /\
        match writeErr env with
        | Some err => fst (SendMessage env messageType message w) = Ret (Some err)
        | None => fst (SendMessage env messageType message w) = Ret None
        end
    end.
Proof.
  intros Hfree. rewrite SendMessage_free by assumption. simpl.
  unfold sendEvents, sendResult.
  destruct (deadlineErr env) as [err|].
  - eexists. split; [reflexivity|]. split; reflexivity.
  - eexists. split; [reflexivity|]. split; [reflexivity|].
    destruct (writeErr env); reflexivity.
Qed.

Lemma SendMessage_deadline_then_write_witness :
  RWMutex (client sampleWorld) = false /\
  exists rest,
    trace (snd (SendMessage sendNoDeadline TextMessage "hello" sampleWorld)) =
      trace sampleWorld ++
      ConnEv 3%nat (SetWriteDeadline (Instant 10000000100) (Some (ExternalError 1))) :: rest /\
    fst (SendMessage sendNoDeadline TextMessage "hello" sampleWorld)
      = Ret (Some (ExternalError 1)) /\
    countEv isWriteMessage rest = 0%nat.
Proof.
  split; [reflexivity|].
  exact (SendMessage_deadline_then_write sendNoDeadline TextMessage "hello" sampleWorld
           eq_refl).
Defined.

Lemma SendMessage_adds env mt msg (w : World) :
  exists evs,
    snd (SendMessage env mt msg w) = with_trace (fun t => t ++ evs) w /\
    Forall (sendEffect (client w)) evs /\
    (countEv isWriteMessage evs <= 1)%nat.
Proof.
  destruct (RWMutex (client w)) eqn:Hm.
  - rewrite SendMessage_locked by assumption. exists []. simpl.
    split; [|split].
    + destruct w; unfold with_trace; simpl. rewrite app_nil_r. reflexivity.
    + constructor.
    + unfold countEv; simpl; lia.
  - rewrite SendMessage_free by assumption.
    exists (sendEvents (client w) env mt msg). split; [reflexivity|].
    unfold sendEvents, countEv.
    destruct (deadlineErr env); (split; [repeat constructor | simpl; lia]).
Qed.

(** C10. A call of SendMessage, whether it succeeds, fails or waits for the
    lock, leaves every field of the Client as it was - State,
    HeartbeatFailTimes, PingPeriod, ReadDeadline, WriteDeadline, the Send
    channel, the Hub pointer, the extra parameters, and also the Conn pointer
    and the mutex, which is released again - and leaves the hub's queue
    alone.  What it adds to the run are calls on the client's connection, one
    SetWriteDeadline and at most one WriteMessage, and the error-log line of
    a failed deadline. *)
Theorem SendMessage_frame
  (env : SendEnv) (messageType : Z) (message : string) (w : World) :
  client (snd (SendMessage env messageType message w)) = client w /\
  (State (client (snd (SendMessage env messageType message w))) = State (client w) /\
   HeartbeatFailTimes (client (snd (SendMessage env messageType message w)))
     = HeartbeatFailTimes (client w) /\
   PingPeriod (client (snd (SendMessage env messageType message w))) = PingPeriod (client w) /\
   ReadDeadline (client (snd (SendMessage env messageType message w)))
     = ReadDeadline (client w) /\
   WriteDeadline (client (snd (SendMessage env messageType message w)))
     = WriteDeadline (client w) /\
   Send (client (snd (SendMessage env messageType message w))) = Send (client w) /\
   Hub (client (snd (SendMessage env messageType message w))) = Hub (client w) /\
   MoreParams (client (snd (SendMessage env messageType message w)))
     = MoreParams (client w)) /\
  self (snd (SendMessage env messageType message w)) = self w /\
  registerQueue (snd (SendMessage env messageType message w)) = registerQueue w /\
  nextChan (snd (SendMessage env messageType message w)) = nextChan w /\
  exists evs,
    trace (snd (SendMessage env messageType message w)) = trace w ++ evs /\
    Forall (sendEffect (client w)) evs /\
    (countEv isWriteMessage evs <= 1)%nat.
Proof.
  destruct (SendMessage_adds env messageType message w) as (evs & Hw & Hall & Hcount).
  rewrite Hw. destruct w as [a c q n t]. simpl.
  split; [reflexivity|]. split; [tauto|].
  do 3 (split; [reflexivity|]).
  exists evs. auto.
Qed.

Lemma wrap64_small (z : Z) : MinInt64 <= z <= MaxInt64 -> wrap64 z = z.
Proof.
  unfold wrap64, MinInt64, MaxInt64. intros H.
  rewrite Z.mod_small by lia. lia.
Qed.

Section HeartbeatFacts.

Variable Setting : config.WebsocketSetting.
Local Abbreviation Max := (config.HeartbeatFailMaxTimes Setting).
Local Abbreviation ping env c := (sendEvents c env PingMessage WebsocketServerPingMsg).

(** A tick on a client that is not active ends the loop and does nothing. *)
Lemma heartbeatTick_inactive env (w : World) :
  State (client w) <> 1 -> heartbeatTick Setting env w = (Ret Return, w).
Proof.
  intros H. cbv [heartbeatTick]; unfold_go.
  destruct (Z.eqb_spec (State (client w)) 1); [contradiction | reflexivity].
Qed.

(** A tick whose send fails. *)
Lemma heartbeatTick_fail env (w : World) :
  State (client w) = 1 -> RWMutex (client w) = false -> sendFails env = true ->
  heartbeatTick Setting env w =
  let n := wrap64 (HeartbeatFailTimes (client w) + 1) in
  if n >? Max then
    (Ret Return,
     with_trace (fun t => t ++ ping env (client w) ++
                   match sendResult env with
                   | Some err => [LogError ErrorsWebsocketBeatHeartsMoreThanMaxTimes err]
                   | None => []
                   end)
       (with_client (fun c => set_State 0 (set_HeartbeatFailTimes n c)) w))
  else
    (Ret Continue,
     with_trace (fun t => t ++ ping env (client w))
       (with_client (set_HeartbeatFailTimes n) w)).
Proof.
  intros Hs Hf Hx. cbv [heartbeatTick]. cbv [bind getClient]. rewrite Hs; simpl.
  rewrite SendMessage_free by assumption.
  unfold sendFails in Hx. destruct (sendResult env) as [err|]; [|discriminate].
  unfold_go; simpl.
  destruct (_ >? Max); simpl.
  - destruct w; simpl. rewrite <- app_assoc. reflexivity.
  - reflexivity.
Qed.

(** A tick whose send succeeds. *)
Lemma heartbeatTick_ok env (w : World) :
  State (client w) = 1 -> RWMutex (client w) = false -> sendFails env = false ->
  heartbeatTick Setting env w =
  (Ret Continue,
   with_trace (fun t => t ++ ping env (client w))
     (with_client
        (fun c => if HeartbeatFailTimes c >? 0
                  then set_HeartbeatFailTimes (wrap64 (HeartbeatFailTimes c - 1)) c
                  else c) w)).
Proof.
  intros Hs Hf Hx. cbv [heartbeatTick]. cbv [bind getClient]. rewrite Hs; simpl.
  rewrite SendMessage_free by assumption.
  unfold sendFails in Hx. destruct (sendResult env) as [err|]; [discriminate|].
  unfold_go; simpl.
  destruct (_ >? 0); reflexivity.
Qed.

End HeartbeatFacts.

(** ** The heartbeat loop *)

Lemma sendEvents_one_attempt c env mt msg :
  countEv isSendAttempt (sendEvents c env mt msg) = 1%nat.
Proof. unfold sendEvents, countEv. destruct (deadlineErr env); reflexivity. Qed.

Opaque sendEvents.

Section HeartbeatLoop.

Variable Setting : config.WebsocketSetting.
Local Abbreviation Max := (config.HeartbeatFailMaxTimes Setting).
Local Abbreviation failures w := (HeartbeatFailTimes (client w)).
Local Abbreviation attempts w := (countEv isSendAttempt (trace w)).

(** Failing ticks, one after the other, on an active client that is within
    its budget: either the budget holds and the loop goes on, or the state is
    set to 0 by the failure that exceeds it, and the loop returns there. *)
Lemma heartbeatLoop_failures (fails : list SendEnv) :
  forall w : World,
  State (client w) = 1 -> RWMutex (client w) = false ->
  0 <= failures w <= Max -> Max < MaxInt64 ->
  Forall (fun env => sendFails env = true) fails ->
  exists w',
    if Z.of_nat (length fails) <=? Max - failures w then
      (forall rest, heartbeatLoop Setting (fails ++ rest) w = heartbeatLoop Setting rest w') /\
      State (client w') = 1 /\ RWMutex (client w') = false /\
      failures w' = failures w + Z.of_nat (length fails) /\
      attempts w' = (attempts w + length fails)%nat
    else
      (forall rest, heartbeatLoop Setting (fails ++ rest) w = (Ret tt, w')) /\
      State (client w') = 0 /\
      failures w' = Max + 1 /\
      attempts w' = (attempts w + Z.to_nat (Max + 1 - failures w))%nat.
Proof.
  induction fails as [|env fails IH]; intros w Hs Hf Hn HM Hall.
  - exists w. simpl. destruct (Z.leb_spec (Z.of_nat 0) (Max - failures w)); [|lia].
    repeat split; try assumption; lia.
  - inversion Hall as [|? ? Henv Hall']; subst.
    pose proof (heartbeatTick_fail Setting env w Hs Hf Henv) as Ht. cbv zeta in Ht.
    unfold MaxInt64 in HM.
    rewrite wrap64_small in Ht by (unfold MinInt64, MaxInt64; lia).
    destruct (Z.gtb_spec (failures w + 1) Max) as [Hgt|Hle].
    + eexists. destruct (Z.leb_spec (Z.of_nat (length (env :: fails))) (Max - failures w)) as [H1|H1];
        [simpl length in H1; lia|].
      split; [intros rest; simpl; unfold bind at 1; rewrite Ht; reflexivity|].
      simpl. split; [reflexivity|]. split; [lia|].
      rewrite !countEv_app, sendEvents_one_attempt.
      replace (Z.to_nat (Max + 1 - failures w)) with 1%nat by lia.
      destruct (sendResult env); unfold countEv; simpl; lia.
    + destruct (IH (with_trace (fun t => t ++ sendEvents (client w) env PingMessage WebsocketServerPingMsg)
                     (with_client (set_HeartbeatFailTimes (failures w + 1)) w)))
        as (w' & Hw'); try assumption; simpl; try lia.
      exists w'. simpl in Hw'. simpl length.
      destruct (Z.leb_spec (Z.of_nat (length fails)) (Max - (failures w + 1)));
        destruct (Z.leb_spec (Z.of_nat (S (length fails))) (Max - failures w)); try lia.
      * destruct Hw' as (Hrun & Hs' & Hf' & Hn' & Ha').
        split; [intros rest; simpl; unfold bind at 1; rewrite Ht; apply Hrun|].
        repeat split; try assumption; try lia.
        rewrite Ha', countEv_app, sendEvents_one_attempt. lia.
      * destruct Hw' as (Hrun & Hs' & Hn' & Ha').
        split; [intros rest; simpl; unfold bind at 1; rewrite Ht; apply Hrun|].
        repeat split; try assumption.
        rewrite Ha', countEv_app, sendEvents_one_attempt. lia.
Qed.

(** Whatever the ticks bring, the failure count of a client that starts
    within its budget stays at or above 0. *)
Lemma heartbeatLoop_count_nonneg (ticks : list SendEnv) :
  forall w : World,
  RWMutex (client w) = false -> Max < MaxInt64 ->
  0 <= failures w -> (State (client w) = 1 -> failures w <= Z.max 0 Max) ->
  0 <= failures (snd (heartbeatLoop Setting ticks w)).
Proof.
  induction ticks as [|env ticks IH]; intros w Hf HM Hn Hb; [simpl; assumption|].
  simpl. unfold bind at 1.
  destruct (Z.eq_dec (State (client w)) 1) as [Hs|Hs].
  - specialize (Hb Hs). unfold MaxInt64 in HM.
    destruct (sendFails env) eqn:Henv.
    + pose proof (heartbeatTick_fail Setting env w Hs Hf Henv) as Ht. cbv zeta in Ht.
      rewrite wrap64_small in Ht by (unfold MinInt64, MaxInt64; lia).
      rewrite Ht. destruct (Z.gtb_spec (failures w + 1) Max).
      * simpl. lia.
      * apply IH; simpl; try assumption; lia.
    + rewrite (heartbeatTick_ok Setting env w Hs Hf Henv).
      apply IH; simpl; try assumption; unfold MaxInt64; try lia.
      * destruct (Z.gtb_spec (failures w) 0); simpl; [|assumption].
        destruct (client w); simpl in *. assumption.
      * destruct (Z.gtb_spec (failures w) 0); simpl; [|assumption].
        rewrite wrap64_small by (unfold MinInt64, MaxInt64; lia). lia.
      * intros _. destruct (Z.gtb_spec (failures w) 0); simpl; [|lia].
        rewrite wrap64_small by (unfold MinInt64, MaxInt64; lia). lia.
  - rewrite heartbeatTick_inactive by assumption. simpl. assumption.
Qed.

(** C2 (as amended). A run of the heartbeat loop on an active client whose
    failure count is 0 and whose lock is free, with a maximum
    HeartbeatFailMaxTimes between 0 and 2^63 - 2.  While at most the maximum
    number of pings have failed in a row the state stays 1 and the loop goes
    on; the failure number maximum + 1 sets the state to 0 and the loop
    returns, so that no later tick sends a ping.  After maximum - 1 failures
    and one successful ping the loop goes on with state 1 and the count is
    the larger of 0 and one less than before: one less when the maximum is at
    least 2, and still 0 when the maximum is 1.  Whatever pings fail or
    succeed, the count is never negative. *)
Theorem heartbeat_failure_budget (w : World) (fails : list SendEnv) :
  State (client w) = 1 -> HeartbeatFailTimes (client w) = 0 ->
  RWMutex (client w) = false ->
  0 <= Max < MaxInt64 ->
  Forall (fun env => sendFails env = true) fails ->
  (Z.of_nat (length fails) <= Max ->
     fst (heartbeatLoop Setting fails w) = Pending /\
     State (client (snd (heartbeatLoop Setting fails w))) = 1 /\
     failures (snd (heartbeatLoop Setting fails w)) = Z.of_nat (length fails)) /\
  (Z.of_nat (length fails) = Max + 1 ->
     fst (heartbeatLoop Setting fails w) = Ret tt /\
     State (client (snd (heartbeatLoop Setting fails w))) = 0 /\
     attempts (snd (heartbeatLoop Setting fails w)) = (attempts w + length fails)%nat /\
     forall more,
       heartbeatLoop Setting (fails ++ more) w = heartbeatLoop Setting fails w) /\
  (Z.of_nat (length fails) = Max - 1 ->
     forall okTick, sendFails okTick = false ->
       fst (heartbeatLoop Setting (fails ++ [okTick]) w) = Pending /\
       State (client (snd (heartbeatLoop Setting (fails ++ [okTick]) w))) = 1 /\
       failures (snd (heartbeatLoop Setting (fails ++ [okTick]) w))
         = Z.max 0 (failures (snd (heartbeatLoop Setting fails w)) - 1) /\
       (2 <= Max ->
        failures (snd (heartbeatLoop Setting (fails ++ [okTick]) w))
          = failures (snd (heartbeatLoop Setting fails w)) - 1)) /\
  (forall ticks, 0 <= failures (snd (heartbeatLoop Setting ticks w))).
Proof.
  intros Hs H0 Hf HM Hall.
  destruct (heartbeatLoop_failures fails w Hs Hf ltac:(lia) ltac:(lia) Hall) as (w' & Hw').
  rewrite H0, Z.sub_0_r in Hw'.
  split; [|split; [|split]].
  - intros Hlen. destruct (Z.leb_spec (Z.of_nat (length fails)) Max); [|lia].
    destruct Hw' as (Hrun & Hs' & _ & Hn' & _).
    specialize (Hrun []). rewrite app_nil_r in Hrun. rewrite Hrun. simpl.
    repeat split; [assumption | lia].
  - intros Hlen. destruct (Z.leb_spec (Z.of_nat (length fails)) Max); [lia|].
    destruct Hw' as (Hrun & Hs' & _ & Ha').
    pose proof (Hrun []) as Hnil. rewrite app_nil_r in Hnil. rewrite Hnil. simpl.
    split; [reflexivity|]. split; [assumption|]. split; [rewrite Ha'; lia|].
    intros more. apply Hrun.
  - intros Hlen okTick Hok.
    destruct (Z.leb_spec (Z.of_nat (length fails)) Max); [|lia].
    destruct Hw' as (Hrun & Hs' & Hf' & Hn' & _).
    pose proof (Hrun []) as Hnil. rewrite app_nil_r in Hnil.
    pose proof (heartbeatTick_ok Setting okTick w' Hs' Hf' Hok) as Ht.
    assert (Hgo : heartbeatLoop Setting (fails ++ [okTick]) w
                  = (Pending, snd (heartbeatTick Setting okTick w'))).
    { rewrite Hrun. simpl. unfold bind. rewrite Ht. reflexivity. }
    rewrite Hgo, Hnil, Ht. simpl.
    unfold MaxInt64 in HM.
    split; [reflexivity|].
    destruct (Z.gtb_spec (failures w') 0); simpl.
    + rewrite wrap64_small by (unfold MinInt64, MaxInt64; lia).
      repeat split; try assumption; lia.
    + repeat split; try assumption; lia.
  - intros ticks. apply heartbeatLoop_count_nonneg; try assumption; lia.
Qed.

End HeartbeatLoop.

Transparent sendEvents.

Lemma heartbeat_failure_budget_witness :
  (State (client sampleWorld) = 1 /\ HeartbeatFailTimes (client sampleWorld) = 0 /\
   RWMutex (client sampleWorld) = false /\
   0 <= config.HeartbeatFailMaxTimes (settingWithMax 2) < MaxInt64 /\
   Forall (fun env => sendFails env = true) [sendNoWrite; sendNoDeadline; sendNoWrite]) /\
  (fst (heartbeatLoop (settingWithMax 2) [sendNoWrite; sendNoDeadline; sendNoWrite]
          sampleWorld) = Ret tt /\
   State (client (snd (heartbeatLoop (settingWithMax 2)
                         [sendNoWrite; sendNoDeadline; sendNoWrite] sampleWorld))) = 0).
Proof.
  assert (Hall : Forall (fun env => sendFails env = true)
                   [sendNoWrite; sendNoDeadline; sendNoWrite])
    by (repeat constructor).
  assert (HM : 0 <= config.HeartbeatFailMaxTimes (settingWithMax 2) < MaxInt64)
    by (unfold MaxInt64; simpl; lia).
  split; [repeat split; try reflexivity; try assumption; apply HM|].
  destruct (heartbeat_failure_budget (settingWithMax 2) sampleWorld
              [sendNoWrite; sendNoDeadline; sendNoWrite]
              eq_refl eq_refl eq_refl HM Hall) as (_ & Hclose & _).
  destruct (Hclose eq_refl) as (Hret & Hstate & _).
  split; assumption.
Defined.

(** C2 fails as stated when the maximum is 1: after maximum - 1 = 0 failures
    and one successful ping the count is 0, as before, not one less. *)
Lemma heartbeat_floor_counterexample :
  HeartbeatFailTimes (client (snd (heartbeatLoop (settingWithMax 1) [] sampleWorld))) = 0 /\
  HeartbeatFailTimes (client (snd (heartbeatLoop (settingWithMax 1) [sendOk] sampleWorld))) = 0 /\
  State (client (snd (heartbeatLoop (settingWithMax 1) [sendOk] sampleWorld))) = 1 /\
  HeartbeatFailTimes (client (snd (heartbeatLoop (settingWithMax 1) [sendOk] sampleWorld)))
    <> HeartbeatFailTimes (client (snd (heartbeatLoop (settingWithMax 1) [] sampleWorld))) - 1.
Proof. vm_compute. repeat split; discriminate. Qed.

(** ** The read loop *)

Lemma call_run e f (w : World) :
  call e f w =
  (fst (f (client w)),
   mkWorld (self w) (snd (f (client w))) (registerQueue w) (nextChan w) (trace w ++ [e])).
Proof. cbv [call]; unfold_go. simpl. destruct (f (client w)); reflexivity. Qed.

Lemma bind_call_ret {A} e f (a : A) (w : World) :
  (call e f ;; ret a)%go w = (thenRet a (fst (call e f w)), snd (call e f w)).
Proof. unfold bind. destruct (call e f w) as [[[]|v|] w1]; reflexivity. Qed.

Section ReadLoop.

Variable cb : Callbacks.

Lemma readIteration_invalid next (w : World) :
  State (client w) <> 1 ->
  readIteration cb next w =
  (thenRet Return (fst (call (OnError StateInvalid) (callbackOnError cb StateInvalid) w)),
   snd (call (OnError StateInvalid) (callbackOnError cb StateInvalid) w)).
Proof.
  intros Hs. unfold readIteration. unfold bind at 1, getClient.
  destruct (Z.eqb_spec (State (client w)) 1); [contradiction|].
  apply bind_call_ret.
Qed.

Lemma readIteration_wait (w : World) :
  State (client w) = 1 -> readIteration cb None w = (Pending, w).
Proof.
  intros Hs. unfold readIteration. unfold bind at 1, getClient. rewrite Hs. reflexivity.
Qed.

Lemma readIteration_frame r (w : World) :
  State (client w) = 1 -> rdErr r = None ->
  readIteration cb (Some r) w =
  (thenRet Continue
     (fst (call (OnMessage (rdType r) (rdData r))
             (callbackOnMessage cb (rdType r) (rdData r)) (afterRead r w))),
   snd (call (OnMessage (rdType r) (rdData r))
          (callbackOnMessage cb (rdType r) (rdData r)) (afterRead r w))).
Proof.
  intros Hs He. unfold readIteration. unfold bind at 1, getClient. rewrite Hs. simpl.
  unfold bind at 1. unfold Conn_call. unfold bind at 1, getClient, emit. rewrite He.
  apply bind_call_ret.
Qed.

Lemma readIteration_error r err (w : World) :
  State (client w) = 1 -> rdErr r = Some err ->
  readIteration cb (Some r) w =
  (thenRet Return (fst (call (OnError err) (callbackOnError cb err) (afterRead r w))),
   snd (call (OnError err) (callbackOnError cb err) (afterRead r w))).
Proof.
  intros Hs He. unfold readIteration. unfold bind at 1, getClient. rewrite Hs. simpl.
  unfold bind at 1. unfold Conn_call. unfold bind at 1, getClient, emit. rewrite He.
  apply bind_call_ret.
Qed.

Lemma readLoop_cons r rest (w : World) :
  readLoop cb (r :: rest) w =
  match readIteration cb (Some r) w with
  | (Ret Continue, w1) => readLoop cb rest w1
  | (Ret Return, w1) => (Ret tt, w1)
  | (Panic v, w1) => (Panic v, w1)
  | (Pending, w1) => (Pending, w1)
  end.
Proof.
  simpl. unfold bind at 1. destruct (readIteration cb (Some r) w) as [[[]|v|] w1]; reflexivity.
Qed.

Lemma readLoop_nil (w : World) :
  readLoop cb [] w =
  match readIteration cb None w with
  | (Ret _, w1) => (Ret tt, w1)
  | (Panic v, w1) => (Panic v, w1)
  | (Pending, w1) => (Pending, w1)
  end.
Proof.
  simpl. unfold bind at 1. destruct (readIteration cb None w) as [[[]|v|] w1]; reflexivity.
Qed.

(** A loop that starts on a state other than 1 calls onError once, with the
    state-invalid error, and ends as that call ends. *)
Lemma readLoop_invalid incoming (w : World) :
  State (client w) <> 1 ->
  fst (readLoop cb incoming w) = fst (callbackOnError cb StateInvalid (client w)) /\
  trace (snd (readLoop cb incoming w)) = trace w ++ [OnError StateInvalid].
Proof.
  intros Hs.
  destruct incoming as [|r rest];
    [rewrite readLoop_nil | rewrite readLoop_cons];
    rewrite readIteration_invalid by assumption; rewrite call_run; simpl;
    destruct (callbackOnError cb StateInvalid (client w)) as [[[]|v|] c']; simpl; auto.
Qed.

Lemma readLoop_trace incoming :
  forall w : World,
  exists evs,
    trace (snd (readLoop cb incoming w)) = trace w ++ evs /\
    ReadTrace incoming evs /\
    countEv isOnClose evs = 0%nat.
Proof.
  induction incoming as [|r rest IH]; intros w.
  - destruct (Z.eq_dec (State (client w)) 1) as [Hs|Hs].
    + rewrite readLoop_nil, readIteration_wait by assumption. exists []. simpl.
      rewrite app_nil_r. split; [reflexivity|]. split; [constructor | reflexivity].
    + exists [OnError StateInvalid].
      split; [apply readLoop_invalid; assumption|]. split; [constructor | reflexivity].
  - destruct (Z.eq_dec (State (client w)) 1) as [Hs|Hs].
    + rewrite readLoop_cons. destruct (rdErr r) as [err|] eqn:He.
      * rewrite (readIteration_error r err) by assumption. rewrite call_run. simpl.
        exists [ConnEv (Conn (client w)) (ReadMessage r); OnError err].
        split; [|split; [apply RT_error; assumption | reflexivity]].
        destruct (callbackOnError cb err (client w)) as [[[]|v|] c']; simpl;
          rewrite <- app_assoc; reflexivity.
      * rewrite readIteration_frame by assumption. rewrite call_run. simpl.
        destruct (callbackOnMessage cb (rdType r) (rdData r) (client w))
          as [[[]|v|] c'] eqn:Hcb; simpl.
        -- match goal with |- context [readLoop cb rest ?w1] =>
             destruct (IH w1) as (evs & Ht & Hr & Hc) end.
           exists (ConnEv (Conn (client w)) (ReadMessage r)
                     :: OnMessage (rdType r) (rdData r) :: evs).
           split; [|split].
           ++ rewrite Ht. simpl. rewrite <- !app_assoc. reflexivity.
           ++ apply RT_frame; assumption.
           ++ unfold countEv in *. simpl. assumption.
        -- exists [ConnEv (Conn (client w)) (ReadMessage r); OnMessage (rdType r) (rdData r)].
           rewrite <- app_assoc.
           split; [reflexivity|]. split; [apply RT_frame; [assumption|constructor] | reflexivity].
        -- exists [ConnEv (Conn (client w)) (ReadMessage r); OnMessage (rdType r) (rdData r)].
           rewrite <- app_assoc.
           split; [reflexivity|]. split; [apply RT_frame; [assumption|constructor] | reflexivity].
    + exists [OnError StateInvalid].
      split; [apply readLoop_invalid; assumption|]. split; [constructor | reflexivity].
Qed.

End ReadLoop.

Section ReadPumpFacts.

Variable cb : Callbacks.

Lemma ReadPump_run incoming (w : World) :
  ReadPump cb incoming w =
  if isPending (fst (readLoop cb incoming w)) then (Pending, snd (readLoop cb incoming w))
  else
    (fst (callbackOnClose cb (client (snd (readLoop cb incoming w)))),
     mkWorld (self (snd (readLoop cb incoming w)))
       (snd (callbackOnClose cb (client (snd (readLoop cb incoming w)))))
       (registerQueue (snd (readLoop cb incoming w)))
       (nextChan (snd (readLoop cb incoming w)))
       (trace (snd (readLoop cb incoming w))
        ++ recoveredLog ErrorsWebsocketReadMessageFail (panicOf (fst (readLoop cb incoming w)))
        ++ [OnClose])).
Proof.
  cbv [ReadPump defer_recover bind].
  destruct (readLoop cb incoming w) as [[[]|v|] w1]; simpl; [| |reflexivity].
  - cbv [ret]. rewrite call_run. simpl.
    destruct (callbackOnClose cb (client w1)) as [[[]|v'|] c']; reflexivity.
  - destruct v as [e|n]; cbv [ret emit]; rewrite call_run; simpl;
      destruct (callbackOnClose cb (client w1)) as [[[]|v'|] c']; simpl;
      rewrite <- ?app_assoc; reflexivity.
Qed.

Lemma recoveredLog_no_onClose what p : countEv isOnClose (recoveredLog what p) = 0%nat.
Proof. destruct p as [[e|n]|]; reflexivity. Qed.

Lemma recoveredLog_no_loop_event what p :
  countEv isReadLoopEvent (recoveredLog what p) = 0%nat.
Proof. destruct p as [[e|n]|]; reflexivity. Qed.

(** Frames that are read without error, with an onMessage that returns and
    keeps the state and the connection: each is read, then handed over. *)
Lemma readLoop_frames (goods : list ReadResult) :
  forall (tail : list ReadResult) (w : World),
  State (client w) = 1 ->
  Forall (fun r => rdErr r = None) goods ->
  (forall mt d, returnsKeeping (callbackOnMessage cb mt d)) ->
  exists w',
    readLoop cb (goods ++ tail) w = readLoop cb tail w' /\
    trace w' = trace w ++ flat_map (frameEvents (Conn (client w))) goods /\
    State (client w') = 1 /\ Conn (client w') = Conn (client w).
Proof.
  induction goods as [|r goods IH]; intros tail w Hs Hall Hq.
  - exists w. simpl. rewrite app_nil_r. auto.
  - inversion Hall as [|? ? Hr Hall']; subst.
    destruct (Hq (rdType r) (rdData r) (client w)) as (Hret & Hst & Hco).
    destruct (IH tail
                (snd (call (OnMessage (rdType r) (rdData r))
                        (callbackOnMessage cb (rdType r) (rdData r)) (afterRead r w))))
      as (w' & Hrun & Ht & Hs' & Hc'); try assumption.
    { rewrite call_run. simpl. congruence. }
    exists w'. rewrite call_run in Ht, Hc'. simpl in Ht, Hc'.
    split; [|split; [|split]].
    + simpl app. rewrite readLoop_cons, readIteration_frame by assumption.
      rewrite call_run at 1. simpl fst. rewrite Hret. simpl. exact Hrun.
    + rewrite Ht, Hco. simpl. rewrite <- !app_assoc. reflexivity.
    + assumption.
    + congruence.
Qed.

(** C3. Every run of ReadPump whose loop has ended, however it ended, calls
    onClose exactly once, as the last thing it does: after a read error or an
    invalid state, when onError has returned, and also after a panic of the
    loop body or of onMessage or onError.  The recovered panic does not reach
    the caller: ReadPump ends as the call of onClose ends, so it returns
    whenever onClose returns.  A run whose loop has not ended (it waits for a
    frame or for a callback) has not called onClose. *)
Theorem ReadPump_onClose_once (incoming : list ReadResult) (w : World) :
  (exists evs,
     trace (snd (ReadPump cb incoming w)) = trace w ++ evs /\
     if isPending (fst (readLoop cb incoming w)) then
       fst (ReadPump cb incoming w) = Pending /\ countEv isOnClose evs = 0%nat
     else
       countEv isOnClose evs = 1%nat /\ last evs = Some OnClose /\
       fst (ReadPump cb incoming w)
         = fst (callbackOnClose cb (client (snd (readLoop cb incoming w))))) /\
  (State (client w) <> 1 ->
   fst (readLoop cb incoming w) = fst (callbackOnError cb StateInvalid (client w))) /\
  (forall r rest err,
     incoming = r :: rest -> State (client w) = 1 -> rdErr r = Some err ->
     fst (readLoop cb incoming w) = fst (callbackOnError cb err (client w))) /\
  (forall r rest v,
     incoming = r :: rest -> State (client w) = 1 -> rdErr r = None ->
     fst (callbackOnMessage cb (rdType r) (rdData r) (client w)) = Panic v ->
     fst (readLoop cb incoming w) = Panic v).
Proof.
  split; [|split; [|split]].
  - destruct (readLoop_trace cb incoming w) as (evs & Ht & _ & Hc).
    rewrite ReadPump_run.
    destruct (isPending (fst (readLoop cb incoming w))).
    + exists evs. simpl. auto.
    + exists (evs ++ recoveredLog ErrorsWebsocketReadMessageFail
                      (panicOf (fst (readLoop cb incoming w))) ++ [OnClose]).
      simpl. rewrite Ht, <- app_assoc.
      split; [reflexivity|]. split; [|split; [|reflexivity]].
      * rewrite !countEv_app, Hc, recoveredLog_no_onClose. reflexivity.
      * rewrite !app_assoc. apply last_snoc.
  - intros Hs. apply readLoop_invalid. assumption.
  - intros r rest err -> Hs He.
    rewrite readLoop_cons, (readIteration_error cb r err) by assumption.
    rewrite call_run. simpl.
    destruct (callbackOnError cb err (client w)) as [[[]|v|] c']; reflexivity.
  - intros r rest v -> Hs He Hp.
    rewrite readLoop_cons, readIteration_frame by assumption.
    rewrite call_run. simpl. simpl in Hp.
    destruct (callbackOnMessage cb (rdType r) (rdData r) (client w)) as [[[]|v'|] c'];
      simpl in *; congruence.
Qed.

(** C6. The events of every run of ReadPump are those of its loop followed
    by those of its deferred function.  In the loop, every frame that is
    read without error is followed at once by one call of onMessage with its
    type and payload, before the next read; a read that fails is followed by
    one call of onError with that error, and nothing more is read; a state
    that is not 1 gives one call of onError with the state-invalid error and
    ends the loop, and when the state is not 1 as the loop starts that call
    is all the loop does.  With an onMessage that returns and keeps the
    state, frames followed by a read error give exactly one onMessage per
    frame, in the order read, then the onError.  In both cases the loop ends
    as the call of onError ends. *)
Theorem ReadPump_dispatch (incoming : list ReadResult) (w : World) :
  exists loopEvs closing,
    trace (snd (ReadPump cb incoming w)) = trace w ++ loopEvs ++ closing /\
    countEv isReadLoopEvent closing = 0%nat /\
    ReadTrace incoming loopEvs /\
    (State (client w) <> 1 ->
     loopEvs = [OnError StateInvalid] /\
     fst (readLoop cb incoming w) = fst (callbackOnError cb StateInvalid (client w))) /\
    (forall goods bad rest err,
       State (client w) = 1 ->
       incoming = goods ++ bad :: rest ->
       Forall (fun r => rdErr r = None) goods ->
       rdErr bad = Some err ->
       (forall mt d, returnsKeeping (callbackOnMessage cb mt d)) ->
       loopEvs = flat_map (frameEvents (Conn (client w))) goods
                 ++ [ConnEv (Conn (client w)) (ReadMessage bad); OnError err] /\
       exists c, fst (readLoop cb incoming w) = fst (callbackOnError cb err c)).
Proof.
  destruct (readLoop_trace cb incoming w) as (evs & Ht & Hr & _).
  exists evs.
  exists (if isPending (fst (readLoop cb incoming w)) then []
          else recoveredLog ErrorsWebsocketReadMessageFail
                 (panicOf (fst (readLoop cb incoming w))) ++ [OnClose]).
  split; [|split; [|split; [|split]]].
  - rewrite ReadPump_run.
    destruct (isPending (fst (readLoop cb incoming w))); simpl; rewrite Ht.
    + rewrite app_nil_r. reflexivity.
    + rewrite <- app_assoc. reflexivity.
  - destruct (isPending (fst (readLoop cb incoming w))); [reflexivity|].
    rewrite countEv_app, recoveredLog_no_loop_event. reflexivity.
  - assumption.
  - intros Hs. destruct (readLoop_invalid cb incoming w Hs) as (Hres & Hinv).
    rewrite Hinv in Ht. apply app_inv_head in Ht. split; [congruence | exact Hres].
  - intros goods bad rest err Hs -> Hall He Hq.
    destruct (readLoop_frames goods (bad :: rest) w Hs Hall Hq) as (w' & Hrun & Ht' & Hs' & Hc').
    rewrite Hrun, readLoop_cons, (readIteration_error cb bad err) in Ht |- * by assumption.
    rewrite call_run in Ht |- *. simpl in Ht |- *.
    assert (Hfin : trace w' ++ [ConnEv (Conn (client w')) (ReadMessage bad); OnError err]
                   = trace w ++ evs).
    { destruct (callbackOnError cb err (client w')) as [[[]|v|] c']; simpl in Ht;
        rewrite <- Ht, <- app_assoc; reflexivity. }
    rewrite Ht', Hc', <- app_assoc in Hfin. apply app_inv_head in Hfin.
    split; [congruence|]. exists (client w').
    destruct (callbackOnError cb err (client w')) as [[[]|v|] c']; reflexivity.
Qed.

End ReadPumpFacts.

(** ** Connection establishment *)

Section OnOpenFacts.

Variable Setting : config.WebsocketSetting.

(** What OnOpen does, case by case. *)
Lemma OnOpen_cases (env : OpenEnv) (w : World) :
  match upgrade env with
  | inr err =>
      OnOpen Setting env w =
      (Ret (None, false),
       with_trace (fun t => t ++ [Upgrade (config.BufferSize Setting) (config.BufferSize Setting)
                                    (inr err);
                                  LogError ErrorsWebsocketUpgradeFail err]) w)
  | inl k =>
      if config.BufferSize Setting <? 0 then
        fst (OnOpen Setting env w) = Ret (None, false) /\
        registerQueue (snd (OnOpen Setting env w)) = registerQueue w
      else if RWMutex (client w) then
        fst (OnOpen Setting env w) = Pending /\
        registerQueue (snd (OnOpen Setting env w)) = registerQueue w
      else
        match hubAfter env (client w) with
        | HubNil =>
            fst (OnOpen Setting env w) = Ret (None, false) /\
            registerQueue (snd (OnOpen Setting env w)) = registerQueue w
        | HubGlobal =>
            OnOpen Setting env w =
            (Ret (Some (self w), true),
             mkWorld (self w) (openedClient Setting k w) (registerQueue w ++ [self w])
               (S (nextChan w))
               (trace w
                ++ [Upgrade (config.BufferSize Setting) (config.BufferSize Setting) (inl k)]
                ++ sendEvents (openedClient Setting k w) (handshake env) TextMessage
                     WebsocketHandshakeSuccess
                ++ handshakeLog env
                ++ [ConnEv k (SetReadLimit (config.MaxMessageSize Setting))]))
        end
  end.
Proof.
  destruct env as [up gh hs], w as [a c q n t]. unfold hubAfter, handshakeLog. simpl.
  destruct up as [k|err].
  - destruct (Z.ltb_spec (config.BufferSize Setting) 0) as [Hb|Hb].
    + destruct gh as [h|]; unfold OnOpen; unfold_go; unfold make_chan; simpl;
        destruct (Z.ltb_spec (config.BufferSize Setting) 0); try lia; simpl; auto.
    + destruct (RWMutex c) eqn:Hm.
      * destruct gh as [h|]; unfold OnOpen; unfold_go; unfold make_chan; simpl;
          destruct (Z.ltb_spec (config.BufferSize Setting) 0); try lia; simpl;
          rewrite SendMessage_locked by (destruct c; simpl in *; assumption);
          simpl; auto.
      * destruct gh as [h|]; unfold OnOpen; unfold_go; unfold make_chan; simpl;
          destruct (Z.ltb_spec (config.BufferSize Setting) 0); try lia; simpl;
          rewrite SendMessage_free by (destruct c; simpl in *; assumption);
          unfold sendResult, sendEvents, Hub_Register_send, openedClient; simpl;
          destruct c as [hb cn sd pp rd wd hf st mu mp]; simpl in *; subst mu;
          [destruct h | destruct hb];
          destruct (deadlineErr hs), (writeErr hs); simpl; auto;
          rewrite <- ?app_assoc; simpl; reflexivity.
  - unfold OnOpen; unfold_go; simpl. rewrite <- app_assoc. reflexivity.
Qed.

(** C1 (as amended). When the upgrade has succeeded and the handshake
    acknowledgement cannot be sent, OnOpen logs the error and goes on as it
    does after a handshake that was sent: it sets the read limit, sends the
    client on the hub's Register channel, sets the state to 1 and returns the
    client with true.  (The channel size is not negative, the lock is free
    and the client has a hub, as for any OnOpen that returns a client.) *)
Theorem OnOpen_handshake_failure_logged (env : OpenEnv) (w : World) (k : ConnRef) (err : error) :
  upgrade env = inl k ->
  sendResult (handshake env) = Some err ->
  0 <= config.BufferSize Setting ->
  RWMutex (client w) = false ->
  hubAfter env (client w) = HubGlobal ->
  fst (OnOpen Setting env w) = Ret (Some (self w), true) /\
  registerQueue (snd (OnOpen Setting env w)) = registerQueue w ++ [self w] /\
  State (client (snd (OnOpen Setting env w))) = 1 /\
  In (LogError ErrorsWebsocketWriteMgsFail err) (trace (snd (OnOpen Setting env w))) /\
  In (ConnEv k (SetReadLimit (config.MaxMessageSize Setting)))
     (trace (snd (OnOpen Setting env w))).
Proof.
  intros Hup Herr Hb Hm Hh. pose proof (OnOpen_cases env w) as Hc.
  rewrite Hup, Hm, Hh in Hc.
  destruct (Z.ltb_spec (config.BufferSize Setting) 0); [lia|].
  rewrite Hc. simpl. unfold handshakeLog. rewrite Herr.
  split; [reflexivity|]. split; [reflexivity|]. split; [reflexivity|].
  unfold sendEvents.
  destruct (deadlineErr (handshake env)); rewrite !in_app_iff; simpl; tauto.
Qed.

(** C7 (as amended). Whenever OnOpen returns a client (with true), it is the
    client it was called on: its state is 1; its Send channel is the one
    [make] has just handed out, empty and of capacity BufferSize; its three
    periods are PingPeriod, ReadDeadline and WriteDeadline seconds; and, after
    the upgrade and in this order, the handshake acknowledgement has been
    given to SendMessage on the new connection (and the error logged if it
    failed), the read limit has been set to MaxMessageSize, and the client
    has been sent on the hub's Register channel.  The acknowledgement has
    been written whenever that send succeeded. *)
Theorem OnOpen_returns_opened_client (env : OpenEnv) (w w' : World) (c' : ClientRef) :
  OnOpen Setting env w = (Ret (Some c', true), w') ->
  c' = self w /\ self w' = self w /\
  State (client w') = 1 /\
  Send (client w') = mkChan (nextChan w) (config.BufferSize Setting) [] /\
  nextChan w' = S (nextChan w) /\
  PingPeriod (client w') = seconds (config.PingPeriod Setting) /\
  ReadDeadline (client w') = seconds (config.ReadDeadline Setting) /\
  WriteDeadline (client w') = seconds (config.WriteDeadline Setting) /\
  registerQueue w' = registerQueue w ++ [self w] /\
  exists wsConn,
    upgrade env = inl wsConn /\ Conn (client w') = wsConn /\
    trace w' =
      trace w
      ++ [Upgrade (config.BufferSize Setting) (config.BufferSize Setting) (inl wsConn)]
      ++ sendEvents (client w') (handshake env) TextMessage WebsocketHandshakeSuccess
      ++ handshakeLog env
      ++ [ConnEv wsConn (SetReadLimit (config.MaxMessageSize Setting))] /\
    (sendResult (handshake env) = None ->
     In (ConnEv wsConn
           (WriteMessage TextMessage (list_byte_of_string WebsocketHandshakeSuccess) None))
        (trace w')).
Proof.
  intros Hrun. pose proof (OnOpen_cases env w) as Hc.
  destruct (upgrade env) as [k|err] eqn:Hup.
  - destruct (config.BufferSize Setting <? 0);
      [rewrite Hrun in Hc; simpl in Hc; destruct Hc; discriminate|].
    destruct (RWMutex (client w));
      [rewrite Hrun in Hc; simpl in Hc; destruct Hc; discriminate|].
    destruct (hubAfter env (client w));
      [rewrite Hrun in Hc; simpl in Hc; destruct Hc; discriminate|].
    rewrite Hrun in Hc. inversion Hc; subst. simpl.
    do 9 (split; [reflexivity|]).
    exists k. split; [reflexivity|]. split; [reflexivity|]. split; [reflexivity|].
    intros Hok. unfold sendEvents, sendResult in *.
    destruct (deadlineErr (handshake env)); [discriminate|].
    rewrite Hok, !in_app_iff. simpl. tauto.
  - rewrite Hrun in Hc. discriminate.
Qed.

End OnOpenFacts.

Lemma OnOpen_handshake_failure_logged_witness :
  (upgrade openNoWrite = inl 3%nat /\
   sendResult (handshake openNoWrite) = Some (ExternalError 2) /\
   0 <= config.BufferSize (settingWithMax 2) /\
   RWMutex (client newWorld) = false /\
   hubAfter openNoWrite (client newWorld) = HubGlobal) /\
  fst (OnOpen (settingWithMax 2) openNoWrite newWorld) = Ret (Some 7%nat, true) /\
  registerQueue (snd (OnOpen (settingWithMax 2) openNoWrite newWorld)) = [7%nat] /\
  State (client (snd (OnOpen (settingWithMax 2) openNoWrite newWorld))) = 1 /\
  In (LogError ErrorsWebsocketWriteMgsFail (ExternalError 2))
     (trace (snd (OnOpen (settingWithMax 2) openNoWrite newWorld))) /\
  In (ConnEv 3%nat (SetReadLimit 65535))
     (trace (snd (OnOpen (settingWithMax 2) openNoWrite newWorld))).
Proof.
  split.
  - split; [reflexivity|]. split; [reflexivity|]. split; [simpl; lia|].
    split; reflexivity.
  - apply (OnOpen_handshake_failure_logged (settingWithMax 2) openNoWrite newWorld 3%nat
             (ExternalError 2)); try reflexivity. simpl; lia.
Defined.

(** C1 fails as stated: the handshake's write fails, and OnOpen returns the
    client with true and has sent it on the hub's Register channel. *)
Lemma OnOpen_handshake_failure_counterexample :
  sendResult (handshake openNoWrite) = Some (ExternalError 2) /\
  fst (OnOpen (settingWithMax 2) openNoWrite newWorld) = Ret (Some 7%nat, true) /\
  registerQueue (snd (OnOpen (settingWithMax 2) openNoWrite newWorld)) = [7%nat].
Proof. vm_compute. repeat split; reflexivity. Qed.

Lemma OnOpen_returns_opened_client_witness :
  OnOpen (settingWithMax 2) openNoDeadline newWorld
    = (Ret (Some 7%nat, true), snd (OnOpen (settingWithMax 2) openNoDeadline newWorld)) /\
  State (client (snd (OnOpen (settingWithMax 2) openNoDeadline newWorld))) = 1 /\
  Send (client (snd (OnOpen (settingWithMax 2) openNoDeadline newWorld)))
    = mkChan 0 16 [] /\
  registerQueue (snd (OnOpen (settingWithMax 2) openNoDeadline newWorld)) = [7%nat].
Proof.
  assert (Hrun : OnOpen (settingWithMax 2) openNoDeadline newWorld
                 = (Ret (Some 7%nat, true),
                    snd (OnOpen (settingWithMax 2) openNoDeadline newWorld)))
    by (vm_compute; reflexivity).
  split; [exact Hrun|].
  destruct (OnOpen_returns_opened_client (settingWithMax 2) openNoDeadline newWorld _ _ Hrun)
    as (_ & _ & Hs & Hsend & _ & _ & _ & _ & Hq & _).
  split; [exact Hs|]. split; [exact Hsend | exact Hq].
Defined.

(** C7 fails as stated: OnOpen returns the client with true although the
    handshake acknowledgement was not sent - the write deadline could not be
    set, and no frame was written on the connection. *)
Lemma OnOpen_no_handshake_counterexample :
  fst (OnOpen (settingWithMax 2) openNoDeadline newWorld) = Ret (Some 7%nat, true) /\
  State (client (snd (OnOpen (settingWithMax 2) openNoDeadline newWorld))) = 1 /\
  countEv isWriteMessage (trace (snd (OnOpen (settingWithMax 2) openNoDeadline newWorld)))
    = 0%nat.
Proof. vm_compute. repeat split; reflexivity. Qed.

(** ** The pong handler *)

(** Whole seconds that fit a Duration are not wrapped. *)
Lemma seconds_small (n : Z) : 0 <= n <= 9223372036 -> seconds n = n * Second.
Proof.
  intros H. unfold seconds, Duration_mul, Second.
  rewrite (wrap64_small n) by (unfold MinInt64, MaxInt64; lia).
  rewrite wrap64_small by (unfold MinInt64, MaxInt64; lia). lia.
Qed.

(** C9 (as amended). For every pong frame the handler makes one call on the
    connection and returns nil, changing nothing of the client: when
    ReadDeadline is more than a nanosecond it sets the read deadline to
    now + ReadDeadline, and otherwise - when ReadDeadline is 0, and also
    when it is one nanosecond or negative - it sets the zero time, which
    disables the deadline.  For a ReadDeadline of n whole seconds taken from
    the configuration (n from 0 up to what a Duration holds) this is:
    now + n seconds when n is not 0, no deadline when n is 0. *)
Theorem pongHandler_read_deadline (now : Z) (receivedPong : string) (w : World) :
  fst (pongHandler now receivedPong w) = Ret None /\
  client (snd (pongHandler now receivedPong w)) = client w /\
  (Nanosecond < ReadDeadline (client w) ->
   trace (snd (pongHandler now receivedPong w)) =
   trace w ++ [ConnEv (Conn (client w))
                 (SetReadDeadline (Instant (now + ReadDeadline (client w))))]) /\
  (ReadDeadline (client w) <= Nanosecond ->
   trace (snd (pongHandler now receivedPong w)) =
   trace w ++ [ConnEv (Conn (client w)) (SetReadDeadline ZeroTime)]) /\
  (forall n, 0 <= n <= 9223372036 -> ReadDeadline (client w) = seconds n ->
   trace (snd (pongHandler now receivedPong w)) =
   trace w ++ [ConnEv (Conn (client w))
                 (SetReadDeadline (if n =? 0 then ZeroTime else Instant (now + n * Second)))]).
Proof.
  assert (Hrun : pongHandler now receivedPong w =
                 (Ret None,
                  with_trace (fun t => t ++ [ConnEv (Conn (client w))
                    (SetReadDeadline (if ReadDeadline (client w) >? Nanosecond
                                      then Now_Add now (ReadDeadline (client w))
                                      else ZeroTime))]) w)).
  { unfold pongHandler; unfold_go.
    destruct (ReadDeadline (client w) >? Nanosecond); reflexivity. }
  rewrite Hrun. simpl.
  split; [reflexivity|]. split; [reflexivity|]. split; [|split].
  - intros H. destruct (Z.gtb_spec (ReadDeadline (client w)) Nanosecond); [reflexivity|lia].
  - intros H. destruct (Z.gtb_spec (ReadDeadline (client w)) Nanosecond); [lia|reflexivity].
  - intros n Hn Hrd. rewrite Hrd, seconds_small by assumption.
    unfold Nanosecond, Second, Now_Add.
    destruct (Z.eqb_spec n 0) as [->|Hn0]; [reflexivity|].
    destruct (Z.gtb_spec (n * 1000000000) 1); [reflexivity|lia].
Qed.

(** C9 fails as stated on a ReadDeadline that is not 0 and not more than a
    nanosecond: with a configured read deadline of -1 second the duration
    is not 0, and the handler disables the deadline. *)
Lemma pongHandler_negative_counterexample :
  ReadDeadline (client (with_client (set_ReadDeadline (seconds (-1))) sampleWorld))
    = -1000000000 /\
  (ReadDeadline (client (with_client (set_ReadDeadline (seconds (-1))) sampleWorld)) =? 0)
    = false /\
  trace (snd (pongHandler 100 "" (with_client (set_ReadDeadline (seconds (-1))) sampleWorld)))
    = [ConnEv 3%nat (SetReadDeadline ZeroTime)].
Proof. vm_compute. repeat split; reflexivity. Qed.

(** ** The state of a Client along its loops *)

Section StateSteps.

Variable Setting : config.WebsocketSetting.
Variable cb : Callbacks.

(** The callbacks are the caller's; they are taken not to write [c.State]. *)
Hypothesis onMessage_keeps_State :
  forall mt d c, State (snd (callbackOnMessage cb mt d c)) = State c.
Hypothesis onError_keeps_State :
  forall e c, State (snd (callbackOnError cb e c)) = State c.
Hypothesis onClose_keeps_State :
  forall c, State (snd (callbackOnClose cb c)) = State c.

Lemma call_State e f (w : World) :
  (forall c, State (snd (f c)) = State c) ->
  State (client (snd (call e f w))) = State (client w).
Proof. intros H. rewrite call_run. simpl. apply H. Qed.

Lemma heartbeatTick_State env (w : World) :
  State (client (snd (heartbeatTick Setting env w))) = State (client w) \/
  (State (client w) = 1 /\ State (client (snd (heartbeatTick Setting env w))) = 0).
Proof.
  destruct (Z.eq_dec (State (client w)) 1) as [Hs|Hs].
  - destruct (RWMutex (client w)) eqn:Hm.
    + left. unfold heartbeatTick. unfold bind at 1, getClient. rewrite Hs. simpl.
      unfold bind at 1. rewrite SendMessage_locked by assumption. simpl. assumption.
    + destruct (sendFails env) eqn:Hf.
      * rewrite heartbeatTick_fail by assumption. cbv zeta.
        destruct (_ >? _); simpl; [right; auto | left; reflexivity].
      * rewrite heartbeatTick_ok by assumption. simpl.
        left. destruct (_ >? _); reflexivity.
  - left. rewrite heartbeatTick_inactive by assumption. reflexivity.
Qed.

Lemma readIteration_State next (w : World) :
  State (client (snd (readIteration cb next w))) = State (client w).
Proof.
  destruct (Z.eq_dec (State (client w)) 1) as [Hs|Hs].
  - destruct next as [r|]; [|rewrite readIteration_wait by assumption; reflexivity].
    destruct (rdErr r) as [err|] eqn:He.
    + rewrite (readIteration_error cb r err) by assumption. simpl.
      rewrite call_State by apply onError_keeps_State. reflexivity.
    + rewrite readIteration_frame by assumption. simpl.
      rewrite call_State by apply onMessage_keeps_State. reflexivity.
  - rewrite readIteration_invalid by assumption. simpl.
    apply call_State, onError_keeps_State.
Qed.

(** A step of the loops leaves the state as it is, or takes it from 1 to 0. *)
Lemma loopStep_State a (w : World) :
  State (client (loopStep Setting cb a w)) = State (client w) \/
  (State (client w) = 1 /\ State (client (loopStep Setting cb a w)) = 0).
Proof.
  destruct a as [env|next|p|env mt msg|t msg]; simpl.
  - apply heartbeatTick_State.
  - left. apply readIteration_State.
  - left. destruct p as [[e|n]|]; simpl; unfold bind, emit, ret; simpl;
      rewrite call_State by apply onClose_keeps_State; reflexivity.
  - left. destruct (SendMessage_adds env mt msg w) as (evs & Hw & _). rewrite Hw. reflexivity.
  - left. unfold pongHandler; unfold_go. destruct (_ >? _); reflexivity.
Qed.

Lemma states_cons a acts (w : World) :
  exists tl,
    states Setting cb acts (loopStep Setting cb a w)
      = State (client (loopStep Setting cb a w)) :: tl /\
    states Setting cb (a :: acts) w
      = State (client w) :: State (client (loopStep Setting cb a w)) :: tl.
Proof.
  destruct acts as [|a' acts]; simpl; eauto.
Qed.

Lemma transitions_cons from to a b tl :
  transitions from to (a :: b :: tl)
  = ((if from a && to b then 1 else 0) + transitions from to (b :: tl))%nat.
Proof. reflexivity. Qed.

Lemma isActive_false s : s <> 1 -> isActive s = false.
Proof. unfold isActive. intros H. destruct (Z.eqb_spec s 1); [contradiction|reflexivity]. Qed.

Lemma active_and_closed s : isActive s && isClosed s = false.
Proof. unfold isActive, isClosed. destruct (s =? 1); reflexivity. Qed.

Lemma closed_and_active s : isClosed s && isActive s = false.
Proof. unfold isActive, isClosed. destruct (s =? 1); reflexivity. Qed.

(** Once the state is not 1, no step changes that. *)
Lemma states_closed acts :
  forall w : World,
  State (client w) <> 1 ->
  transitions isActive isClosed (states Setting cb acts w) = 0%nat /\
  transitions isClosed isActive (states Setting cb acts w) = 0%nat.
Proof.
  induction acts as [|a acts IH]; intros w Hs; [simpl; auto|].
  assert (Hs' : State (client (loopStep Setting cb a w)) <> 1).
  { destruct (loopStep_State a w) as [He|[H1 _]]; [rewrite He; assumption | contradiction]. }
  destruct (IH _ Hs') as (IH1 & IH2).
  destruct (states_cons a acts w) as (tl & Htl & Hcons).
  rewrite Htl in IH1, IH2. rewrite Hcons, !transitions_cons, IH1, IH2.
  rewrite (isActive_false _ Hs), (isActive_false _ Hs'), andb_false_r. auto.
Qed.

(** C8. Along every sequence of steps of a client's loops - ticks of the
    heartbeat loop, turns and the exit of the read loop, calls of the send
    primitive, pongs - with callbacks that do not write the state, the state
    goes from active (1) to closed at most once and never from closed to
    active. *)
Theorem state_closes_once (acts : list LoopAction) (w : World) :
  (transitions isActive isClosed (states Setting cb acts w) <= 1)%nat /\
  transitions isClosed isActive (states Setting cb acts w) = 0%nat.
Proof.
  revert w. induction acts as [|a acts IH]; intros w; [simpl; auto|].
  destruct (states_cons a acts w) as (tl & Htl & Hcons).
  rewrite Hcons, !transitions_cons.
  destruct (loopStep_State a w) as [He|[H1 H0]].
  - destruct (IH (loopStep Setting cb a w)) as (IH1 & IH2).
    rewrite Htl in IH1, IH2. rewrite <- He, IH2, active_and_closed, closed_and_active.
    simpl. auto.
  - destruct (states_closed acts (loopStep Setting cb a w)) as (C1 & C2);
      [rewrite H0; discriminate|].
    rewrite Htl in C1, C2. rewrite C1, C2, H0, H1. simpl. auto.
Qed.

End StateSteps.

Lemma state_closes_once_witness :
  ((forall mt d c, State (snd (callbackOnMessage idleCallbacks mt d c)) = State c) /\
   (forall e c, State (snd (callbackOnError idleCallbacks e c)) = State c) /\
   (forall c, State (snd (callbackOnClose idleCallbacks c)) = State c)) /\
  (transitions isActive isClosed
     (states (settingWithMax 0) idleCallbacks
        [Tick sendOk; ReadTurn (Some (mkRead TextMessage [] None)); Tick sendNoWrite;
         Tick sendNoWrite; ReadTurn None; ReadExit None]
        sampleWorld) <= 1)%nat /\
  transitions isClosed isActive
    (states (settingWithMax 0) idleCallbacks
       [Tick sendOk; ReadTurn (Some (mkRead TextMessage [] None)); Tick sendNoWrite;
        Tick sendNoWrite; ReadTurn None; ReadExit None]
       sampleWorld) = 0%nat.
Proof.
  split; [repeat split|].
  apply (state_closes_once (settingWithMax 0) idleCallbacks); reflexivity.
Defined.

(** ** The Hub's set of clients *)

Lemma registrationStands_snoc c served r :
  registrationStands c (served ++ [r]) =
  match r with
  | Registered c' => if Nat.eqb c c' then true else registrationStands c served
  | Unregistered c' => if Nat.eqb c c' then false else registrationStands c served
  end.
Proof. unfold registrationStands. rewrite fold_left_app. reflexivity. Qed.

Lemma sysStep_registryAgrees Setting a (s : System) :
  registryAgrees s -> registryAgrees (sysStep Setting a s).
Proof.
  intros Hinv. destruct a as [env|env|c'|c'| |]; simpl; try exact Hinv.
  - destruct (registerQueue (world s)) as [|c' rest]; [exact Hinv|].
    intros c. simpl. rewrite registrationStands_snoc. unfold Hub_Register.
    rewrite elem_of_union, elem_of_singleton.
    destruct (Nat.eqb_spec c c') as [->|Hne].
    + tauto.
    + rewrite <- (Hinv c). tauto.
  - destruct (unregisterQueue s) as [|c' rest]; [exact Hinv|].
    intros c. simpl. rewrite registrationStands_snoc. unfold Hub_Unregister.
    rewrite elem_of_difference, elem_of_singleton.
    destruct (Nat.eqb_spec c c') as [->|Hne].
    + split; [tauto | discriminate].
    + rewrite <- (Hinv c). tauto.
Qed.

Lemma sysRun_registryAgrees Setting acts :
  forall s : System, registryAgrees s -> registryAgrees (sysRun Setting acts s).
Proof.
  induction acts as [|a acts IH]; intros s Hinv; [exact Hinv|].
  simpl. apply IH, sysStep_registryAgrees, Hinv.
Qed.

(** C4 (as amended). However the client and the hub run, a client is a
    member of the hub's set of clients if and only if the hub has served a
    registration of it and no unregistration of it since.  Its state plays
    no part: a heartbeat that gives up sets the state to 0 and leaves the
    client in the set until an unregistration is served. *)
Theorem hub_membership (Setting : config.WebsocketSetting) (addr : ClientRef)
  (acts : list SysAction) (c : ClientRef) :
  c ∈ clients (sysRun Setting acts (newSystem addr)) <->
  registrationStands c (served (sysRun Setting acts (newSystem addr))) = true.
Proof.
  apply sysRun_registryAgrees. intros c'. simpl. split.
  - intros H. apply not_elem_of_empty in H. contradiction.
  - discriminate.
Qed.

(** C4 fails as stated: the client is opened, the hub serves its
    registration, and a heartbeat whose ping fails, with a maximum of 0
    failures, sets its state to 0.  The client is then a member of the set
    of clients, registered and not unregistered, and its state is not
    active. *)
Lemma hub_member_closed_counterexample :
  7%nat ∈ clients (sysRun (settingWithMax 0) [Open openOk; ServeRegister; Beat sendNoWrite]
                     (newSystem 7%nat)) /\
  served (sysRun (settingWithMax 0) [Open openOk; ServeRegister; Beat sendNoWrite]
            (newSystem 7%nat)) = [Registered 7%nat] /\
  State (client (world (sysRun (settingWithMax 0)
                          [Open openOk; ServeRegister; Beat sendNoWrite]
                          (newSystem 7%nat)))) = 0.
Proof.
  split; [|split].
  - apply (bool_decide_unpack _). vm_compute. exact I.
  - vm_compute. reflexivity.
  - vm_compute. reflexivity.
Qed.

(** ** The whole Heartbeat, and runs on sample inputs *)

(** Heartbeat with a positive PingPeriod: the read deadline is set, the pong
    handler installed, the loop runs, and when the loop ends the ticker is
    stopped and Heartbeat returns. *)
Lemma Heartbeat_run (Setting : config.WebsocketSetting) now0 ticks (w : World) :
  0 < PingPeriod (client w) ->
  Heartbeat Setting now0 ticks w =
  match heartbeatLoop Setting ticks
          (with_trace (fun t => t ++ [ConnEv (Conn (client w))
                                        (SetReadDeadline (firstReadDeadline now0 (client w)));
                                      ConnEv (Conn (client w)) SetPongHandler]) w) with
  | (Pending, w1) => (Pending, w1)
  | (r, w1) =>
      (Ret tt,
       with_trace (fun t => t ++ recoveredLog ErrorsWebsocketBeatHeartFail (panicOf r)
                             ++ [TickerStop]) w1)
  end.
Proof.
  intros Hp. unfold Heartbeat, firstReadDeadline; unfold_go.
  destruct (Z.leb_spec (PingPeriod (client w)) 0) as [|_]; [lia|].
  destruct w as [a c q n t]; simpl.
  destruct (ReadDeadline c =? 0); simpl; rewrite <- app_assoc; simpl;
    match goal with |- context [heartbeatLoop Setting ticks ?w0] =>
      destruct (heartbeatLoop Setting ticks w0) as [[[]|[e|k]|] [a1 c1 q1 n1 t1]]
    end; simpl; rewrite <- ?app_assoc; reflexivity.
Qed.

(** Three data frames, then the peer closes: onMessage three times in the
    order read, then onError and onClose. *)
Example ReadPump_three_frames :
  ReadPump idleCallbacks
    [mkRead TextMessage ["a"%byte] None; mkRead TextMessage ["b"%byte] None;
     mkRead TextMessage ["c"%byte] None; mkRead 0 [] (Some (ExternalError 9))]
    sampleWorld
  = (Ret tt,
     with_trace (fun _ =>
       [ConnEv 3%nat (ReadMessage (mkRead TextMessage ["a"%byte] None));
        OnMessage TextMessage ["a"%byte];
        ConnEv 3%nat (ReadMessage (mkRead TextMessage ["b"%byte] None));
        OnMessage TextMessage ["b"%byte];
        ConnEv 3%nat (ReadMessage (mkRead TextMessage ["c"%byte] None));
        OnMessage TextMessage ["c"%byte];
        ConnEv 3%nat (ReadMessage (mkRead 0 [] (Some (ExternalError 9))));
        OnError (ExternalError 9);
        OnClose]) sampleWorld).
Proof. vm_compute. reflexivity. Qed.

(** An onMessage that panics with an error: the panic is recovered and
    logged, onClose is called, and ReadPump returns. *)
Example ReadPump_recovers_panic :
  ReadPump
    (mkCallbacks (fun _ _ c => (Panic (PanicErr (ExternalError 5)), c))
                 (fun _ c => (Ret tt, c)) (fun c => (Ret tt, c)))
    [mkRead TextMessage ["a"%byte] None; mkRead TextMessage ["b"%byte] None]
    sampleWorld
  = (Ret tt,
     with_trace (fun _ =>
       [ConnEv 3%nat (ReadMessage (mkRead TextMessage ["a"%byte] None));
        OnMessage TextMessage ["a"%byte];
        LogError ErrorsWebsocketReadMessageFail (ExternalError 5);
        OnClose]) sampleWorld).
Proof. vm_compute. reflexivity. Qed.

(** A maximum of 2 failures and writes that always fail: the third tick
    closes the client, the two ticks after it send nothing, and the ticker
    is stopped. *)
Example Heartbeat_three_failures :
  fst (Heartbeat (settingWithMax 2) 0
         [sendNoWrite; sendNoWrite; sendNoWrite; sendNoWrite; sendNoWrite] sampleWorld)
    = Ret tt /\
  State (client (snd (Heartbeat (settingWithMax 2) 0
         [sendNoWrite; sendNoWrite; sendNoWrite; sendNoWrite; sendNoWrite] sampleWorld)))
    = 0 /\
  countEv isSendAttempt
    (trace (snd (Heartbeat (settingWithMax 2) 0
         [sendNoWrite; sendNoWrite; sendNoWrite; sendNoWrite; sendNoWrite] sampleWorld)))
    = 3%nat /\
  last (trace (snd (Heartbeat (settingWithMax 2) 0
         [sendNoWrite; sendNoWrite; sendNoWrite; sendNoWrite; sendNoWrite] sampleWorld)))
    = Some TickerStop.
Proof. vm_compute. repeat split; reflexivity. Qed.

(** A PingPeriod of 0: [time.NewTicker] panics before anything is deferred,
    and the panic reaches the caller. *)
Example Heartbeat_without_period :
  Heartbeat (settingWithMax 2) 0 [sendOk] (with_client (set_PingPeriod 0) sampleWorld)
  = (Panic NonPositiveTickerInterval, with_client (set_PingPeriod 0) sampleWorld).
Proof. vm_compute. reflexivity. Qed.

(** An upgrade that fails: no client is returned and nothing is registered. *)
Example OnOpen_upgrade_fails :
  fst (OnOpen (settingWithMax 2) (mkOpenEnv (inr (ExternalError 4)) (Some HubGlobal) sendOk)
         newWorld) = Ret (None, false) /\
  registerQueue (snd (OnOpen (settingWithMax 2)
                        (mkOpenEnv (inr (ExternalError 4)) (Some HubGlobal) sendOk)
                        newWorld)) = [] /\
  State (client (snd (OnOpen (settingWithMax 2)
                        (mkOpenEnv (inr (ExternalError 4)) (Some HubGlobal) sendOk)
                        newWorld))) = 0.
Proof. vm_compute. repeat split; reflexivity. Qed.

(** No hub behind [global.WebsocketHub] and none on the client: the send on
    [c.Hub.Register] panics, the panic is recovered and logged, and OnOpen
    returns no client. *)
Example OnOpen_without_hub :
  fst (OnOpen (settingWithMax 2) (mkOpenEnv (inl 3%nat) None sendOk) newWorld)
    = Ret (None, false) /\
  last (trace (snd (OnOpen (settingWithMax 2) (mkOpenEnv (inl 3%nat) None sendOk) newWorld)))
    = Some (LogError ErrorsWebsocketOnOpenFail (RuntimeError NilDereference)).
Proof. vm_compute. repeat split; reflexivity. Qed.

(** ** More on connection establishment *)

(** X1. OnOpen never lets a panic out, and it registers the client and sets its
    state exactly when it returns it. *)
Theorem OnOpen_registers_iff_returned
  (Setting : config.WebsocketSetting) (env : OpenEnv) (w : World) :
  match fst (OnOpen Setting env w) with
  | Ret (Some c, true) =>
      c = self w /\
      registerQueue (snd (OnOpen Setting env w)) = registerQueue w ++ [self w] /\
      State (client (snd (OnOpen Setting env w))) = 1
  | Ret (None, false) | Pending =>
      registerQueue (snd (OnOpen Setting env w)) = registerQueue w /\
      State (client (snd (OnOpen Setting env w))) = State (client w)
  | Ret _ | Panic _ => False
  end.
Proof.
  destruct env as [up gh hs], w as [a c q n t].
  destruct up as [k|err]; [|unfold OnOpen; unfold_go; simpl; auto].
  destruct (Z.ltb_spec (config.BufferSize Setting) 0) as [Hb|Hb].
  - destruct gh as [h|]; unfold OnOpen; unfold_go; unfold make_chan; simpl;
      destruct (Z.ltb_spec (config.BufferSize Setting) 0); try lia; simpl; auto.
  - destruct (RWMutex c) eqn:Hm.
    + destruct gh as [h|]; unfold OnOpen; unfold_go; unfold make_chan; simpl;
        destruct (Z.ltb_spec (config.BufferSize Setting) 0); try lia; simpl;
        rewrite SendMessage_locked by (destruct c; simpl in *; assumption);
        simpl; auto.
    + destruct gh as [h|]; unfold OnOpen; unfold_go; unfold make_chan; simpl;
        destruct (Z.ltb_spec (config.BufferSize Setting) 0); try lia; simpl;
        rewrite SendMessage_free by (destruct c; simpl in *; assumption);
        unfold sendResult, sendEvents, Hub_Register_send; simpl;
        destruct c as [hb cn sd pp rd wd hf st mu mp]; simpl in *; subst mu;
        [destruct h | destruct hb];
        destruct (deadlineErr hs), (writeErr hs); simpl; auto.
Qed.

Lemma wrap64_range (z : Z) : MinInt64 <= wrap64 z <= MaxInt64.
Proof.
  unfold wrap64, MinInt64, MaxInt64.
  pose proof (Z.mod_pos_bound (z + 2 ^ 63) (2 ^ 64) ltac:(lia)). lia.
Qed.

Lemma wrap64_id_iff (z : Z) : wrap64 z = z <-> MinInt64 <= z <= MaxInt64.
Proof.
  split; [intros <-; apply wrap64_range | apply wrap64_small].
Qed.

Lemma seconds_within (n : Z) :
  -9223372036 <= n <= 9223372036 -> seconds n = n * Second.
Proof.
  intros Hn. unfold seconds, Duration_mul.
  rewrite (wrap64_small n) by (unfold MinInt64, MaxInt64; lia).
  rewrite (Z.mul_comm Second n). apply wrap64_small.
  unfold MinInt64, MaxInt64, Second. lia.
Qed.

(** X2. A configured period of [n] seconds, [n] an int64, becomes a Duration of
    exactly [n] seconds if and only if [n] lies between -9223372036 and
    9223372036; outside, the multiplication by [time.Second] wraps. *)
Theorem seconds_exact_iff (n : Z) :
  MinInt64 <= n <= MaxInt64 ->
  (seconds n = n * Second <-> -9223372036 <= n <= 9223372036).
Proof.
  intros Hn. unfold seconds, Duration_mul. rewrite (wrap64_small n) by assumption.
  rewrite (Z.mul_comm Second n), wrap64_id_iff. unfold MinInt64, MaxInt64, Second. lia.
Qed.

Lemma seconds_exact_iff_witness :
  MinInt64 <= 9223372037 <= MaxInt64 /\
  (seconds 9223372037 = 9223372037 * Second <-> -9223372036 <= 9223372037 <= 9223372036) /\
  seconds 9223372037 = -9223372036709551616.
Proof.
  assert (H : MinInt64 <= 9223372037 <= MaxInt64) by (unfold MinInt64, MaxInt64; lia).
  split; [exact H|]. split; [exact (seconds_exact_iff 9223372037 H)|].
  vm_compute. reflexivity.
Defined.

(** ** More on the heartbeat *)

Lemma keepsConnection_refl c : keepsConnection c c.
Proof. repeat split. Qed.

Lemma keepsConnection_trans c1 c2 c3 :
  keepsConnection c1 c2 -> keepsConnection c2 c3 -> keepsConnection c1 c3.
Proof. unfold keepsConnection. intuition congruence. Qed.

Lemma isPingEffect_conn c c' e : Conn c' = Conn c -> isPingEffect c e -> isPingEffect c' e.
Proof.
  intros Hc. destruct e as [| k [] | | | | |]; simpl; rewrite ?Hc; auto.
Qed.

Lemma sendEvents_ping c env :
  Forall (isPingEffect c) (sendEvents c env PingMessage WebsocketServerPingMsg).
Proof.
  unfold sendEvents. destruct (deadlineErr env); repeat constructor.
Qed.

Opaque sendEvents.

Section HeartbeatEffects.

Variable Setting : config.WebsocketSetting.

(** A tick on an active client whose lock is held waits for the lock. *)
Lemma heartbeatTick_locked env (w : World) :
  State (client w) = 1 -> RWMutex (client w) = true ->
  heartbeatTick Setting env w = (Pending, w).
Proof.
  intros Hs Hm. unfold heartbeatTick. unfold bind at 1, getClient. rewrite Hs. simpl.
  unfold bind at 1. rewrite SendMessage_locked by assumption. reflexivity.
Qed.

(** What a tick does to the world, whatever the state and the lock. *)
Lemma heartbeatTick_effects env (w : World) :
  exists evs,
    trace (snd (heartbeatTick Setting env w)) = trace w ++ evs /\
    Forall (isPingEffect (client w)) evs /\
    (countEv isSendAttempt evs <= 1)%nat /\
    keepsConnection (client w) (client (snd (heartbeatTick Setting env w))) /\
    self (snd (heartbeatTick Setting env w)) = self w /\
    registerQueue (snd (heartbeatTick Setting env w)) = registerQueue w /\
    nextChan (snd (heartbeatTick Setting env w)) = nextChan w /\
    panicOf (fst (heartbeatTick Setting env w)) = None.
Proof.
  destruct (Z.eq_dec (State (client w)) 1) as [Hs|Hs].
  - destruct (RWMutex (client w)) eqn:Hm.
    + exists []. rewrite heartbeatTick_locked by assumption. simpl.
      rewrite app_nil_r. split; [reflexivity|]. split; [constructor|].
      split; [unfold countEv; simpl; lia|]. split; [apply keepsConnection_refl|]. auto.
    + destruct (sendFails env) eqn:Hf.
      * rewrite heartbeatTick_fail by assumption. cbv zeta.
        destruct (_ >? _); simpl.
        -- eexists. split; [reflexivity|]. split; [|split].
           ++ apply Forall_app. split; [apply sendEvents_ping|].
              destruct (sendResult env); repeat constructor.
           ++ rewrite countEv_app, sendEvents_one_attempt.
              destruct (sendResult env); unfold countEv; simpl; lia.
           ++ destruct (client w); simpl; unfold keepsConnection; simpl; auto 12.
        -- eexists. split; [reflexivity|]. split; [apply sendEvents_ping|]. split.
           ++ rewrite sendEvents_one_attempt. lia.
           ++ destruct (client w); simpl; unfold keepsConnection; simpl; auto 12.
      * rewrite heartbeatTick_ok by assumption. simpl.
        eexists. split; [reflexivity|]. split; [apply sendEvents_ping|]. split.
        -- rewrite sendEvents_one_attempt. lia.
        -- destruct (client w); simpl; destruct (_ >? _);
             unfold keepsConnection; simpl; auto 12.
  - rewrite heartbeatTick_inactive by assumption. exists []. simpl.
    rewrite app_nil_r. split; [reflexivity|]. split; [constructor|].
    split; [unfold countEv; simpl; lia|]. split; [apply keepsConnection_refl|]. auto.
Qed.

Lemma heartbeatLoop_cons env ticks (w : World) :
  heartbeatLoop Setting (env :: ticks) w =
  match heartbeatTick Setting env w with
  | (Ret Continue, w1) => heartbeatLoop Setting ticks w1
  | (Ret Return, w1) => (Ret tt, w1)
  | (Panic v, w1) => (Panic v, w1)
  | (Pending, w1) => (Pending, w1)
  end.
Proof.
  simpl. unfold bind at 1.
  destruct (heartbeatTick Setting env w) as [[[]|v|] w1]; reflexivity.
Qed.

Lemma heartbeatLoop_effects ticks :
  forall w : World,
  exists evs,
    trace (snd (heartbeatLoop Setting ticks w)) = trace w ++ evs /\
    Forall (isPingEffect (client w)) evs /\
    (countEv isSendAttempt evs <= length ticks)%nat /\
    keepsConnection (client w) (client (snd (heartbeatLoop Setting ticks w))) /\
    self (snd (heartbeatLoop Setting ticks w)) = self w /\
    registerQueue (snd (heartbeatLoop Setting ticks w)) = registerQueue w /\
    nextChan (snd (heartbeatLoop Setting ticks w)) = nextChan w /\
    panicOf (fst (heartbeatLoop Setting ticks w)) = None.
Proof.
  induction ticks as [|env ticks IH]; intros w.
  - exists []. simpl. rewrite app_nil_r.
    split; [reflexivity|]. split; [constructor|]. split; [unfold countEv; simpl; lia|].
    split; [apply keepsConnection_refl|]. auto.
  - destruct (heartbeatTick_effects env w)
      as (evs1 & Ht1 & Hp1 & Hc1 & Hk1 & Hs1 & Hq1 & Hn1 & Hpan1).
    rewrite heartbeatLoop_cons.
    destruct (heartbeatTick Setting env w) as [[[]|v|] w1]; simpl in *;
      try discriminate.
    + destruct (IH w1) as (evs2 & Ht2 & Hp2 & Hc2 & Hk2 & Hs2 & Hq2 & Hn2 & Hpan2).
      exists (evs1 ++ evs2). rewrite Ht2, Ht1, <- app_assoc.
      split; [reflexivity|]. split; [|split; [|split]].
      * apply Forall_app. split; [assumption|].
        eapply Forall_impl; [exact Hp2|]. intros e. apply isPingEffect_conn.
        destruct Hk1 as (_ & Hconn & _). congruence.
      * rewrite countEv_app. lia.
      * apply (keepsConnection_trans _ (client w1)); assumption.
      * repeat split; congruence.
    + exists evs1. split; [assumption|]. split; [assumption|]. split; [lia|]. auto.
    + exists evs1. split; [assumption|]. split; [assumption|]. split; [lia|]. auto.
Qed.

End HeartbeatEffects.

Transparent sendEvents.

Section HeartbeatWhole.

Variable Setting : config.WebsocketSetting.
Local Abbreviation Max := (config.HeartbeatFailMaxTimes Setting).

Lemma Heartbeat_nonpositive now0 ticks (w : World) :
  PingPeriod (client w) <= 0 ->
  Heartbeat Setting now0 ticks w = (Panic NonPositiveTickerInterval, w).
Proof.
  intros Hp. unfold Heartbeat. unfold bind at 1, getClient. unfold bind at 1.
  destruct (Z.leb_spec (PingPeriod (client w)) 0); [reflexivity | lia].
Qed.

Lemma OnOpen_returned_periods (env : OpenEnv) (w w' : World) (c' : ClientRef) :
  OnOpen Setting env w = (Ret (Some c', true), w') ->
  PingPeriod (client w') = seconds (config.PingPeriod Setting) /\
  ReadDeadline (client w') = seconds (config.ReadDeadline Setting) /\
  WriteDeadline (client w') = seconds (config.WriteDeadline Setting).
Proof.
  intros Hrun. pose proof (OnOpen_cases Setting env w) as Hc.
  destruct (upgrade env) as [k|err]; [|rewrite Hrun in Hc; discriminate].
  destruct (config.BufferSize Setting <? 0);
    [rewrite Hrun in Hc; simpl in Hc; destruct Hc; discriminate|].
  destruct (RWMutex (client w));
    [rewrite Hrun in Hc; simpl in Hc; destruct Hc; discriminate|].
  destruct (hubAfter env (client w));
    [rewrite Hrun in Hc; simpl in Hc; destruct Hc; discriminate|].
  rewrite Hrun in Hc. inversion Hc; subst. simpl. auto.
Qed.

(** X3. A heartbeat on a client that OnOpen has returned: with a configured
    PingPeriod of 0 or less (down to -9223372036 seconds) [time.NewTicker]
    panics, nothing is deferred yet, and the panic reaches the caller with
    nothing done; with a PingPeriod from 1 to 9223372036 seconds Heartbeat
    never panics. *)
Theorem Heartbeat_after_OnOpen (env : OpenEnv) (w w' : World) (c' : ClientRef) :
  OnOpen Setting env w = (Ret (Some c', true), w') ->
  (-9223372036 <= config.PingPeriod Setting <= 0 ->
   forall now0 ticks,
     Heartbeat Setting now0 ticks w' = (Panic NonPositiveTickerInterval, w')) /\
  (1 <= config.PingPeriod Setting <= 9223372036 ->
   forall now0 ticks, panicOf (fst (Heartbeat Setting now0 ticks w')) = None).
Proof.
  intros Hrun. destruct (OnOpen_returned_periods env w w' c' Hrun) as (Hp & _).
  split.
  - intros Hn now0 ticks. apply Heartbeat_nonpositive. rewrite Hp.
    assert (Hs : seconds (config.PingPeriod Setting) = config.PingPeriod Setting * Second).
    { apply seconds_within; lia. }
    rewrite Hs. unfold Second. lia.
  - intros Hn now0 ticks.
    assert (Hpos : 0 < PingPeriod (client w')).
    { rewrite Hp, seconds_small by lia. unfold Second. lia. }
    rewrite Heartbeat_run by assumption.
    match goal with |- context [heartbeatLoop Setting ticks ?w0] =>
      destruct (heartbeatLoop_effects Setting ticks w0) as (_ & _ & _ & _ & _ & _ & _ & _ & Hpan);
      destruct (heartbeatLoop Setting ticks w0) as [[[]|v|] w1]
    end; reflexivity.
Qed.

(** X4. What a whole Heartbeat with a positive PingPeriod does.  It first sets
    the read deadline and installs the pong handler; after that it only sets
    write deadlines and writes ping frames with the fixed payload on the
    client's connection, at most one per tick, and logs; when it returns it
    has stopped the ticker, last; and it never panics.  Of the client it
    writes only State and HeartbeatFailTimes, and it leaves the hub's queue
    alone. *)
Theorem Heartbeat_only_pings now0 ticks (w : World) :
  0 < PingPeriod (client w) ->
  exists pings,
    trace (snd (Heartbeat Setting now0 ticks w)) =
      trace w
      ++ [ConnEv (Conn (client w)) (SetReadDeadline (firstReadDeadline now0 (client w)));
          ConnEv (Conn (client w)) SetPongHandler]
      ++ pings
      ++ (if isPending (fst (Heartbeat Setting now0 ticks w)) then [] else [TickerStop]) /\
    Forall (isPingEffect (client w)) pings /\
    (countEv isSendAttempt pings <= length ticks)%nat /\
    keepsConnection (client w) (client (snd (Heartbeat Setting now0 ticks w))) /\
    registerQueue (snd (Heartbeat Setting now0 ticks w)) = registerQueue w /\
    panicOf (fst (Heartbeat Setting now0 ticks w)) = None.
Proof.
  intros Hpos. rewrite Heartbeat_run by assumption.
  match goal with |- context [heartbeatLoop Setting ticks ?w0] =>
    destruct (heartbeatLoop_effects Setting ticks w0)
      as (pings & Ht & Hp & Hc & Hk & _ & Hq & _ & Hpan);
    destruct (heartbeatLoop Setting ticks w0) as [[[]|v|] w1]
  end; simpl in *; try discriminate; exists pings.
  - rewrite Ht, <- !app_assoc. simpl. auto 10.
  - rewrite Ht, <- !app_assoc, app_nil_r. simpl. auto 10.
Qed.

(** X5. A heartbeat on a client whose state is not 1 returns at its first tick:
    it has set the read deadline, installed the pong handler and stopped the
    ticker, has sent no ping, and has changed nothing of the client. *)
Theorem Heartbeat_inactive now0 env ticks (w : World) :
  0 < PingPeriod (client w) -> State (client w) <> 1 ->
  Heartbeat Setting now0 (env :: ticks) w =
  (Ret tt,
   with_trace (fun t => t ++ [ConnEv (Conn (client w))
                                (SetReadDeadline (firstReadDeadline now0 (client w)));
                              ConnEv (Conn (client w)) SetPongHandler;
                              TickerStop]) w).
Proof.
  intros Hpos Hs. rewrite Heartbeat_run by assumption.
  rewrite heartbeatLoop_cons, heartbeatTick_inactive by assumption.
  destruct w; unfold with_trace; simpl. rewrite <- app_assoc. reflexivity.
Qed.

Lemma failingTicks_cons env ticks :
  failingTicks (env :: ticks)
  = ((if sendFails env then 1 else 0) + failingTicks ticks)%nat.
Proof. unfold failingTicks. simpl. destruct (sendFails env); reflexivity. Qed.

(** The failure count and the state along a heartbeat loop, whatever pings
    fail or succeed: the count stays within the budget while the state is 1
    and the loop goes on, and the state is 0 exactly when the count has
    exceeded the maximum, where the loop has returned. *)
Lemma heartbeatLoop_budget ticks :
  forall w : World,
  State (client w) = 1 -> RWMutex (client w) = false ->
  0 <= HeartbeatFailTimes (client w) <= Max -> Max < MaxInt64 ->
  ((State (client (snd (heartbeatLoop Setting ticks w))) = 1 /\
    0 <= HeartbeatFailTimes (client (snd (heartbeatLoop Setting ticks w))) <= Max /\
    fst (heartbeatLoop Setting ticks w) = Pending) \/
   (State (client (snd (heartbeatLoop Setting ticks w))) = 0 /\
    HeartbeatFailTimes (client (snd (heartbeatLoop Setting ticks w))) = Max + 1 /\
    fst (heartbeatLoop Setting ticks w) = Ret tt)) /\
  HeartbeatFailTimes (client (snd (heartbeatLoop Setting ticks w)))
    <= HeartbeatFailTimes (client w) + Z.of_nat (failingTicks ticks).
Proof.
  induction ticks as [|env ticks IH]; intros w Hs Hf Hn HM.
  - simpl. split; [left; auto | unfold failingTicks; simpl; lia].
  - rewrite heartbeatLoop_cons, failingTicks_cons. unfold MaxInt64 in HM.
    destruct (sendFails env) eqn:Henv.
    + pose proof (heartbeatTick_fail Setting env w Hs Hf Henv) as Ht. cbv zeta in Ht.
      rewrite wrap64_small in Ht by (unfold MinInt64, MaxInt64; lia).
      rewrite Ht. destruct (Z.gtb_spec (HeartbeatFailTimes (client w) + 1) Max).
      * simpl. split; [right; repeat split; lia | lia].
      * match goal with |- context [heartbeatLoop Setting ticks ?w1] =>
          destruct (IH w1) as (Hcase & Hle); simpl; try assumption; try lia
        end.
        simpl in Hle. split; [exact Hcase | lia].
    + rewrite (heartbeatTick_ok Setting env w Hs Hf Henv).
      match goal with |- context [heartbeatLoop Setting ticks ?w1] =>
        assert (Hk : 0 <= HeartbeatFailTimes (client w1) <= HeartbeatFailTimes (client w)
                     /\ State (client w1) = 1 /\ RWMutex (client w1) = false);
        [|destruct Hk as (Hk & Hs1 & Hf1);
          destruct (IH w1 Hs1 Hf1 ltac:(lia) ltac:(unfold MaxInt64; lia)) as (Hcase & Hle)]
      end.
      * simpl. destruct (Z.gtb_spec (HeartbeatFailTimes (client w)) 0).
        -- destruct (client w); simpl in *.
           rewrite wrap64_small by (unfold MinInt64, MaxInt64; lia).
           repeat split; try assumption; lia.
        -- repeat split; try assumption; lia.
      * split; [exact Hcase | lia].
Qed.

(** X6. A heartbeat loop on an active client whose failure count is 0, with a
    maximum between 0 and 2^63 - 2, whatever pings fail or succeed: either
    the state is still 1, the count is within 0 and the maximum, and the
    loop goes on; or the state is 0, the count is the maximum plus 1, and
    the loop has returned.  The count never exceeds the number of pings that
    failed, so the client is closed only after more than the maximum number
    of pings have failed in all. *)
Theorem heartbeat_closes_when_exceeded ticks (w : World) :
  State (client w) = 1 -> HeartbeatFailTimes (client w) = 0 ->
  RWMutex (client w) = false -> 0 <= Max < MaxInt64 ->
  ((State (client (snd (heartbeatLoop Setting ticks w))) = 1 /\
    0 <= HeartbeatFailTimes (client (snd (heartbeatLoop Setting ticks w))) <= Max /\
    fst (heartbeatLoop Setting ticks w) = Pending) \/
   (State (client (snd (heartbeatLoop Setting ticks w))) = 0 /\
    HeartbeatFailTimes (client (snd (heartbeatLoop Setting ticks w))) = Max + 1 /\
    fst (heartbeatLoop Setting ticks w) = Ret tt /\
    Max + 1 <= Z.of_nat (failingTicks ticks))).
Proof.
  intros Hs H0 Hf HM.
  destruct (heartbeatLoop_budget ticks w Hs Hf ltac:(lia) ltac:(lia)) as ([Hc|Hc] & Hle).
  - left. exact Hc.
  - right. destruct Hc as (H1 & H2 & H3). repeat split; try assumption. lia.
Qed.

(** X7. The read deadline Heartbeat sets on entry, at clock reading [now0], and
    the one its pong handler would set at the same reading.  Heartbeat's is
    the first thing it does; for a negative ReadDeadline it lies in the past;
    and the two are the same exactly when ReadDeadline is 0 or more than a
    nanosecond. *)
Theorem Heartbeat_first_read_deadline now0 ticks receivedPong (w : World) :
  0 < PingPeriod (client w) ->
  (exists rest,
     trace (snd (Heartbeat Setting now0 ticks w)) =
     trace w ++ ConnEv (Conn (client w))
                  (SetReadDeadline (firstReadDeadline now0 (client w))) :: rest) /\
  (ReadDeadline (client w) < 0 ->
   exists t, firstReadDeadline now0 (client w) = Instant t /\ t < now0) /\
  (trace (snd (pongHandler now0 receivedPong w)) =
   trace w ++ [ConnEv (Conn (client w))
                 (SetReadDeadline (firstReadDeadline now0 (client w)))]
   <-> ReadDeadline (client w) = 0 \/ Nanosecond < ReadDeadline (client w)).
Proof.
  intros Hpos. split; [|split].
  - rewrite Heartbeat_run by assumption.
    match goal with |- context [heartbeatLoop Setting ticks ?w0] =>
      destruct (heartbeatLoop_effects Setting ticks w0) as (evs & Ht & _);
      destruct (heartbeatLoop Setting ticks w0) as [[[]|v|] w1]
    end; simpl in *; rewrite Ht, <- ?app_assoc; simpl; eexists; reflexivity.
  - intros Hneg. unfold firstReadDeadline, Now_Add.
    destruct (Z.eqb_spec (ReadDeadline (client w)) 0); [lia|].
    eexists. split; [reflexivity | lia].
  - unfold pongHandler, firstReadDeadline, Nanosecond, Now_Add; unfold_go.
    destruct (Z.gtb_spec (ReadDeadline (client w)) 1);
      destruct (Z.eqb_spec (ReadDeadline (client w)) 0); simpl; split; intros Hx;
      try lia; try reflexivity; auto;
      try (apply app_inv_head in Hx; discriminate); try (destruct Hx; lia).
Qed.

End HeartbeatWhole.

(** ** More on the read loop *)

Lemma readsOf_app t1 t2 : readsOf (t1 ++ t2) = readsOf t1 ++ readsOf t2.
Proof.
  induction t1 as [|e t1 IH]; [reflexivity|].
  destruct e as [| k [] | | | | |]; simpl; rewrite ?IH; reflexivity.
Qed.

Lemma ReadTrace_counts incoming evs :
  ReadTrace incoming evs ->
  (countEv isOnError evs <= 1)%nat /\
  (countEv isOnMessage evs <= countEv isRead evs <= countEv isOnMessage evs + 1)%nat /\
  readsOf evs = take (countEv isRead evs) incoming /\
  (countEv isRead evs <= length incoming)%nat /\
  forallb isReadPumpEvent evs = true.
Proof.
  induction 1 as [k r rest evs Hr Htr IH | k r rest err Hr | incoming | incoming].
  - destruct IH as (H1 & H2 & H3 & H4 & H5). unfold countEv in *. simpl.
    rewrite H3. repeat split; try assumption; simpl length; try lia.
  - unfold countEv. simpl. repeat split; simpl length; try lia.
  - unfold countEv. simpl. rewrite take_0. repeat split; lia.
  - unfold countEv. simpl. rewrite take_0. repeat split; lia.
Qed.

Section ReadPumpCounts.

Variable cb : Callbacks.

Lemma readIteration_world next (w : World) :
  self (snd (readIteration cb next w)) = self w /\
  registerQueue (snd (readIteration cb next w)) = registerQueue w /\
  nextChan (snd (readIteration cb next w)) = nextChan w.
Proof.
  destruct (Z.eq_dec (State (client w)) 1) as [Hs|Hs].
  - destruct next as [r|]; [|rewrite readIteration_wait by assumption; auto].
    destruct (rdErr r) as [err|] eqn:He.
    + rewrite (readIteration_error cb r err) by assumption. rewrite call_run. simpl. auto.
    + rewrite readIteration_frame by assumption. rewrite call_run. simpl. auto.
  - rewrite readIteration_invalid by assumption. rewrite call_run. simpl. auto.
Qed.

Lemma readLoop_world incoming :
  forall w : World,
  self (snd (readLoop cb incoming w)) = self w /\
  registerQueue (snd (readLoop cb incoming w)) = registerQueue w /\
  nextChan (snd (readLoop cb incoming w)) = nextChan w.
Proof.
  induction incoming as [|r rest IH]; intros w.
  - rewrite readLoop_nil. pose proof (readIteration_world None w) as Hw.
    destruct (readIteration cb None w) as [[[]|v|] w1]; exact Hw.
  - rewrite readLoop_cons. pose proof (readIteration_world (Some r) w) as Hw.
    destruct (readIteration cb (Some r) w) as [[[]|v|] w1]; simpl in Hw; try exact Hw.
    destruct (IH w1) as (H1 & H2 & H3). destruct Hw as (H4 & H5 & H6).
    repeat split; congruence.
Qed.

(** X8. Every run of ReadPump, whatever the callbacks do: it calls onError at
    most once; it calls onMessage once for each frame it has read, the last
    read apart when that one failed or the loop stopped there; the frames it
    has read are the first ones that came in, in order; all it adds to the
    run are reads, calls of the callbacks and lines of the error log - it
    never writes to the connection; and it leaves the hub's queue alone. *)
Theorem ReadPump_call_counts (incoming : list ReadResult) (w : World) :
  exists evs,
    trace (snd (ReadPump cb incoming w)) = trace w ++ evs /\
    (countEv isOnError evs <= 1)%nat /\
    (countEv isOnMessage evs <= countEv isRead evs <= countEv isOnMessage evs + 1)%nat /\
    readsOf evs = take (countEv isRead evs) incoming /\
    forallb isReadPumpEvent evs = true /\
    registerQueue (snd (ReadPump cb incoming w)) = registerQueue w.
Proof.
  destruct (readLoop_trace cb incoming w) as (evs & Ht & Hr & _).
  destruct (ReadTrace_counts incoming evs Hr) as (H1 & H2 & H3 & H4 & H5).
  destruct (readLoop_world incoming w) as (_ & Hq & _).
  set (closing := if isPending (fst (readLoop cb incoming w)) then []
                  else recoveredLog ErrorsWebsocketReadMessageFail
                         (panicOf (fst (readLoop cb incoming w))) ++ [OnClose]).
  assert (Hc : countEv isOnError closing = 0%nat /\ countEv isOnMessage closing = 0%nat /\
               countEv isRead closing = 0%nat /\ readsOf closing = [] /\
               forallb isReadPumpEvent closing = true).
  { unfold closing. destruct (isPending _); [repeat split|].
    destruct (panicOf _) as [[e|n]|]; repeat split. }
  destruct Hc as (C1 & C2 & C3 & C4 & C5).
  exists (evs ++ closing).
  split; [|split; [|split; [|split; [|split]]]].
  - rewrite ReadPump_run. unfold closing.
    destruct (isPending (fst (readLoop cb incoming w))); simpl; rewrite Ht.
    + rewrite app_nil_r. reflexivity.
    + rewrite <- app_assoc. reflexivity.
  - rewrite countEv_app, C1. lia.
  - rewrite !countEv_app, C2, C3. lia.
  - rewrite readsOf_app, countEv_app, C3, C4, app_nil_r, Nat.add_0_r. exact H3.
  - rewrite forallb_app, H5, C5. reflexivity.
  - rewrite ReadPump_run.
    destruct (isPending (fst (readLoop cb incoming w))); simpl; exact Hq.
Qed.

End ReadPumpCounts.

Lemma Heartbeat_after_OnOpen_witness :
  OnOpen settingWithoutPeriod openOk newWorld
    = (Ret (Some 7%nat, true), snd (OnOpen settingWithoutPeriod openOk newWorld)) /\
  -9223372036 <= config.PingPeriod settingWithoutPeriod <= 0 /\
  Heartbeat settingWithoutPeriod 0 [sendOk] (snd (OnOpen settingWithoutPeriod openOk newWorld))
    = (Panic NonPositiveTickerInterval, snd (OnOpen settingWithoutPeriod openOk newWorld)).
Proof.
  assert (Hrun : OnOpen settingWithoutPeriod openOk newWorld
                 = (Ret (Some 7%nat, true), snd (OnOpen settingWithoutPeriod openOk newWorld)))
    by (vm_compute; reflexivity).
  assert (Hn : -9223372036 <= config.PingPeriod settingWithoutPeriod <= 0)
    by (simpl; lia).
  split; [exact Hrun|]. split; [exact Hn|].
  exact (proj1 (Heartbeat_after_OnOpen settingWithoutPeriod openOk newWorld _ _ Hrun)
           Hn 0 [sendOk]).
Defined.

Lemma Heartbeat_only_pings_witness :
  0 < PingPeriod (client sampleWorld) /\
  panicOf (fst (Heartbeat (settingWithMax 2) 0 [sendOk; sendNoWrite] sampleWorld)) = None /\
  registerQueue (snd (Heartbeat (settingWithMax 2) 0 [sendOk; sendNoWrite] sampleWorld)) = [].
Proof.
  assert (Hp : 0 < PingPeriod (client sampleWorld)) by (simpl; lia).
  split; [exact Hp|].
  destruct (Heartbeat_only_pings (settingWithMax 2) 0 [sendOk; sendNoWrite] sampleWorld Hp)
    as (pings & _ & _ & _ & _ & Hq & Hpan).
  split; [exact Hpan | exact Hq].
Defined.

Lemma Heartbeat_inactive_witness :
  0 < PingPeriod (client closedWorld) /\ State (client closedWorld) = 0 /\
  Heartbeat (settingWithMax 2) 0 [sendOk; sendOk] closedWorld =
  (Ret tt,
   with_trace (fun t => t ++ [ConnEv 3%nat (SetReadDeadline (Instant 60000000000));
                              ConnEv 3%nat SetPongHandler;
                              TickerStop]) closedWorld).
Proof.
  split; [simpl; lia|]. split; [reflexivity|].
  apply (Heartbeat_inactive (settingWithMax 2) 0 sendOk [sendOk] closedWorld);
    [simpl; lia | discriminate].
Defined.

Lemma heartbeat_closes_when_exceeded_witness :
  (State (client sampleWorld) = 1 /\ HeartbeatFailTimes (client sampleWorld) = 0 /\
   RWMutex (client sampleWorld) = false /\
   0 <= config.HeartbeatFailMaxTimes (settingWithMax 1) < MaxInt64) /\
  ((State (client (snd (heartbeatLoop (settingWithMax 1)
                          [sendNoWrite; sendOk; sendNoWrite; sendNoWrite] sampleWorld))) = 1 /\
    0 <= HeartbeatFailTimes
           (client (snd (heartbeatLoop (settingWithMax 1)
                           [sendNoWrite; sendOk; sendNoWrite; sendNoWrite] sampleWorld)))
      <= config.HeartbeatFailMaxTimes (settingWithMax 1) /\
    fst (heartbeatLoop (settingWithMax 1)
           [sendNoWrite; sendOk; sendNoWrite; sendNoWrite] sampleWorld) = Pending) \/
   (State (client (snd (heartbeatLoop (settingWithMax 1)
                          [sendNoWrite; sendOk; sendNoWrite; sendNoWrite] sampleWorld))) = 0 /\
    HeartbeatFailTimes
      (client (snd (heartbeatLoop (settingWithMax 1)
                      [sendNoWrite; sendOk; sendNoWrite; sendNoWrite] sampleWorld)))
      = config.HeartbeatFailMaxTimes (settingWithMax 1) + 1 /\
    fst (heartbeatLoop (settingWithMax 1)
           [sendNoWrite; sendOk; sendNoWrite; sendNoWrite] sampleWorld) = Ret tt /\
    config.HeartbeatFailMaxTimes (settingWithMax 1) + 1
      <= Z.of_nat (failingTicks [sendNoWrite; sendOk; sendNoWrite; sendNoWrite]))).
Proof.
  assert (HM : 0 <= config.HeartbeatFailMaxTimes (settingWithMax 1) < MaxInt64)
    by (unfold MaxInt64; simpl; lia).
  split; [repeat split; try reflexivity; apply HM|].
  exact (heartbeat_closes_when_exceeded (settingWithMax 1)
           [sendNoWrite; sendOk; sendNoWrite; sendNoWrite] sampleWorld
           eq_refl eq_refl eq_refl HM).
Defined.

Lemma Heartbeat_first_read_deadline_witness :
  0 < PingPeriod (client negativeDeadlineWorld) /\
  ReadDeadline (client negativeDeadlineWorld) < 0 /\
  exists t, firstReadDeadline 0 (client negativeDeadlineWorld) = Instant t /\ t < 0.
Proof.
  assert (Hp : 0 < PingPeriod (client negativeDeadlineWorld)) by (simpl; lia).
  assert (Hn : ReadDeadline (client negativeDeadlineWorld) < 0) by (simpl; lia).
  split; [exact Hp|]. split; [exact Hn|].
  exact (proj1 (proj2 (Heartbeat_first_read_deadline (settingWithMax 2) 0 [] ""
                         negativeDeadlineWorld Hp)) Hn).
Defined.

(** * The WeChat official-account service *)

Section WxmpFacts.

Variable Setting : wxmp.WxmpSetting.t.

Lemma findApp_Some appId l a :
  wxmp.findApp appId l = Some a -> wxmp.AppSetting.AppId a = appId /\ In a l.
Proof.
  induction l as [|b l IH]; simpl; [discriminate|].
  destruct (String.eqb_spec (wxmp.AppSetting.AppId b) appId) as [He|Hne].
  - intros [= <-]. auto.
  - intros H. destruct (IH H). auto.
Qed.

Lemma findApp_None appId l :
  wxmp.findApp appId l = None <-> Forall (fun a => wxmp.AppSetting.AppId a <> appId) l.
Proof.
  induction l as [|b l IH]; simpl.
  - split; [constructor | reflexivity].
  - destruct (String.eqb_spec (wxmp.AppSetting.AppId b) appId) as [He|Hne].
    + split; [discriminate|]. intros H. inversion H; subst. contradiction.
    + rewrite IH. split; [intros H; constructor; assumption|].
      intros H. inversion H; assumption.
Qed.

Lemma findApp_first appId l1 a l2 :
  Forall (fun b => wxmp.AppSetting.AppId b <> appId) l1 ->
  wxmp.AppSetting.AppId a = appId ->
  wxmp.findApp appId (l1 ++ a :: l2) = Some a.
Proof.
  intros Hall Ha. induction Hall as [|b l1 Hb Hall IH]; simpl.
  - destruct (String.eqb_spec (wxmp.AppSetting.AppId a) appId); [reflexivity|contradiction].
  - destruct (String.eqb_spec (wxmp.AppSetting.AppId b) appId); [contradiction|exact IH].
Qed.

Lemma getAppSetting_apps appId :
  appId <> wxmp.WxmpSetting.AppId Setting ->
  wxmp.getAppSetting Setting appId = wxmp.findApp appId (wxmp.WxmpSetting.Apps Setting).
Proof.
  intros Hne. unfold wxmp.getAppSetting.
  destruct (String.eqb_spec appId (wxmp.WxmpSetting.AppId Setting)); [contradiction|].
  destruct (wxmp.WxmpSetting.Apps Setting); reflexivity.
Qed.

Lemma getAppSetting_id appId a :
  wxmp.getAppSetting Setting appId = Some a -> wxmp.AppSetting.AppId a = appId.
Proof.
  destruct (String.eqb_spec appId (wxmp.WxmpSetting.AppId Setting)) as [He|Hne].
  - unfold wxmp.getAppSetting. rewrite He, String.eqb_refl. intros [= <-]. reflexivity.
  - rewrite getAppSetting_apps by assumption. intros H. apply (findApp_Some _ _ _ H).
Qed.

(** X9. The setting of an app.  What getAppSetting returns carries the id it was
    asked for.  The default id gives the top-level credentials, also when
    the list of apps has an entry with that id; any other id gives the first
    entry of the list with that id; and there is no setting exactly when the
    id is neither the default one nor that of an entry. *)
Theorem getAppSetting_spec (appId : string) :
  (forall a, wxmp.getAppSetting Setting appId = Some a -> wxmp.AppSetting.AppId a = appId) /\
  (appId = wxmp.WxmpSetting.AppId Setting ->
   wxmp.getAppSetting Setting appId = Some (defaultAppSetting Setting)) /\
  (forall l1 a l2,
     appId <> wxmp.WxmpSetting.AppId Setting ->
     wxmp.WxmpSetting.Apps Setting = l1 ++ a :: l2 ->
     Forall (fun b => wxmp.AppSetting.AppId b <> appId) l1 ->
     wxmp.AppSetting.AppId a = appId ->
     wxmp.getAppSetting Setting appId = Some a) /\
  (wxmp.getAppSetting Setting appId = None <->
   appId <> wxmp.WxmpSetting.AppId Setting /\
   Forall (fun a => wxmp.AppSetting.AppId a <> appId) (wxmp.WxmpSetting.Apps Setting)).
Proof.
  split; [intros a; apply getAppSetting_id|]. split; [|split].
  - intros ->. unfold wxmp.getAppSetting. rewrite String.eqb_refl. reflexivity.
  - intros l1 a l2 Hne Happs Hall Ha. rewrite getAppSetting_apps, Happs by assumption.
    apply findApp_first; assumption.
  - destruct (String.eqb_spec appId (wxmp.WxmpSetting.AppId Setting)) as [He|Hne].
    + unfold wxmp.getAppSetting. rewrite He, String.eqb_refl.
      split; [discriminate | intros [Hc _]; contradiction].
    + rewrite getAppSetting_apps, findApp_None by assumption. tauto.
Qed.

(** What GetApp does, by the state of the cache and the setting of the id. *)
Lemma GetApp_cases answer appId (s : wxmp.WxmpService) :
  wxmp.GetApp Setting answer appId s =
  match wxmp.apps s !! appKey Setting appId with
  | Some mp => (Some mp, s)
  | None =>
      match wxmp.getAppSetting Setting (appKey Setting appId) with
      | Some appSetting => wxmp.createApp answer appSetting s
      | None => (None, s)
      end
  end.
Proof. reflexivity. Qed.

(** X10. GetApp caches what it creates.  When it returns an account, that account
    is in the cache under the id asked for (the default id for the empty
    string), the other entries of the cache are as before, and any later
    GetApp for that id returns the same account without asking for a new
    one, whatever the outside would answer. *)
Theorem GetApp_caches answer appId (s s' : wxmp.WxmpService) (app : nat) :
  wxmp.GetApp Setting answer appId s = (Some app, s') ->
  wxmp.apps s' !! appKey Setting appId = Some app /\
  (forall k, k <> appKey Setting appId -> wxmp.apps s' !! k = wxmp.apps s !! k) /\
  (forall answer', wxmp.GetApp Setting answer' appId s' = (Some app, s')) /\
  (forall answer', wxmp.GetApp Setting answer' (appKey Setting appId) s' = (Some app, s')).
Proof.
  intros Hrun.
  assert (Hkey : appKey Setting (appKey Setting appId) = appKey Setting appId).
  { unfold appKey. destruct (String.eqb_spec appId "") as [He|Hne].
    - destruct (String.eqb_spec (wxmp.WxmpSetting.AppId Setting) ""); reflexivity.
    - destruct (String.eqb_spec appId ""); [contradiction|reflexivity]. }
  assert (Hin : wxmp.apps s' !! appKey Setting appId = Some app /\
                forall k, k <> appKey Setting appId -> wxmp.apps s' !! k = wxmp.apps s !! k).
  { rewrite GetApp_cases in Hrun.
    destruct (wxmp.apps s !! appKey Setting appId) as [mp|] eqn:Hhit.
    - inversion Hrun; subst. auto.
    - destruct (wxmp.getAppSetting Setting (appKey Setting appId)) as [st|] eqn:Hst;
        [|discriminate].
      apply getAppSetting_id in Hst. unfold wxmp.createApp in Hrun. rewrite Hst in Hrun.
      destruct answer as [a|err]; inversion Hrun; subst. simpl.
      split; [apply lookup_insert_eq | intros k Hk; apply lookup_insert_ne; congruence]. }
  destruct Hin as (Hin & Hother). split; [exact Hin|]. split; [exact Hother|].
  split; intros answer'; rewrite GetApp_cases, ?Hkey, Hin; reflexivity.
Qed.

(** X11. GetApp does not cache a failure.  When it returns no account, the cache
    is as before and has no entry for the id; either the id has no setting
    and nothing was asked of the outside, or the creation of the account
    failed with an error, which was logged. *)
Theorem GetApp_failure_not_cached answer appId (s s' : wxmp.WxmpService) :
  wxmp.GetApp Setting answer appId s = (None, s') ->
  wxmp.apps s' = wxmp.apps s /\
  wxmp.apps s !! appKey Setting appId = None /\
  ((wxmp.getAppSetting Setting (appKey Setting appId) = None /\ s' = s) \/
   (exists st err cfg,
      wxmp.getAppSetting Setting (appKey Setting appId) = Some st /\
      answer = inr err /\
      wxmp.AppID cfg = appKey Setting appId /\
      wxmp.events s' = wxmp.events s ++ [wxmp.NewOfficialAccount cfg (inr err);
                                         wxmp.LogCreateFailed (appKey Setting appId) err])).
Proof.
  intros Hrun. rewrite GetApp_cases in Hrun.
  destruct (wxmp.apps s !! appKey Setting appId) as [mp|] eqn:Hhit; [discriminate|].
  destruct (wxmp.getAppSetting Setting (appKey Setting appId)) as [st|] eqn:Hst.
  - pose proof (getAppSetting_id _ _ Hst) as Hid. unfold wxmp.createApp in Hrun.
    destruct answer as [a|err]; inversion Hrun; subst; simpl.
    split; [reflexivity|]. split; [reflexivity|]. right.
    eexists st, err, _. split; [reflexivity|]. split; [reflexivity|].
    rewrite <- Hid. split; [|reflexivity]. reflexivity.
  - inversion Hrun; subst. auto.
Qed.

End WxmpFacts.

(** * The conversion table *)

Lemma foldl_assign_lookup (l : list (converter.convertKind * converter.Op))
    (m : gmap converter.convertKind converter.Op) (k : converter.convertKind) :
  foldl (fun cvtOps a => <[a.1 := a.2]> cvtOps) m l !! k =
  match lastAssigned k l with
  | Some op => Some op
  | None => m !! k
  end.
Proof.
  revert m. induction l as [|a l IH]; intros m; simpl; [reflexivity|].
  rewrite IH. destruct (lastAssigned k l); [reflexivity|].
  destruct (decide (a.1 = k)) as [<-|Hne].
  - apply lookup_insert_eq.
  - apply lookup_insert_ne. exact Hne.
Qed.

Lemma lastAssigned_init (s d : reflect.Kind) :
  lastAssigned (s, d) converter.initAssignments = expectedOp s d.
Proof. destruct s, d; vm_compute; reflexivity. Qed.

Lemma init_lookup (m : gmap converter.convertKind converter.Op) (s d : reflect.Kind) :
  converter.init m !! (s, d) =
  match expectedOp s d with
  | Some op => Some op
  | None => m !! (s, d)
  end.
Proof. unfold converter.init. rewrite foldl_assign_lookup, lastAssigned_init. reflexivity. Qed.

(** X12. What [init] leaves in the table.  Under a pair of kinds of basic types
    that are convertible (every one into a string, and otherwise bool to
    bool, a number to a number, a complex number to a complex number) the
    table holds the function that reads the type of the source kind and
    writes the type of the destination kind: formatting when the
    destination is a string, the Go conversion otherwise.  Every other
    entry of the table is what it was before, and running [init] again
    changes nothing. *)
Theorem init_table (m : gmap converter.convertKind converter.Op) (s d : reflect.Kind) :
  converter.init m !! (s, d) =
    match expectedOp s d with
    | Some op => Some op
    | None => m !! (s, d)
    end /\
  converter.init (converter.init m) = converter.init m.
Proof.
  split; [apply init_lookup|].
  apply map_eq. intros [s' d']. rewrite !init_lookup.
  destruct (expectedOp s' d'); reflexivity.
Qed.

(** ** Integer conversions *)

Lemma pow2_double (n : Z) : 0 < n -> 2 ^ n = 2 * 2 ^ (n - 1).
Proof.
  intros Hn. replace n with (Z.succ (n - 1)) at 1 by lia.
  rewrite Z.pow_succ_r by lia. reflexivity.
Qed.

Lemma wrapTo_range (c : converter.IntClass) (z : Z) :
  0 < converter.classBits c -> inClass c (converter.wrapTo c z).
Proof.
  unfold inClass. destruct c as [n|n]; simpl; intros Hn.
  - pose proof (pow2_double n Hn) as Hd.
    assert (0 < 2 ^ (n - 1)) by (apply Z.pow_pos_nonneg; lia).
    pose proof (Z.mod_pos_bound (z + 2 ^ (n - 1)) (2 ^ n) ltac:(lia)). lia.
  - assert (0 < 2 ^ n) by (apply Z.pow_pos_nonneg; lia).
    pose proof (Z.mod_pos_bound z (2 ^ n) ltac:(lia)). lia.
Qed.

Lemma wrapTo_shift (c : converter.IntClass) (z k : Z) :
  converter.wrapTo c (z + k * 2 ^ converter.classBits c) = converter.wrapTo c z.
Proof.
  destruct c as [n|n]; simpl.
  - replace (z + k * 2 ^ n + 2 ^ (n - 1)) with (z + 2 ^ (n - 1) + k * 2 ^ n) by lia.
    rewrite Z_mod_plus_full. reflexivity.
  - rewrite Z_mod_plus_full. reflexivity.
Qed.

Lemma wrapTo_id (c : converter.IntClass) (z : Z) :
  0 < converter.classBits c -> inClass c z -> converter.wrapTo c z = z.
Proof.
  unfold inClass. destruct c as [n|n]; simpl; intros Hn Hz.
  - pose proof (pow2_double n Hn) as Hd. rewrite Z.mod_small by lia. lia.
  - apply Z.mod_small. lia.
Qed.

Lemma wrapTo_congr (c : converter.IntClass) (z : Z) :
  0 < converter.classBits c ->
  exists k, converter.wrapTo c z = z + k * 2 ^ converter.classBits c.
Proof.
  intros Hn.
  assert (Hp : 0 < 2 ^ converter.classBits c) by (apply Z.pow_pos_nonneg; lia).
  destruct c as [n|n]; simpl in *.
  - exists (- ((z + 2 ^ (n - 1)) / 2 ^ n)).
    pose proof (Z.div_mod (z + 2 ^ (n - 1)) (2 ^ n) ltac:(lia)). lia.
  - exists (- (z / 2 ^ n)). pose proof (Z.div_mod z (2 ^ n) ltac:(lia)). lia.
Qed.

Lemma kindClass_bits a k c : kindClass a k = Some c -> 0 < converter.classBits c.
Proof.
  unfold kindClass. destruct a, k; simpl; intros [= <-]; simpl; lia.
Qed.

Lemma init_lookup_int a m s d cs cd :
  kindClass a s = Some cs -> kindClass a d = Some cd ->
  exists op, converter.init m !! (s, d) = Some op /\
             forall z, converter.convertInt a op z = Some (converter.wrapTo cd z).
Proof.
  intros Hs Hd. rewrite init_lookup.
  unfold kindClass in Hs, Hd. unfold expectedOp.
  destruct (typeOf s) as [S'|] eqn:HS; [|discriminate].
  destruct (typeOf d) as [D'|] eqn:HD; [|discriminate].
  assert (Hc : convertible S' D' = true).
  { destruct S'; try discriminate; destruct D'; try discriminate; reflexivity. }
  rewrite Hc. eexists. split; [reflexivity|].
  intros z. destruct D'; simpl in Hd; try discriminate; simpl; rewrite Hs;
    inversion Hd; reflexivity.
Qed.

(** X13. What the table does to an integer.  For two integer kinds the table has
    a function, whatever it held before [init]; what that function writes
    lies in the range of the destination type and differs from the value
    read by a multiple of two to the width of the destination; and it is
    the value read exactly when that value is in the range of the
    destination type. *)
Theorem convert_int_result (a : converter.Arch)
    (m : gmap converter.convertKind converter.Op) (s d : reflect.Kind)
    (cs cd : converter.IntClass) (z : Z) :
  kindClass a s = Some cs -> kindClass a d = Some cd ->
  exists op r,
    converter.init m !! (s, d) = Some op /\
    converter.convertInt a op z = Some r /\
    inClass cd r /\
    (exists k, r = z + k * 2 ^ converter.classBits cd) /\
    (r = z <-> inClass cd z).
Proof.
  intros Hs Hd. destruct (init_lookup_int a m s d cs cd Hs Hd) as (op & Hop & Hrun).
  pose proof (kindClass_bits _ _ _ Hd) as Hbits.
  exists op, (converter.wrapTo cd z).
  split; [exact Hop|]. split; [apply Hrun|].
  split; [apply wrapTo_range; exact Hbits|].
  split; [apply wrapTo_congr; exact Hbits|].
  split.
  - intros He. rewrite <- He. apply wrapTo_range; exact Hbits.
  - apply wrapTo_id; exact Hbits.
Qed.

(** X14. Widening and back.  Converting an integer to an integer kind at least
    as wide, signed or not, and converting the result back, both with the
    functions of the table, gives the integer one started from. *)
Theorem convert_round_trip (a : converter.Arch)
    (m : gmap converter.convertKind converter.Op) (s d : reflect.Kind)
    (cs cd : converter.IntClass) (z : Z) :
  kindClass a s = Some cs -> kindClass a d = Some cd ->
  converter.classBits cs <= converter.classBits cd ->
  inClass cs z ->
  exists op back r,
    converter.init m !! (s, d) = Some op /\
    converter.init m !! (d, s) = Some back /\
    converter.convertInt a op z = Some r /\
    converter.convertInt a back r = Some z.
Proof.
  intros Hs Hd Hle Hz.
  destruct (init_lookup_int a m s d cs cd Hs Hd) as (op & Hop & Hrun).
  destruct (init_lookup_int a m d s cd cs Hd Hs) as (back & Hback & Hrun').
  pose proof (kindClass_bits _ _ _ Hs) as Hbs.
  pose proof (kindClass_bits _ _ _ Hd) as Hbd.
  exists op, back, (converter.wrapTo cd z).
  split; [exact Hop|]. split; [exact Hback|]. split; [apply Hrun|].
  rewrite Hrun'. f_equal.
  destruct (wrapTo_congr cd z Hbd) as (k & ->).
  replace (2 ^ converter.classBits cd)
    with (2 ^ (converter.classBits cd - converter.classBits cs) * 2 ^ converter.classBits cs).
  - rewrite Z.mul_assoc, wrapTo_shift. apply wrapTo_id; assumption.
  - rewrite <- Z.pow_add_r by lia. f_equal. lia.
Qed.

(** ** Destinations *)

(** X15. The variable behind the pointer of [NewValuePtr].  There is a pointer
    exactly for the kinds of basic types.  The variable has the type of the
    kind only for bool, int and string: for every other kind it is an int.
    It is smaller than a value of the kind for complex128 on every
    platform, and on a 32-bit platform also for int64, uint64, float64 and
    complex64; for every other kind a value of the kind fits in it. *)
Theorem NewValuePtr_variable (a : converter.Arch) (k : reflect.Kind) :
  match converter.NewValuePtr k, typeOf k with
  | Some v, Some t =>
      v = (match k with
           | reflect.Bool => converter.Tbool
           | reflect.String => converter.Tstring
           | _ => converter.Tint
           end) /\
      (converter.sizeof a v <? converter.sizeof a t) = largerThanInt a k
  | None, None => True
  | _, _ => False
  end.
Proof. destruct a, k; vm_compute; auto. Qed.

(** * The organizations of a user *)

Section OrganizationFacts.

Variable GetByUserId : string -> list organization.OrganizationUser.
Variable GetByIds : list Z -> list organization.Organization.
Variable Split : string -> string -> list string.
Variable Atoi : string -> Z * option error.

Lemma foldl_snoc_map {A B} (f : A -> B) (l : list A) (acc : list B) :
  foldl (fun acc v => acc ++ [f v]) acc l = acc ++ map f l.
Proof.
  revert acc. induction l as [|x l IH]; intros acc; simpl.
  - rewrite app_nil_r. reflexivity.
  - rewrite IH, <- app_assoc. reflexivity.
Qed.

Lemma foldl_segments (l : list string) (acc : list Z) :
  foldl (fun organizationIdArr vv =>
           let '(id, _) := Atoi vv in
           if 0 <? id then organizationIdArr ++ [id] else organizationIdArr) acc l =
  acc ++ List.filter (fun id => 0 <? id) (map (fun vv => fst (Atoi vv)) l).
Proof.
  revert acc. induction l as [|x l IH]; intros acc; simpl.
  - rewrite app_nil_r. reflexivity.
  - rewrite IH. destruct (Atoi x) as [id e]; simpl.
    destruct (0 <? id); [rewrite <- app_assoc|]; reflexivity.
Qed.

Lemma foldl_organizations (l : list organization.Organization) (acc : list Z) :
  foldl (fun organizationIdArr v =>
           foldl (fun organizationIdArr vv =>
                    let '(id, _) := Atoi vv in
                    if 0 <? id then organizationIdArr ++ [id] else organizationIdArr)
             organizationIdArr (Split (organization.PathInfo v) ",")) acc l =
  acc ++ concat (map (pathIds Split Atoi) l).
Proof.
  revert acc. induction l as [|v l IH]; intros acc; simpl.
  - rewrite app_nil_r. reflexivity.
  - rewrite IH, foldl_segments, <- app_assoc. reflexivity.
Qed.

(** X16. The organization ids of a user.  The repository of organizations is
    asked for the organization ids of the user's memberships, in their
    order.  The result lists, organization by organization and segment by
    segment, the positive numbers in the paths of the organizations
    returned: every id in it is positive, an id is in it exactly when some
    returned organization has it in its path, and nothing is removed: an
    id that is in the paths of two organizations is listed twice. *)
Theorem GetUserOrganizationIds_paths (userId : string) :
  let organizations :=
    GetByIds (map organization.OrganizationId (GetByUserId userId)) in
  let ids := organization.GetUserOrganizationIds GetByUserId GetByIds Split Atoi userId in
  ids = concat (map (pathIds Split Atoi) organizations) /\
  Forall (fun id => 0 < id) ids /\
  (forall id, In id ids <-> exists v, In v organizations /\ In id (pathIds Split Atoi v)) /\
  length ids = list_sum (map (fun v => length (pathIds Split Atoi v)) organizations).
Proof.
  cbv zeta.
  assert (He : organization.GetUserOrganizationIds GetByUserId GetByIds Split Atoi userId =
               concat (map (pathIds Split Atoi)
                 (GetByIds (map organization.OrganizationId (GetByUserId userId))))).
  { unfold organization.GetUserOrganizationIds. cbv zeta.
    rewrite foldl_snoc_map, foldl_organizations. reflexivity. }
  rewrite He. split; [reflexivity|].
  generalize (GetByIds (map organization.OrganizationId (GetByUserId userId))) as l.
  intros l. split; [|split].
  - induction l as [|v l IH]; simpl; [constructor|].
    apply Forall_app. split; [|exact IH].
    unfold pathIds. apply List.Forall_forall. intros id Hin.
    apply List.filter_In in Hin. destruct Hin as [_ Hpos]. lia.
  - intros id. rewrite List.in_concat. split.
    + intros (ids & Hids & Hin). apply List.in_map_iff in Hids.
      destruct Hids as (v & <- & Hv). exists v. auto.
    + intros (v & Hv & Hin). exists (pathIds Split Atoi v). split; [|exact Hin].
      apply List.in_map_iff. exists v. auto.
  - induction l as [|v l IH]; simpl; [reflexivity|].
    rewrite length_app, IH. reflexivity.
Qed.

End OrganizationFacts.

(** * Sample runs of the added services *)

Lemma GetApp_caches_witness :
  let s' := snd (wxmp.GetApp sampleWxmpSetting (inl 7%nat) "" emptyService) in
  wxmp.apps s' !! appKey sampleWxmpSetting "" = Some 7%nat /\
  (forall k, k <> appKey sampleWxmpSetting "" -> wxmp.apps s' !! k = wxmp.apps emptyService !! k) /\
  (forall answer', wxmp.GetApp sampleWxmpSetting answer' "" s' = (Some 7%nat, s')) /\
  (forall answer',
     wxmp.GetApp sampleWxmpSetting answer' (appKey sampleWxmpSetting "") s' = (Some 7%nat, s')).
Proof.
  apply (GetApp_caches sampleWxmpSetting (inl 7%nat) "" emptyService).
  reflexivity.
Defined.

Lemma GetApp_failure_not_cached_witness :
  let s' := snd (wxmp.GetApp sampleWxmpSetting (inr (ExternalError 1)) "wx-shop" emptyService) in
  wxmp.apps s' = wxmp.apps emptyService /\
  wxmp.apps emptyService !! appKey sampleWxmpSetting "wx-shop" = None /\
  ((wxmp.getAppSetting sampleWxmpSetting (appKey sampleWxmpSetting "wx-shop") = None /\
    s' = emptyService) \/
   (exists st err cfg,
      wxmp.getAppSetting sampleWxmpSetting (appKey sampleWxmpSetting "wx-shop") = Some st /\
      inr (ExternalError 1) = @inr nat error err /\
      wxmp.AppID cfg = appKey sampleWxmpSetting "wx-shop" /\
      wxmp.events s' =
        wxmp.events emptyService ++
        [wxmp.NewOfficialAccount cfg (inr err);
         wxmp.LogCreateFailed (appKey sampleWxmpSetting "wx-shop") err])).
Proof.
  apply (GetApp_failure_not_cached sampleWxmpSetting (inr (ExternalError 1)) "wx-shop" emptyService).
  reflexivity.
Defined.

Lemma convert_int_result_witness :
  exists op r,
    converter.init ∅ !! (reflect.Int64, reflect.Uint8) = Some op /\
    converter.convertInt converter.Arch64 op 300 = Some r /\
    inClass (converter.Unsigned 8) r /\
    (exists k, r = 300 + k * 2 ^ converter.classBits (converter.Unsigned 8)) /\
    (r = 300 <-> inClass (converter.Unsigned 8) 300).
Proof.
  apply (convert_int_result converter.Arch64 ∅ reflect.Int64 reflect.Uint8
           (converter.Signed 64) (converter.Unsigned 8) 300); reflexivity.
Defined.

Lemma convert_round_trip_witness :
  exists op back r,
    converter.init ∅ !! (reflect.Int8, reflect.Uint16) = Some op /\
    converter.init ∅ !! (reflect.Uint16, reflect.Int8) = Some back /\
    converter.convertInt converter.Arch64 op (-1) = Some r /\
    converter.convertInt converter.Arch64 back r = Some (-1).
Proof.
  apply (convert_round_trip converter.Arch64 ∅ reflect.Int8 reflect.Uint16
           (converter.Signed 8) (converter.Unsigned 16) (-1)).
  - reflexivity.
  - reflexivity.
  - simpl. lia.
  - unfold inClass. simpl. lia.
Defined.
